(** * Task manager backend: validation, authorisation and partial updates

    A shallow embedding of the Express handlers of the task manager
    (routes/tasks.js, routes/categories.js, routes/users.js), of the
    middleware they run behind (middleware/auth.js, utils/validation.js,
    middleware/errorHandler.js) and of the tables of database/schema.sql,
    followed by the properties the specification states about them. *)

From Stdlib Require Import ZArith List String Ascii Bool Lia.
From Stdlib Require Import QArith Qround.
From Stdlib Require Import DecimalString DecimalPos DecimalZ.
Import ListNotations.

Open Scope string_scope.
Open Scope Z_scope.

(* ===================================================================== *)
(** ** JavaScript values and objects *)
(* ===================================================================== *)

Module JS.

(** The values that travel through the handlers: JSON scalars, [undefined],
    and [Date] objects (an instant, in milliseconds).  Numbers are the
    integral ones and [NaN]; the database hands the same values back as
    columns. *)
Inductive value : Type :=
| VUndefined
| VNull
| VNaN
| VNum (z : Z)
| VStr (s : string)
| VDate (t : Z).

Definition value_eqb (a b : value) : bool :=
  match a, b with
  | VUndefined, VUndefined => true
  | VNull, VNull => true
  | VNum x, VNum y => Z.eqb x y
  | VStr x, VStr y => String.eqb x y
  | VDate x, VDate y => Z.eqb x y
  | _, _ => false
  end.

(** [a === b] on the values above. *)
Definition strict_eq (a b : value) : bool := value_eqb a b.

(** Truthiness, as tested by [if (x)] and [x && y]. *)
Definition truthy (v : value) : bool :=
  match v with
  | VUndefined | VNull | VNaN => false
  | VNum z => negb (Z.eqb z 0)
  | VStr s => negb (String.eqb s "")
  | VDate _ => true
  end.

(** A plain object: its own keys in insertion order. *)
Definition object : Type := list (string * value).

(** [o[k]]: the value under the key, [undefined] for a missing key. *)
Fixpoint get (o : object) (k : string) : value :=
  match o with
  | [] => VUndefined
  | (k', v) :: o' => if String.eqb k' k then v else get o' k
  end.

(** [Object.keys(o)] *)
Definition keys (o : object) : list string := map fst o.

Definition has_key (o : object) (k : string) : bool :=
  existsb (String.eqb k) (keys o).

(** [o[k] = v]: overwrite in place, or append a new key. *)
Fixpoint set (o : object) (k : string) (v : value) : object :=
  match o with
  | [] => [(k, v)]
  | (k', v') :: o' =>
      if String.eqb k' k then (k', v) :: o' else (k', v') :: set o' k v
  end.

(** Number to decimal text, as in a template literal, and [parseInt] on
    the decimal text of an integer ([None] stands for [NaN]). *)
Definition to_text (z : Z) : string := NilZero.string_of_int (Z.to_int z).

Definition parseInt (v : value) : option Z :=
  match v with
  | VNum z => Some z
  | VStr s => option_map Z.of_int (NilZero.int_of_string s)
  | _ => None
  end.


(** [s.split(' ')] *)
Fixpoint split_space (s : string) : list string :=
  match s with
  | EmptyString => [EmptyString]
  | String c s' =>
      if Ascii.eqb c " "%char then EmptyString :: split_space s'
      else match split_space s' with
           | [] => [String c EmptyString]
           | w :: ws => String c w :: ws
           end
  end.

(** Arithmetic: [None] is [NaN].  [to_number] is the coercion the
    operators apply to their operands. *)
Definition to_number (v : value) : option Z :=
  match v with
  | VNum z => Some z
  | VNull => Some 0
  | VDate t => Some t
  | VStr s => if String.eqb s "" then Some 0 else parseInt v
  | VUndefined | VNaN => None
  end.

Definition of_number (n : option Z) : value :=
  match n with Some z => VNum z | None => VNaN end.

Definition sub (a b : value) : value :=
  match to_number a, to_number b with
  | Some x, Some y => VNum (x - y)
  | _, _ => VNaN
  end.

Definition mul (a b : value) : value :=
  match to_number a, to_number b with
  | Some x, Some y => VNum (x * y)
  | _, _ => VNaN
  end.

Definition lt (a b : value) : bool :=
  match to_number a, to_number b with
  | Some x, Some y => x <? y
  | _, _ => false
  end.

(** [Math.ceil(a / b)]: the quotient is taken in the rationals, which is
    what the floating-point division gives once rounded up for counts in
    the safe-integer range.  A zero divisor (no validated limit is zero)
    is read as [NaN]. *)
Definition ceil_div (a b : value) : value :=
  match to_number a, to_number b with
  | Some x, Some y =>
      if y =? 0 then VNaN else VNum (Qceiling (inject_Z x / inject_Z y))
  | _, _ => VNaN
  end.

(** Text of a value inside a template literal. *)
Definition to_string (v : value) : string :=
  match v with
  | VStr s => s
  | VNum z => to_text z
  | VNull => "null"
  | VUndefined => "undefined"
  | VNaN => "NaN"
  | VDate t => to_text t
  end.

Definition upper_char (c : ascii) : ascii :=
  let n := nat_of_ascii c in
  if ((97 <=? n) && (n <=? 122))%nat then ascii_of_nat (n - 32) else c.

Fixpoint toUpperCase (s : string) : string :=
  match s with
  | EmptyString => EmptyString
  | String c s' => String (upper_char c) (toUpperCase s')
  end.

(** Text is held as its UTF-8 bytes.  [s.length] counts UTF-16 code
    units: one for a character of one to three bytes, two for a character
    of four, read off the first byte of each character. *)
Definition utf16_units (c : ascii) : nat :=
  let n := nat_of_ascii c in
  if (n <? 128)%nat then 1%nat
  else if (n <? 192)%nat then 0%nat
  else if (n <? 240)%nat then 1%nat
  else 2%nat.

Fixpoint utf16_length (s : string) : nat :=
  match s with
  | EmptyString => 0%nat
  | String c s' => (utf16_units c + utf16_length s')%nat
  end.

(** [Number.MAX_SAFE_INTEGER], and the integers beyond it either way. *)
Definition MAX_SAFE_INTEGER : Z := 9007199254740991.

Definition unsafe (z : Z) : bool :=
  (z <? - MAX_SAFE_INTEGER) || (MAX_SAFE_INTEGER <? z).

End JS.
Import JS.

(* ===================================================================== *)
(** ** Collaborators outside the repository's sources *)
(* ===================================================================== *)

(** The payload a session token carries. *)
Record token_payload : Type := { userId : Z }.

(** How the validation library reads text where a number is asked for:
    as nothing numeric, as a number it refuses as unsafe, as an integer,
    or as a number that is no integer, lying strictly between [below] and
    [below + 1]. *)
Inductive number_text : Type :=
| NotANumber
| UnsafeNumber
| Integral (z : Z)
| Fractional (below : Z).

(** What the handlers consume without defining: the token verifier of
    utils/jwt.js, which is not among the sources ([None] when it throws
    on a bad signature or an expired token); the readers and format
    recognisers of the validation library; the two operations of the
    relational engine that depend on collation ([ILIKE] and [ORDER BY]);
    and the time zone of the server, as the map from an instant to the
    start of the calendar day it falls on, which is what a DATE column
    keeps of a [Date] and hands back. *)
Class Platform : Type := {
  verifyToken : string -> option token_payload;
  is_email : string -> bool;
  is_uri : string -> bool;
  parse_iso_date : string -> option Z;
  number_of_text : string -> number_text;
  ilike : string -> string -> bool;
  order_rows : string -> string -> list object -> list object;
  local_midnight : Z -> Z
}.

(* ===================================================================== *)
(** ** utils/validation.js: the schemas and the validation middleware *)
(* ===================================================================== *)

Module Joi.

Inductive kind : Type := KString | KNumber | KDate.

Inductive rule : Type :=
| Min (n : Z)
| Max (n : Z)
| Email
| Uri
| Pattern (re : string -> bool)
| Integer
| Positive
| Iso.

(** One key of an object schema: its base type, the chained rules, the
    values of [valid(...)] (which also make the key accept nothing
    else), the values of [allow(...)], [required()] and [default(...)]. *)
Record schema : Type := {
  base : kind;
  rules : list rule;
  only : list value;
  allowed : list value;
  is_required : bool;
  default_value : option value
}.

Definition string_ : schema :=
  {| base := KString; rules := []; only := []; allowed := [];
     is_required := false; default_value := None |}.
Definition number : schema :=
  {| base := KNumber; rules := []; only := []; allowed := [];
     is_required := false; default_value := None |}.
Definition date : schema :=
  {| base := KDate; rules := []; only := []; allowed := [];
     is_required := false; default_value := None |}.

Definition with_rule (r : rule) (s : schema) : schema :=
  {| base := base s; rules := rules s ++ [r]; only := only s;
     allowed := allowed s; is_required := is_required s;
     default_value := default_value s |}.

Definition min (n : Z) := with_rule (Min n).
Definition max (n : Z) := with_rule (Max n).
Definition email := with_rule Email.
Definition uri := with_rule Uri.
Definition pattern (re : string -> bool) := with_rule (Pattern re).
Definition integer := with_rule Integer.
Definition positive := with_rule Positive.
Definition iso := with_rule Iso.

Definition valid (vs : list string) (s : schema) : schema :=
  {| base := base s; rules := rules s; only := map VStr vs;
     allowed := allowed s; is_required := is_required s;
     default_value := default_value s |}.
Definition allow (v : value) (s : schema) : schema :=
  {| base := base s; rules := rules s; only := only s;
     allowed := allowed s ++ [v]; is_required := is_required s;
     default_value := default_value s |}.
Definition required (s : schema) : schema :=
  {| base := base s; rules := rules s; only := only s;
     allowed := allowed s; is_required := true;
     default_value := default_value s |}.
Definition default (v : value) (s : schema) : schema :=
  {| base := base s; rules := rules s; only := only s;
     allowed := allowed s; is_required := is_required s;
     default_value := Some v |}.

(** [Joi.object({...})]: the keys in declaration order; [a.concat(b)]
    joins two objects with disjoint keys. *)
Definition object_schema : Type := list (string * schema).
Definition concat (a b : object_schema) : object_schema := (a ++ b)%list.

(** What a failed check reports (the library renders each as a message
    naming the key). *)
Inductive violation : Type :=
| AnyRequired
| AnyOnly
| StringBase
| StringEmpty
| StringMin (n : Z)
| StringMax (n : Z)
| StringEmail
| StringUri
| StringPattern
| NumberBase
| NumberUnsafe
| NumberInteger
| NumberPositive
| NumberMin (n : Z)
| NumberMax (n : Z)
| DateBase
| DateFormat.

(** [value.length], as the length rules of a string count it. *)
Definition str_len (s : string) : Z := Z.of_nat (utf16_length s).

(** A number as the rules see it: an integer, or a number that is no
    integer, strictly between [below] and [below + 1]. *)
Inductive num : Type :=
| Whole (z : Z)
| Between (below : Z).

(** A value after the conversion that precedes every check: the value
    itself (converted or as it came), a number that is no integer (which
    the values of this model do not hold), or the refusal of the
    conversion. *)
Inductive converted : Type :=
| Plain (v : value)
| NonInteger (below : Z)
| Refused (e : violation).

Section Check.
Context `{Platform}.

Definition check_string_rule (s : string) (r : rule) : list violation :=
  match r with
  | Min n => if str_len s <? n then [StringMin n] else []
  | Max n => if n <? str_len s then [StringMax n] else []
  | Email => if is_email s then [] else [StringEmail]
  | Uri => if is_uri s then [] else [StringUri]
  | Pattern re => if re s then [] else [StringPattern]
  | _ => []
  end.

Definition check_number_rule (n : num) (r : rule) : list violation :=
  match r, n with
  | Integer, Between _ => [NumberInteger]
  | Min m, Whole z => if z <? m then [NumberMin m] else []
  | Min m, Between b => if b <? m then [NumberMin m] else []
  | Max m, Whole z => if m <? z then [NumberMax m] else []
  | Max m, Between b => if m <=? b then [NumberMax m] else []
  | Positive, Whole z => if 0 <? z then [] else [NumberPositive]
  | Positive, Between b => if 0 <=? b then [] else [NumberPositive]
  | _, _ => []
  end.

(** The conversion ([convert] is on): text is read as a number where the
    key asks for a number, and text or a number as an ISO date where it
    asks for a date (every date of the schemas below is [iso()]; a number
    is read through its decimal text).  What cannot be read stays as it
    came, for the base check to refuse. *)
Definition coerce (sc : schema) (v : value) : converted :=
  match base sc, v with
  | KNumber, VStr s =>
      match number_of_text s with
      | NotANumber => Plain v
      | UnsafeNumber => Refused NumberUnsafe
      | Integral z => Plain (VNum z)
      | Fractional b => NonInteger b
      end
  | KDate, VStr s =>
      match parse_iso_date s with
      | Some t => Plain (VDate t)
      | None => Plain v
      end
  | KDate, VNum z =>
      match parse_iso_date (to_text z) with
      | Some t => Plain (VDate t)
      | None => Plain v
      end
  | _, _ => Plain v
  end.

(** The check of the base type, which stops at its own failure, then the
    rules, which are all run ([abortEarly] is off). *)
Definition check_base (sc : schema) (v : value) : list violation :=
  match base sc, v with
  | KString, VStr s =>
      if String.eqb s "" then [StringEmpty]
      else flat_map (check_string_rule s) (rules sc)
  | KString, _ => [StringBase]
  | KNumber, VNum z =>
      if unsafe z then [NumberUnsafe]
      else flat_map (check_number_rule (Whole z)) (rules sc)
  | KNumber, _ => [NumberBase]
  | KDate, VDate _ => []
  | KDate, VStr _ => [DateFormat]
  | KDate, _ => [DateBase]
  end.

(** [valid(...)] makes the key accept nothing but the listed values; with
    [abortEarly] off its failure is reported and the checks go on. *)
Definition only_violation (sc : schema) : list violation :=
  match only sc with
  | _ :: _ => [AnyOnly]
  | [] => []
  end.

(** One key: the violations found and the converted value; [undefined]
    when the key stays absent.  A missing key is required or takes its
    default; a value is converted, accepted at once when it is one of the
    listed or allowed values, and checked otherwise. *)
Definition check_key (sc : schema) (v : value) : list violation * value :=
  match v with
  | VUndefined =>
      if is_required sc then ([AnyRequired], VUndefined)
      else match default_value sc with
           | Some d => ([], d)
           | None => ([], VUndefined)
           end
  | _ =>
      match coerce sc v with
      | Refused e => ([e], v)
      | NonInteger b =>
          ((only_violation sc
            ++ flat_map (check_number_rule (Between b)) (rules sc))%list,
           VNaN)
      | Plain v1 =>
          if existsb (value_eqb v1) (only sc ++ allowed sc)%list
          then ([], v1)
          else ((only_violation sc ++ check_base sc v1)%list, v1)
      end
  end.

(** The schema of a key, if the object schema declares it. *)
Definition schema_of (sch : object_schema) (k : string) : option schema :=
  option_map snd (find (fun p => String.eqb (fst p) k) sch).

(** The own keys of an object, each once. *)
Fixpoint own_keys (o : object) : list string :=
  match o with
  | [] => []
  | (k, _) :: o' =>
      k :: filter (fun k' => negb (String.eqb k k')) (own_keys o')
  end.

Definition entry (k : string) (v : value) : object :=
  match v with
  | VUndefined => []
  | _ => [(k, v)]
  end.

(** [schema.validate(input, { abortEarly: false, stripUnknown: true })]:
    the error details as (path, violation), in the order of the schema,
    and the normalised value.  The value keeps the keys of the input that
    the schema declares, in the order of the input and with their
    converted values; the keys the input lacks follow with their
    defaults, in the order of the schema. *)
Definition validate_keys (sch : object_schema) (input : object)
  : list (string * violation) * object :=
  (flat_map (fun p => map (pair (fst p))
                        (fst (check_key (snd p) (get input (fst p))))) sch,
   (flat_map (fun k => match schema_of sch k with
                       | Some sc => entry k (snd (check_key sc (get input k)))
                       | None => []
                       end)
      (own_keys input)
    ++ flat_map (fun p => if has_key input (fst p) then []
                          else entry (fst p) (snd (check_key (snd p)
                                                     VUndefined)))
         sch)%list).

End Check.
End Joi.

(** The regular expression [/^#[0-9A-F]{6}$/i]. *)
Definition is_hex_digit (c : ascii) : bool :=
  let n := nat_of_ascii c in
  ((48 <=? n) && (n <=? 57) || (65 <=? n) && (n <=? 70)
   || (97 <=? n) && (n <=? 102))%nat.

Definition hex_color (s : string) : bool :=
  match list_ascii_of_string s with
  | h :: ds =>
      Ascii.eqb h "#"%char && Nat.eqb (List.length ds) 6
      && forallb is_hex_digit ds
  | [] => false
  end.

Definition userSchemas_updateProfile : Joi.object_schema :=
  [ ("name", Joi.max 100 (Joi.min 2 Joi.string_));
    ("email", Joi.email Joi.string_);
    ("avatar_url", Joi.allow (VStr "") (Joi.uri Joi.string_)) ].

Definition taskSchemas_create : Joi.object_schema :=
  [ ("title", Joi.required (Joi.max 200 (Joi.min 1 Joi.string_)));
    ("description", Joi.allow (VStr "") (Joi.max 1000 Joi.string_));
    ("status",
      Joi.default (VStr "pending")
        (Joi.valid ["pending"; "in_progress"; "completed"] Joi.string_));
    ("priority",
      Joi.default (VStr "medium")
        (Joi.valid ["low"; "medium"; "high"] Joi.string_));
    ("due_date", Joi.allow VNull (Joi.iso Joi.date));
    ("category_id",
      Joi.allow VNull (Joi.positive (Joi.integer Joi.number))) ].

Definition taskSchemas_update : Joi.object_schema :=
  [ ("title", Joi.max 200 (Joi.min 1 Joi.string_));
    ("description", Joi.allow (VStr "") (Joi.max 1000 Joi.string_));
    ("status",
      Joi.valid ["pending"; "in_progress"; "completed"] Joi.string_);
    ("priority", Joi.valid ["low"; "medium"; "high"] Joi.string_);
    ("due_date", Joi.allow VNull (Joi.iso Joi.date));
    ("category_id",
      Joi.allow VNull (Joi.positive (Joi.integer Joi.number))) ].

Definition categorySchemas_create : Joi.object_schema :=
  [ ("name", Joi.required (Joi.max 50 (Joi.min 1 Joi.string_)));
    ("color",
      Joi.default (VStr "#3B82F6") (Joi.pattern hex_color Joi.string_)) ].

Definition categorySchemas_update : Joi.object_schema :=
  [ ("name", Joi.max 50 (Joi.min 1 Joi.string_));
    ("color", Joi.pattern hex_color Joi.string_) ].

Definition querySchemas_pagination : Joi.object_schema :=
  [ ("page", Joi.default (VNum 1) (Joi.min 1 (Joi.integer Joi.number)));
    ("limit",
      Joi.default (VNum 10)
        (Joi.max 100 (Joi.min 1 (Joi.integer Joi.number))));
    ("sort",
      Joi.default (VStr "created_at")
        (Joi.valid ["created_at"; "updated_at"; "title"; "due_date";
                    "priority"] Joi.string_));
    ("order",
      Joi.default (VStr "desc") (Joi.valid ["asc"; "desc"] Joi.string_)) ].

Definition querySchemas_taskFilters : Joi.object_schema :=
  [ ("status",
      Joi.valid ["pending"; "in_progress"; "completed"] Joi.string_);
    ("priority", Joi.valid ["low"; "medium"; "high"] Joi.string_);
    ("category_id", Joi.positive (Joi.integer Joi.number));
    ("due_date_from", Joi.iso Joi.date);
    ("due_date_to", Joi.iso Joi.date);
    ("search", Joi.max 100 Joi.string_) ].

(* ===================================================================== *)
(** ** database/schema.sql and the statements the handlers send *)
(* ===================================================================== *)

Module Pg.

Inductive table : Type := Users | Categories | Tasks.

Inductive ctype : Type :=
| SERIAL | INTEGER | VARCHAR (n : nat) | TEXT | DATE | TIMESTAMP.

Inductive default_expr : Type :=
| Literal (v : value)
| DEFAULT_CURRENT_TIMESTAMP.

Inductive on_delete : Type := CASCADE | SET_NULL.

Record column : Type := {
  cname : string;
  type : ctype;
  not_null : bool;
  unique : bool;
  default : option default_expr;
  check_in : list string;
  references : option (table * on_delete)
}.

Definition col (n : string) (t : ctype) : column :=
  {| cname := n; type := t; not_null := false; unique := false;
     default := None; check_in := []; references := None |}.
Definition PRIMARY_KEY (c : column) : column :=
  {| cname := cname c; type := type c; not_null := true; unique := true;
     default := default c; check_in := check_in c;
     references := references c |}.
Definition NOT_NULL (c : column) : column :=
  {| cname := cname c; type := type c; not_null := true;
     unique := unique c; default := default c; check_in := check_in c;
     references := references c |}.
Definition UNIQUE (c : column) : column :=
  {| cname := cname c; type := type c; not_null := not_null c;
     unique := true; default := default c; check_in := check_in c;
     references := references c |}.
Definition DEFAULT (e : default_expr) (c : column) : column :=
  {| cname := cname c; type := type c; not_null := not_null c;
     unique := unique c; default := Some e; check_in := check_in c;
     references := references c |}.
Definition CHECK_IN (vs : list string) (c : column) : column :=
  {| cname := cname c; type := type c; not_null := not_null c;
     unique := unique c; default := default c; check_in := vs;
     references := references c |}.
Definition REFERENCES (t : table) (a : on_delete) (c : column) : column :=
  {| cname := cname c; type := type c; not_null := not_null c;
     unique := unique c; default := default c; check_in := check_in c;
     references := Some (t, a) |}.

(** The three CREATE TABLE statements. *)
Definition columns (t : table) : list column :=
  match t with
  | Users =>
      [ PRIMARY_KEY (col "id" SERIAL);
        NOT_NULL (col "name" (VARCHAR 100));
        NOT_NULL (UNIQUE (col "email" (VARCHAR 255)));
        NOT_NULL (col "password" (VARCHAR 255));
        col "avatar_url" (VARCHAR 500);
        DEFAULT DEFAULT_CURRENT_TIMESTAMP (col "created_at" TIMESTAMP);
        DEFAULT DEFAULT_CURRENT_TIMESTAMP (col "updated_at" TIMESTAMP) ]
  | Categories =>
      [ PRIMARY_KEY (col "id" SERIAL);
        NOT_NULL (col "name" (VARCHAR 50));
        DEFAULT (Literal (VStr "#3B82F6")) (col "color" (VARCHAR 7));
        REFERENCES Users CASCADE (col "user_id" INTEGER);
        DEFAULT DEFAULT_CURRENT_TIMESTAMP (col "created_at" TIMESTAMP) ]
  | Tasks =>
      [ PRIMARY_KEY (col "id" SERIAL);
        NOT_NULL (col "title" (VARCHAR 200));
        col "description" TEXT;
        CHECK_IN ["pending"; "in_progress"; "completed"]
          (DEFAULT (Literal (VStr "pending")) (col "status" (VARCHAR 20)));
        CHECK_IN ["low"; "medium"; "high"]
          (DEFAULT (Literal (VStr "medium")) (col "priority" (VARCHAR 10)));
        col "due_date" DATE;
        REFERENCES Categories SET_NULL (col "category_id" INTEGER);
        REFERENCES Users CASCADE (col "user_id" INTEGER);
        DEFAULT DEFAULT_CURRENT_TIMESTAMP (col "created_at" TIMESTAMP);
        DEFAULT DEFAULT_CURRENT_TIMESTAMP (col "updated_at" TIMESTAMP);
        col "completed_at" TIMESTAMP ]
  end.

(** The BEFORE UPDATE triggers that set [updated_at]: on users and tasks. *)
Definition has_update_trigger (t : table) : bool :=
  match t with Users | Tasks => true | Categories => false end.

(** A row maps each column of its table to a value; the database holds
    the three tables and the sequences behind the SERIAL keys. *)
Record db : Type := {
  users : list object;
  categories : list object;
  tasks : list object;
  users_id_seq : Z;
  categories_id_seq : Z;
  tasks_id_seq : Z
}.

Definition rows_of (d : db) (t : table) : list object :=
  match t with
  | Users => users d | Categories => categories d | Tasks => tasks d
  end.

Definition with_rows (d : db) (t : table) (rs : list object) : db :=
  match t with
  | Users =>
      {| users := rs; categories := categories d; tasks := tasks d;
         users_id_seq := users_id_seq d;
         categories_id_seq := categories_id_seq d;
         tasks_id_seq := tasks_id_seq d |}
  | Categories =>
      {| users := users d; categories := rs; tasks := tasks d;
         users_id_seq := users_id_seq d;
         categories_id_seq := categories_id_seq d;
         tasks_id_seq := tasks_id_seq d |}
  | Tasks =>
      {| users := users d; categories := categories d; tasks := rs;
         users_id_seq := users_id_seq d;
         categories_id_seq := categories_id_seq d;
         tasks_id_seq := tasks_id_seq d |}
  end.

Definition seq_of (d : db) (t : table) : Z :=
  match t with
  | Users => users_id_seq d
  | Categories => categories_id_seq d
  | Tasks => tasks_id_seq d
  end.

(** [nextval]: the sequence moves on whether or not the statement that
    drew from it succeeds. *)
Definition advance_seq (d : db) (t : table) : db :=
  match t with
  | Users =>
      {| users := users d; categories := categories d; tasks := tasks d;
         users_id_seq := users_id_seq d + 1;
         categories_id_seq := categories_id_seq d;
         tasks_id_seq := tasks_id_seq d |}
  | Categories =>
      {| users := users d; categories := categories d; tasks := tasks d;
         users_id_seq := users_id_seq d;
         categories_id_seq := categories_id_seq d + 1;
         tasks_id_seq := tasks_id_seq d |}
  | Tasks =>
      {| users := users d; categories := categories d; tasks := tasks d;
         users_id_seq := users_id_seq d;
         categories_id_seq := categories_id_seq d;
         tasks_id_seq := tasks_id_seq d + 1 |}
  end.

(** WHERE conditions; a list of them is their conjunction.  A comparison
    with NULL is never true. *)
Inductive cond : Type :=
| Eq (c : string) (v : value)
| Neq (c : string) (v : value)
| Ge (c : string) (v : value)
| Le (c : string) (v : value)
| IsNull (c : string)
| ILike (c : string) (pattern : string)
| Or (a b : cond).

Inductive assignment : Type :=
| SetParam (c : string) (v : value)
| SetCurrentTimestamp (c : string).

Inductive stmt : Type :=
| SELECT (cols : list string) (from : table) (where_ : list cond)
| SELECT_COUNT (from : table) (where_ : list cond)
| SELECT_TASKS_JOIN_CATEGORIES (where_ : list cond)
    (order_by : option (string * string))
    (limit_offset : option (value * value))
| INSERT (into : table) (cols : list string) (vals : list value)
    (returning : list string)
| UPDATE (t : table) (set_ : list assignment) (where_ : list cond)
    (returning : list string)
| DELETE (from : table) (where_ : list cond) (returning : list string).

(** SQLSTATE codes of the failures modelled. *)
Definition undefined_column := "42703".
Definition invalid_text_representation := "22P02".
Definition string_data_right_truncation := "22001".
Definition numeric_value_out_of_range := "22003".
Definition sequence_generator_limit_exceeded := "2200H".
Definition not_null_violation := "23502".
Definition check_violation := "23514".
Definition unique_violation := "23505".
Definition foreign_key_violation := "23503".

Inductive result : Type :=
| Rows (rs : list object)
| Error (code : string).

(** The driver sends [undefined] as NULL. *)
Definition to_param (v : value) : value :=
  match v with VUndefined => VNull | _ => v end.

Definition value_leb (a b : value) : bool :=
  match a, b with
  | VNum x, VNum y => x <=? y
  | VDate x, VDate y => x <=? y
  | _, _ => false
  end.

Definition is_null (v : value) : bool :=
  match v with VNull | VUndefined => true | _ => false end.

Definition project (cols : list string) (r : object) : object :=
  map (fun c => (c, get r c)) cols.

(** The integers an INTEGER or SERIAL column holds. *)
Definition int4 (z : Z) : bool := (- 2 ^ 31 <=? z) && (z <? 2 ^ 31).

(** The characters of a text, which is what VARCHAR(n) counts: the bytes
    that start one. *)
Fixpoint char_length (s : string) : nat :=
  match s with
  | EmptyString => 0%nat
  | String c s' =>
      let n := nat_of_ascii c in
      ((if (128 <=? n) && (n <? 192) then 0 else 1) + char_length s')%nat
  end.

(** A value written to a column of type [t]: an integer has to fit the
    column, a text its declared length.  The handlers bind every column
    to a value of its own kind or to NULL (validation sees to it); the
    other pairings are refused here.  Text longer than VARCHAR(n) allows
    is refused; the engine cuts it instead when all the excess is blanks,
    which no text that passed validation is. *)
Definition type_ok (t : ctype) (v : value) : option string :=
  match v, t with
  | VNull, _ => None
  | VNum z, (SERIAL | INTEGER) =>
      if int4 z then None else Some numeric_value_out_of_range
  | VStr s, VARCHAR n =>
      if (char_length s <=? n)%nat then None
      else Some string_data_right_truncation
  | VStr _, TEXT => None
  | VDate _, (DATE | TIMESTAMP) => None
  | _, _ => Some invalid_text_representation
  end.

(** The one column name that schema.sql declares with type DATE. *)
Definition is_date_column (k : string) : bool :=
  existsb (fun c => String.eqb (cname c) k
                    && match type c with DATE => true | _ => false end)
    (columns Users ++ columns Categories ++ columns Tasks)%list.

Definition find_column (t : table) (c : string) : option column :=
  find (fun k => String.eqb (cname k) c) (columns t).

Definition first_error (l : list (option string)) : option string :=
  fold_right (fun e acc => match e with Some _ => e | None => acc end)
    None l.

Section Engine.
Context `{Platform}.

(** A parameter as the column [k] takes it: of a [Date] bound to a DATE
    column the calendar day is kept, which comes back as the start of
    that day. *)
Definition bind_to (k : string) (v : value) : value :=
  if is_date_column k
  then match to_param v with
       | VDate t => VDate (local_midnight t)
       | v' => v'
       end
  else to_param v.

(** A WHERE condition on a row.  The parameter is compared as a value of
    the column's type.  The engine refuses, when it binds a statement, a
    parameter that is no such value (an integer outside the range of an
    INTEGER column, a text that spells no integer); that refusal is not
    part of [exec], and the properties below in which a request chooses
    an integer parameter of a WHERE clause take it within [int4]. *)
Fixpoint eval_cond (r : object) (c : cond) : bool :=
  match c with
  | Eq k v => value_eqb (get r k) (bind_to k v) && negb (is_null (get r k))
  | Neq k v =>
      negb (value_eqb (get r k) (bind_to k v))
      && negb (is_null (get r k)) && negb (is_null v)
  | Ge k v => value_leb (bind_to k v) (get r k)
  | Le k v => value_leb (get r k) (bind_to k v)
  | IsNull k => is_null (get r k)
  | ILike k p =>
      match get r k with VStr s => ilike s p | _ => false end
  | Or a b => eval_cond r a || eval_cond r b
  end.

Definition matches (where_ : list cond) (r : object) : bool :=
  forallb (eval_cond r) where_.

(** Types and lengths, then NOT NULL and CHECK, per column. *)
Definition column_error (k : column) (v : value) : option string :=
  match type_ok (type k) v with
  | Some e => Some e
  | None =>
      if not_null k && is_null v then Some not_null_violation
      else match check_in k, v with
           | _ :: _, VStr s =>
               if existsb (String.eqb s) (check_in k) then None
               else Some check_violation
           | _, _ => None
           end
  end.

Fixpoint has_duplicate (l : list value) : bool :=
  match l with
  | [] => false
  | v :: l' => existsb (value_eqb v) l' || has_duplicate l'
  end.

(** NULLs never collide in a unique index. *)
Definition unique_error (t : table) (rs : list object) : option string :=
  first_error
    (map (fun k =>
            if unique k
               && has_duplicate
                    (filter (fun v => negb (is_null v))
                       (map (fun r => get r (cname k)) rs))
            then Some unique_violation else None)
       (columns t)).

Definition foreign_key_error (d : db) (t : table) (r : object)
  : option string :=
  first_error
    (map (fun k =>
            match references k with
            | Some (t', _) =>
                if is_null (get r (cname k)) then None
                else if existsb
                          (fun r' => value_eqb (get r' "id") (get r (cname k)))
                          (rows_of d t')
                     then None else Some foreign_key_violation
            | None => None
            end)
       (columns t)).

(** The constraints on the rows a statement wrote, in the order the
    engine raises them. *)
Definition constraint_error (d : db) (t : table) (written : list object)
  (all : list object) : option string :=
  first_error
    [ first_error
        (flat_map (fun r => map (fun k => column_error k (get r (cname k)))
                              (columns t)) written);
      unique_error t all;
      first_error (map (foreign_key_error d t) written) ].

Definition unknown_columns (t : table) (cs : list string) : bool :=
  existsb (fun c => match find_column t c with None => true | _ => false end)
    cs.

(** The row an INSERT builds: the listed columns from the parameters, the
    others from their defaults. *)
Definition new_row (now : Z) (d : db) (t : table) (given : object) : object :=
  map (fun k =>
         (cname k,
          if has_key given (cname k)
          then bind_to (cname k) (get given (cname k))
          else match type k, default k with
               | SERIAL, _ => VNum (seq_of d t)
               | _, Some (Literal v) => v
               | _, Some DEFAULT_CURRENT_TIMESTAMP => VDate now
               | _, None => VNull
               end))
    (columns t).

Definition assigned_column (a : assignment) : string :=
  match a with SetParam c _ | SetCurrentTimestamp c => c end.

Definition assign (now : Z) (r : object) (a : assignment) : object :=
  match a with
  | SetParam c v => set r c (bind_to c v)
  | SetCurrentTimestamp c => set r c (VDate now)
  end.

Definition fire_update_trigger (now : Z) (t : table) (r : object) : object :=
  if has_update_trigger t then set r "updated_at" (VDate now) else r.

Definition update_row (now : Z) (t : table) (set_ : list assignment)
  (r : object) : object :=
  fire_update_trigger now t (fold_left (assign now) set_ r).

(** ON DELETE SET NULL, run as an update of the referencing tasks. *)
Definition clear_category (now : Z) (gone : list object) (r : object)
  : object :=
  if existsb (fun g => value_eqb (get g "id") (get r "category_id")) gone
  then fire_update_trigger now Tasks (set r "category_id" VNull)
  else r.

Definition owned_by (gone : list object) (r : object) : bool :=
  existsb (fun g => value_eqb (get g "id") (get r "user_id")) gone.

Definition delete_rows (now : Z) (d : db) (t : table) (where_ : list cond)
  : list object * db :=
  let gone := filter (matches where_) (rows_of d t) in
  let kept := filter (fun r => negb (matches where_ r)) (rows_of d t) in
  match t with
  | Tasks => (gone, with_rows d Tasks kept)
  | Categories =>
      (gone,
       with_rows (with_rows d Categories kept) Tasks
         (map (clear_category now gone) (tasks d)))
  | Users =>
      let cats_gone := filter (owned_by gone) (categories d) in
      (gone,
       {| users := kept;
          categories :=
            filter (fun r => negb (owned_by gone r)) (categories d);
          tasks :=
            map (clear_category now cats_gone)
              (filter (fun r => negb (owned_by gone r)) (tasks d));
          users_id_seq := users_id_seq d;
          categories_id_seq := categories_id_seq d;
          tasks_id_seq := tasks_id_seq d |})
  end.

Definition joined_row (d : db) (r : object) : object :=
  let c := match find (fun c => value_eqb (get c "id") (get r "category_id"))
                   (categories d) with
           | Some c => c
           | None => []
           end in
  (project ["id"; "title"; "description"; "status"; "priority"; "due_date";
            "created_at"; "updated_at"; "completed_at"] r
   ++ [ ("category_id", to_param (get c "id"));
        ("category_name", to_param (get c "name"));
        ("category_color", to_param (get c "color")) ])%list.

Definition limit_rows (lo : option (value * value)) (rs : list object)
  : list object :=
  match lo with
  | Some (VNum l, VNum o) => firstn (Z.to_nat l) (skipn (Z.to_nat o) rs)
  | _ => rs
  end.

(** The values of an INSERT and of a SET list are read as values of their
    columns when the statement is bound, before anything runs: an integer
    that its column cannot hold stops the statement there. *)
Definition param_error (t : table) (c : string) (v : value)
  : option string :=
  match find_column t c, v with
  | Some k, VNum z =>
      match type k with
      | SERIAL | INTEGER =>
          if int4 z then None else Some numeric_value_out_of_range
      | _ => None
      end
  | _, _ => None
  end.

Definition bind_error (t : table) (given : object) : option string :=
  first_error (map (fun p => param_error t (fst p) (snd p)) given).

Definition set_params (set_ : list assignment) : object :=
  flat_map (fun a => match a with
                     | SetParam c v => [(c, v)]
                     | SetCurrentTimestamp _ => []
                     end)
    set_.

(** Running one statement at the engine's clock reading [now].  An INSERT
    that passes the binding draws its id from the sequence, which fails
    once the sequence has left the range of its column. *)
Definition exec (now : Z) (s : stmt) (d : db) : result * db :=
  match s with
  | SELECT cols t w =>
      (Rows (map (project cols) (filter (matches w) (rows_of d t))), d)
  | SELECT_COUNT t w =>
      (Rows [[("count",
               VStr (to_text
                       (Z.of_nat (List.length
                                    (filter (matches w) (rows_of d t))))))]],
       d)
  | SELECT_TASKS_JOIN_CATEGORIES w ob lo =>
      let rs := map (joined_row d) (filter (matches w) (tasks d)) in
      let sorted := match ob with
                    | Some (k, dir) => order_rows k dir rs
                    | None => rs
                    end in
      (Rows (limit_rows lo sorted), d)
  | INSERT t cols vals ret =>
      if unknown_columns t cols then (Error undefined_column, d)
      else
        match bind_error t (combine cols vals) with
        | Some e => (Error e, d)
        | None =>
            if negb (has_key (combine cols vals) "id")
               && negb (int4 (seq_of d t))
            then (Error sequence_generator_limit_exceeded, d)
            else
              let r := new_row now d t (combine cols vals) in
              let d' := if has_key (combine cols vals) "id" then d
                        else advance_seq d t in
              match constraint_error d t [r] (rows_of d t ++ [r]) with
              | Some e => (Error e, d')
              | None =>
                  (Rows [project ret r],
                   with_rows d' t (rows_of d t ++ [r]))
              end
        end
  | UPDATE t set_ w ret =>
      if unknown_columns t (map assigned_column set_)
      then (Error undefined_column, d)
      else
        match bind_error t (set_params set_) with
        | Some e => (Error e, d)
        | None =>
            let written := map (update_row now t set_)
                             (filter (matches w) (rows_of d t)) in
            let all := map (fun r => if matches w r
                                     then update_row now t set_ r else r)
                         (rows_of d t) in
            match constraint_error d t written all with
            | Some e => (Error e, d)
            | None => (Rows (map (project ret) written), with_rows d t all)
            end
        end
  | DELETE t w ret =>
      let (gone, d') := delete_rows now d t w in
      (Rows (map (project ret) gone), d')
  end.

End Engine.
End Pg.

(* ===================================================================== *)
(** ** Requests, responses and the world a request runs in *)
(* ===================================================================== *)

Module Express.

Record pagination : Type := {
  currentPage : value;
  totalPages : value;
  totalTasks : value;
  hasNextPage : bool;
  hasPrevPage : bool
}.

Inductive payload : Type :=
| Row (r : option object)
| RowList (rs : list object)
| TaskPage (tasks : list object) (p : pagination).

(** The JSON envelope with the status it is sent under. *)
Record response : Type := {
  status : Z;
  success : bool;
  message : option string;
  data : option payload;
  errors : list (string * Joi.violation);
  stack : option string
}.

Definition json (st : Z) (ok : bool) (msg : option string)
  (d : option payload) : response :=
  {| status := st; success := ok; message := msg; data := d;
     errors := []; stack := None |}.

(** A thrown error object, with the properties the error handler reads;
    [err_isJoi] carries [details[0].message]. *)
Record js_error : Type := {
  err_name : string;
  err_message : string;
  err_status : option Z;
  err_isJoi : option string;
  err_code : option string;
  err_stack : string
}.

Definition TypeError : js_error :=
  {| err_name := "TypeError";
     err_message := "Cannot read properties of undefined";
     err_status := None; err_isJoi := None; err_code := None;
     err_stack := "" |}.

(** The error the driver throws for a failed statement. *)
Definition DatabaseError (code : string) : js_error :=
  {| err_name := "error"; err_message := "statement failed";
     err_status := None; err_isJoi := None; err_code := Some code;
     err_stack := "" |}.

(** What the handlers read of a request.  [params_id] is the [:id]
    segment of the path, held as the integer it spells. *)
Record request : Type := {
  authorization : option string;
  params_id : Z;
  body : object;
  query_string : object;
  user : option object
}.

Definition with_user (r : request) (u : object) : request :=
  {| authorization := authorization r; params_id := params_id r;
     body := body r; query_string := query_string r; user := Some u |}.
Definition with_body (r : request) (b : object) : request :=
  {| authorization := authorization r; params_id := params_id r;
     body := b; query_string := query_string r; user := user r |}.
Definition with_query (r : request) (q : object) : request :=
  {| authorization := authorization r; params_id := params_id r;
     body := body r; query_string := q; user := user r |}.

(** What a request finds around it: the server clock behind [new Date()],
    the engine's clock behind [CURRENT_TIMESTAMP], and [NODE_ENV]. *)
Record env : Type := {
  clock : Z;
  db_clock : Z;
  NODE_ENV : option string
}.

(** The database, and the statements sent to it so far. *)
Record world : Type := {
  database : Pg.db;
  issued : list Pg.stmt
}.

(** Code that may throw and that reads and writes the world. *)
Definition M (A : Type) : Type := world -> (A + js_error) * world.

Definition ret {A} (a : A) : M A := fun w => (inl a, w).
Definition throw {A} (e : js_error) : M A := fun w => (inr e, w).
Definition bind {A B} (m : M A) (k : A -> M B) : M B :=
  fun w => match m w with
           | (inl a, w') => k a w'
           | (inr e, w') => (inr e, w')
           end.

Inductive outcome : Type :=
| Send (r : response)
| Next (req : request)
| NextError (e : js_error).

End Express.
Import Express.

Declare Scope js_scope.
Delimit Scope js_scope with js.
Notation "'await' x <- m ; k" := (bind m (fun x => k))
  (at level 10, x name, m at level 100, k at level 200) : js_scope.
Open Scope js_scope.

Section Server.
Context `{Platform}.

(** Modelled from the spec: utils/database.js is not among the sources;
    its [query(text, params)] is the relational query executor the
    handlers consume (parameterised SQL execution returning rows).  It is
    run here on the tables of schema.sql, and a statement that fails
    throws the driver's error, which carries the SQLSTATE code. *)
Definition query (e : env) (s : Pg.stmt) : M (list object) :=
  fun w =>
    let (r, d) := Pg.exec (db_clock e) s (database w) in
    let w' := {| database := d; issued := (issued w ++ [s])%list |} in
    match r with
    | Pg.Rows rs => (inl rs, w')
    | Pg.Error c => (inr (DatabaseError c), w')
    end.

(** [rows[0].k]: throws when there is no first row. *)
Definition row0_prop (rs : list object) (k : string) : M value :=
  match rs with
  | r :: _ => ret (get r k)
  | [] => throw TypeError
  end.

(** [req.user.id] *)
Definition req_user_id (req : request) : M value :=
  match user req with
  | Some u => ret (get u "id")
  | None => throw TypeError
  end.

(* --------------------------------------------------------------------- *)
(** *** utils/validation.js: [validate] and [validateQuery] *)

Definition validation_failure (msg : string)
  (errs : list (string * Joi.violation)) : response :=
  {| status := 400; success := false; message := Some msg; data := None;
     errors := errs; stack := None |}.

Definition validate (schema : Joi.object_schema) (req : request)
  : outcome :=
  match Joi.validate_keys schema (body req) with
  | ((_ :: _) as errs, _) => Send (validation_failure "Validation error" errs)
  | ([], v) => Next (with_body req v)
  end.

Definition validateQuery (schema : Joi.object_schema) (req : request)
  : outcome :=
  match Joi.validate_keys schema (query_string req) with
  | ((_ :: _) as errs, _) =>
      Send (validation_failure "Query validation error" errs)
  | ([], v) => Next (with_query req v)
  end.

(* --------------------------------------------------------------------- *)
(** *** middleware/errorHandler.js *)

Definition errorHandler (e : env) (err : js_error) : response :=
  (* Default error *)
  let message0 :=
    if String.eqb (err_message err) "" then "Internal Server Error"
    else err_message err in
  let status0 :=
    match err_status err with
    | Some st => if st =? 0 then 500 else st
    | None => 500
    end in
  (* Joi validation error *)
  let '(status1, message1) :=
    match err_isJoi err with
    | Some m => (400, m)
    | None => (status0, message0)
    end in
  (* PostgreSQL errors *)
  let '(status2, message2) :=
    match err_code err with
    | Some c =>
        if String.eqb c "" then (status1, message1)
        else if String.eqb c "23505" then (409, "Resource already exists")
        else if String.eqb c "23503"
        then (400, "Referenced resource does not exist")
        else if String.eqb c "23502" then (400, "Required field is missing")
        else if String.eqb c "42P01" then (500, "Database configuration error")
        else (500, "Database error occurred")
    | None => (status1, message1)
    end in
  (* JWT errors *)
  let '(status3, message3) :=
    if String.eqb (err_name err) "JsonWebTokenError"
    then (401, "Invalid token") else (status2, message2) in
  let '(status4, message4) :=
    if String.eqb (err_name err) "TokenExpiredError"
    then (401, "Token expired") else (status3, message3) in
  (* Don't leak error details in production *)
  let message5 :=
    match NODE_ENV e with
    | Some mode =>
        if String.eqb mode "production" && (status4 =? 500)
        then "Internal Server Error" else message4
    | None => message4
    end in
  {| status := status4; success := false; message := Some message5;
     data := None; errors := [];
     stack := match NODE_ENV e with
              | Some mode =>
                  if String.eqb mode "development"
                  then Some (err_stack err) else None
              | None => None
              end |}.

(* --------------------------------------------------------------------- *)
(** *** middleware/auth.js *)

(** [authHeader && authHeader.split(' ')[1]]: [None] when the result is
    [undefined] or the header itself is missing. *)
Definition bearer_token (authHeader : option string) : option string :=
  match authHeader with
  | Some h => if String.eqb h "" then Some "" else nth_error (split_space h) 1
  | None => None
  end.

Definition authenticateToken (e : env) (req : request) (w : world)
  : outcome * world :=
  match bearer_token (authorization req) with
  | None => (Send (json 401 false (Some "Access token required") None), w)
  | Some token =>
      if String.eqb token ""
      then (Send (json 401 false (Some "Access token required") None), w)
      else
        (* Verify token *)
        match verifyToken token with
        | None =>
            (Send (json 403 false (Some "Invalid or expired token") None), w)
        | Some decoded =>
            (* Get user from database *)
            match query e
                    (Pg.SELECT ["id"; "name"; "email"; "avatar_url";
                                "created_at"]
                       Pg.Users [Pg.Eq "id" (VNum (userId decoded))]) w with
            | (inr _, w') =>
                (Send (json 403 false (Some "Invalid or expired token") None),
                 w')
            | (inl [], w') =>
                (Send (json 401 false (Some "User not found") None), w')
            | (inl (u :: _), w') => (Next (with_user req u), w')
            end
        end
  end.

(* --------------------------------------------------------------------- *)
(** *** The dynamic SET list shared by the three update handlers *)

(** [Object.keys(updates).forEach(key => { if (updates[key] !== undefined)
    ... })]: one assignment per key that holds a value. *)
Definition updateFields_of (updates : object) : list Pg.assignment :=
  flat_map (fun key =>
              if strict_eq (get updates key) VUndefined then []
              else [Pg.SetParam key (get updates key)])
    (keys updates).

Definition no_valid_fields : response :=
  json 400 false (Some "No valid fields to update") None.

(* --------------------------------------------------------------------- *)
(** *** routes/tasks.js *)

Definition task_not_found : response :=
  json 404 false (Some "Task not found") None.

(** The conditions of GET /tasks, pushed in this order when the filter is
    truthy. *)
Definition whereConditions (userId : value) (q : object) : list Pg.cond :=
  ([Pg.Eq "user_id" userId]
   ++ (if truthy (get q "status")
       then [Pg.Eq "status" (get q "status")] else [])
   ++ (if truthy (get q "priority")
       then [Pg.Eq "priority" (get q "priority")] else [])
   ++ (if truthy (get q "category_id")
       then [Pg.Eq "category_id" (get q "category_id")] else [])
   ++ (if truthy (get q "due_date_from")
       then [Pg.Ge "due_date" (get q "due_date_from")] else [])
   ++ (if truthy (get q "due_date_to")
       then [Pg.Le "due_date" (get q "due_date_to")] else [])
   ++ (if truthy (get q "search")
       then let p := ("%" ++ to_string (get q "search") ++ "%")%string in
            [Pg.Or (Pg.ILike "title" p) (Pg.ILike "description" p)]
       else []))%list.

(** The pagination block of the list response. *)
Definition pagination_of (page limit totalTasks : value) : pagination :=
  let totalPages := ceil_div totalTasks limit in
  {| currentPage := page;
     totalPages := totalPages;
     totalTasks := totalTasks;
     hasNextPage := lt page totalPages;
     hasPrevPage := lt (VNum 1) page |}.

(** GET /api/tasks *)
Definition tasks_list (e : env) (req : request) : M response :=
  await userId <- req_user_id req;
  let q := query_string req in
  let page := get q "page" in
  let limit := get q "limit" in
  let offset := mul (sub page (VNum 1)) limit in
  let whereClause := whereConditions userId q in
  (* Get total count *)
  await countResult <- query e (Pg.SELECT_COUNT Pg.Tasks whereClause);
  await count <- row0_prop countResult "count";
  let totalTasks := of_number (parseInt count) in
  (* Get tasks with pagination *)
  await direction <-
    match get q "order" with
    | VStr o => ret (toUpperCase o)
    | _ => throw TypeError
    end;
  await tasksResult <-
    query e (Pg.SELECT_TASKS_JOIN_CATEGORIES whereClause
               (Some (to_string (get q "sort"), direction))
               (Some (limit, offset)));
  ret (json 200 true None
         (Some (TaskPage tasksResult (pagination_of page limit totalTasks)))).

(** GET /api/tasks/:id *)
Definition tasks_get (e : env) (req : request) : M response :=
  let taskId := VNum (params_id req) in
  await userId <- req_user_id req;
  await rows <-
    query e (Pg.SELECT_TASKS_JOIN_CATEGORIES
               [Pg.Eq "id" taskId; Pg.Eq "user_id" userId] None None);
  match rows with
  | [] => ret task_not_found
  | r :: _ => ret (json 200 true None (Some (Row (Some r))))
  end.

(** POST /api/tasks *)
Definition tasks_create (e : env) (req : request) : M response :=
  await userId <- req_user_id req;
  let b := body req in
  await rows <-
    query e (Pg.INSERT Pg.Tasks
               ["title"; "description"; "status"; "priority"; "due_date";
                "category_id"; "user_id"]
               [get b "title"; get b "description"; get b "status";
                get b "priority"; get b "due_date"; get b "category_id";
                userId]
               ["id"; "title"; "description"; "status"; "priority";
                "due_date"; "created_at"; "updated_at"]);
  ret (json 201 true (Some "Task created successfully")
         (Some (Row (hd_error rows)))).

(** The implicit [completed_at] assignment of PUT /tasks/:id. *)
Definition completed_at_field (e : env) (updates : object)
  (stored_status : value) : list Pg.assignment :=
  if strict_eq (get updates "status") (VStr "completed")
     && negb (strict_eq stored_status (VStr "completed"))
  then [Pg.SetParam "completed_at" (VDate (clock e))]
  else if truthy (get updates "status")
          && negb (strict_eq (get updates "status") (VStr "completed"))
  then [Pg.SetParam "completed_at" VNull]
  else [].

(** PUT /api/tasks/:id *)
Definition tasks_update (e : env) (req : request) : M response :=
  let taskId := VNum (params_id req) in
  await userId <- req_user_id req;
  let updates := body req in
  (* Check if task exists and belongs to user *)
  await existingTask <-
    query e (Pg.SELECT ["id"; "status"] Pg.Tasks
               [Pg.Eq "id" taskId; Pg.Eq "user_id" userId]);
  match existingTask with
  | [] => ret task_not_found
  | existing :: _ =>
      (* Build update query dynamically *)
      let updateFields :=
        (updateFields_of updates
         ++ completed_at_field e updates (get existing "status"))%list in
      match updateFields with
      | [] => ret no_valid_fields
      | _ :: _ =>
          await rows <-
            query e (Pg.UPDATE Pg.Tasks
                       (updateFields
                        ++ [Pg.SetCurrentTimestamp "updated_at"])%list
                       [Pg.Eq "id" taskId; Pg.Eq "user_id" userId]
                       ["id"; "title"; "description"; "status"; "priority";
                        "due_date"; "created_at"; "updated_at";
                        "completed_at"]);
          ret (json 200 true (Some "Task updated successfully")
                 (Some (Row (hd_error rows))))
      end
  end.

(** DELETE /api/tasks/:id *)
Definition tasks_delete (e : env) (req : request) : M response :=
  let taskId := VNum (params_id req) in
  await userId <- req_user_id req;
  await rows <-
    query e (Pg.DELETE Pg.Tasks
               [Pg.Eq "id" taskId; Pg.Eq "user_id" userId] ["id"]);
  match rows with
  | [] => ret task_not_found
  | _ :: _ => ret (json 200 true (Some "Task deleted successfully") None)
  end.

(* --------------------------------------------------------------------- *)
(** *** routes/categories.js *)

Definition category_not_found : response :=
  json 404 false (Some "Category not found") None.

Definition category_exists : response :=
  json 409 false (Some "Category with this name already exists") None.

(** POST /api/categories *)
Definition categories_create (e : env) (req : request) : M response :=
  await userId <- req_user_id req;
  let name := get (body req) "name" in
  let color := get (body req) "color" in
  (* Check if category with same name already exists for user *)
  await existingCategory <-
    query e (Pg.SELECT ["id"] Pg.Categories
               [Pg.Eq "name" name; Pg.Eq "user_id" userId]);
  match existingCategory with
  | _ :: _ => ret category_exists
  | [] =>
      await rows <-
        query e (Pg.INSERT Pg.Categories ["name"; "color"; "user_id"]
                   [name; color; userId]
                   ["id"; "name"; "color"; "created_at"]);
      ret (json 201 true (Some "Category created successfully")
             (Some (Row (Some (match rows with
                               | r :: _ => r ++ [("task_count", VNum 0)]
                               | [] => [("task_count", VNum 0)]
                               end)%list))))
  end.

(** PUT /api/categories/:id *)
Definition categories_update (e : env) (req : request) : M response :=
  let categoryId := VNum (params_id req) in
  await userId <- req_user_id req;
  let updates := body req in
  (* Check if category exists and belongs to user *)
  await existingCategory <-
    query e (Pg.SELECT ["id"; "user_id"] Pg.Categories
               [Pg.Eq "id" categoryId]);
  match existingCategory with
  | [] => ret category_not_found
  | existing :: _ =>
      (* Check if user owns the category *)
      if negb (strict_eq (get existing "user_id") userId)
      then ret (json 403 false (Some "Cannot update default categories") None)
      else
        (* Check if name is being updated and if it already exists *)
        await duplicateCategory <-
          (if truthy (get updates "name")
           then query e (Pg.SELECT ["id"] Pg.Categories
                           [Pg.Eq "name" (get updates "name");
                            Pg.Eq "user_id" userId;
                            Pg.Neq "id" categoryId])
           else ret []);
        match duplicateCategory with
        | _ :: _ => ret category_exists
        | [] =>
            (* Build update query dynamically *)
            match updateFields_of updates with
            | [] => ret no_valid_fields
            | (_ :: _) as updateFields =>
                await rows <-
                  query e (Pg.UPDATE Pg.Categories updateFields
                             [Pg.Eq "id" categoryId; Pg.Eq "user_id" userId]
                             ["id"; "name"; "color"; "created_at"]);
                ret (json 200 true (Some "Category updated successfully")
                       (Some (Row (hd_error rows))))
            end
        end
  end.

Definition category_has_tasks (taskCount : value) : string :=
  "Cannot delete category. It has " ++ to_string taskCount
  ++ " task(s). Please reassign or delete the tasks first.".

(** DELETE /api/categories/:id *)
Definition categories_delete (e : env) (req : request) : M response :=
  let categoryId := VNum (params_id req) in
  await userId <- req_user_id req;
  (* Check if category exists and belongs to user *)
  await existingCategory <-
    query e (Pg.SELECT ["id"; "user_id"] Pg.Categories
               [Pg.Eq "id" categoryId]);
  match existingCategory with
  | [] => ret category_not_found
  | existing :: _ =>
      (* Check if user owns the category *)
      if negb (strict_eq (get existing "user_id") userId)
      then ret (json 403 false (Some "Cannot delete default categories") None)
      else
        (* Check if category has tasks *)
        await tasksResult <-
          query e (Pg.SELECT_COUNT Pg.Tasks
                     [Pg.Eq "category_id" categoryId;
                      Pg.Eq "user_id" userId]);
        await count <- row0_prop tasksResult "count";
        let taskCount := of_number (parseInt count) in
        if lt (VNum 0) taskCount
        then ret (json 400 false (Some (category_has_tasks taskCount)) None)
        else
          (* Delete category *)
          await _ignored <-
            query e (Pg.DELETE Pg.Categories
                       [Pg.Eq "id" categoryId; Pg.Eq "user_id" userId] []);
          ret (json 200 true (Some "Category deleted successfully") None)
  end.

(* --------------------------------------------------------------------- *)
(** *** routes/users.js *)

(** PUT /api/users/profile *)
Definition users_update_profile (e : env) (req : request) : M response :=
  await userId <- req_user_id req;
  let updates := body req in
  (* Check if email is being updated and if it's already taken *)
  await existingUser <-
    (if truthy (get updates "email")
     then query e (Pg.SELECT ["id"] Pg.Users
                     [Pg.Eq "email" (get updates "email");
                      Pg.Neq "id" userId])
     else ret []);
  match existingUser with
  | _ :: _ => ret (json 409 false (Some "Email is already taken") None)
  | [] =>
      (* Build update query dynamically *)
      match updateFields_of updates with
      | [] => ret no_valid_fields
      | (_ :: _) as updateFields =>
          await rows <-
            query e (Pg.UPDATE Pg.Users
                       (updateFields
                        ++ [Pg.SetCurrentTimestamp "updated_at"])%list
                       [Pg.Eq "id" userId]
                       ["id"; "name"; "email"; "avatar_url"; "created_at";
                        "updated_at"]);
          ret (json 200 true (Some "Profile updated successfully")
                 (Some (Row (hd_error rows))))
      end
  end.

(* --------------------------------------------------------------------- *)
(** *** The routes: middleware first, then the handler inside its
    try/catch, errors going to the central handler *)

Definition middleware : Type := env -> request -> world -> outcome * world.

Definition pure (f : request -> outcome) : middleware :=
  fun _ req w => (f req, w).

(** One request run from its first middleware to its answer, with no
    statement of another request landing between two of its own. *)
Fixpoint route (ms : list middleware) (h : env -> request -> M response)
  (e : env) (req : request) (w : world) : response * world :=
  match ms with
  | [] =>
      match h e req w with
      | (inl r, w') => (r, w')
      | (inr err, w') => (errorHandler e err, w')
      end
  | m :: ms' =>
      match m e req w with
      | (Send r, w') => (r, w')
      | (Next req', w') => route ms' h e req' w'
      | (NextError err, w') => (errorHandler e err, w')
      end
  end.

Definition GET_tasks :=
  route [authenticateToken;
         pure (validateQuery (Joi.concat querySchemas_pagination
                                querySchemas_taskFilters))]
    tasks_list.
Definition GET_tasks_id := route [authenticateToken] tasks_get.
Definition POST_tasks :=
  route [authenticateToken; pure (validate taskSchemas_create)] tasks_create.
Definition PUT_tasks_id :=
  route [authenticateToken; pure (validate taskSchemas_update)] tasks_update.
Definition DELETE_tasks_id := route [authenticateToken] tasks_delete.

Definition POST_categories :=
  route [authenticateToken; pure (validate categorySchemas_create)]
    categories_create.
Definition PUT_categories_id :=
  route [authenticateToken; pure (validate categorySchemas_update)]
    categories_update.
Definition DELETE_categories_id :=
  route [authenticateToken] categories_delete.

Definition PUT_users_profile :=
  route [authenticateToken; pure (validate userSchemas_updateProfile)]
    users_update_profile.

End Server.

(* ===================================================================== *)
(** ** A concrete platform and the seed data of schema.sql *)
(* ===================================================================== *)

Module Seed.

(** A small platform to run the handlers on: two session tokens, for the
    two seeded users, every other token being refused; two dates read;
    numbers read from plain decimal integers only (the library also
    reads a sign, a fraction, an exponent and blanks around); no
    collation; a server that runs in UTC. *)
Definition platform : Platform := {|
  verifyToken := fun t =>
    if String.eqb t "token-of-admin" then Some {| userId := 1 |}
    else if String.eqb t "token-of-john" then Some {| userId := 2 |}
    else None;
  is_email := fun s => existsb (Ascii.eqb "@"%char) (list_ascii_of_string s);
  is_uri := fun s => String.prefix "http" s;
  parse_iso_date := fun s =>
    if String.eqb s "2024-01-15" then Some 1705276800000
    else if String.eqb s "2024-01-15T10:30:00Z" then Some 1705314600000
    else None;
  number_of_text := fun s =>
    match NilZero.int_of_string s with
    | Some i => Integral (Z.of_int i)
    | None => NotANumber
    end;
  ilike := fun s p => String.eqb (toUpperCase s) (toUpperCase p);
  order_rows := fun _ _ rs => rs;
  local_midnight := fun t => t - t mod 86400000
|}.

Definition user_row (id : Z) (name email : string) : object :=
  [ ("id", VNum id); ("name", VStr name); ("email", VStr email);
    ("password",
      VStr "$2a$10$92IXUNpkjO0rOQ5byMi.Ye4oKoEa3Ro9llC/.og/at2.uheWG/igi");
    ("avatar_url", VNull); ("created_at", VDate 0); ("updated_at", VDate 0) ].

Definition category_row (id : Z) (name color : string) (owner : value)
  : object :=
  [ ("id", VNum id); ("name", VStr name); ("color", VStr color);
    ("user_id", owner); ("created_at", VDate 0) ].

Definition task_row (id : Z) (title description status priority : string)
  (due : Z) (category owner : Z) : object :=
  [ ("id", VNum id); ("title", VStr title);
    ("description", VStr description); ("status", VStr status);
    ("priority", VStr priority); ("due_date", VDate due);
    ("category_id", VNum category); ("user_id", VNum owner);
    ("created_at", VDate 0); ("updated_at", VDate 0);
    ("completed_at", VNull) ].

(** The rows schema.sql inserts. *)
Definition db : Pg.db :=
  {| Pg.users :=
       [ user_row 1 "Admin User" "admin@example.com";
         user_row 2 "John Doe" "user@example.com" ];
     Pg.categories :=
       [ category_row 1 "Work" "#EF4444" VNull;
         category_row 2 "Personal" "#10B981" VNull;
         category_row 3 "Shopping" "#F59E0B" VNull;
         category_row 4 "Health" "#8B5CF6" VNull ];
     Pg.tasks :=
       [ task_row 1 "Complete project proposal"
           "Write and submit the Q4 project proposal" "pending" "high"
           1705276800000 1 1;
         task_row 2 "Buy groceries" "Milk, bread, eggs, vegetables"
           "pending" "medium" 1704844800000 3 1;
         task_row 3 "Doctor appointment" "Annual health checkup" "pending"
           "high" 1705708800000 4 1;
         task_row 4 "Learn React"
           "Complete React tutorial and build a project" "in_progress"
           "medium" 1706140800000 2 2;
         task_row 5 "Team meeting" "Weekly team sync meeting" "completed"
           "medium" 1704672000000 1 2 ];
     Pg.users_id_seq := 3;
     Pg.categories_id_seq := 5;
     Pg.tasks_id_seq := 6 |}.

Definition world0 : world := {| database := db; issued := [] |}.

Definition env_at (t : Z) : env :=
  {| clock := t; db_clock := t; NODE_ENV := Some "production" |}.

Definition request_of (token : string) (id : Z) (b q : object) : request :=
  {| authorization := Some ("Bearer " ++ token)%string; params_id := id;
     body := b; query_string := q; user := None |}.

Definition admin := "token-of-admin".
Definition john := "token-of-john".

(** John creates the category 'Errands' (it gets id 5); the admin then
    files a task under it. *)
Definition world_with_errands : world :=
  snd (POST_categories (H := platform) (env_at 10)
         (request_of john 0 [("name", VStr "Errands")] []) world0).

Definition world_with_shared_category : world :=
  snd (POST_tasks (H := platform) (env_at 20)
         (request_of admin 0
            [("title", VStr "Borrowed label"); ("category_id", VNum 5)] [])
         world_with_errands).

End Seed.

(* ===================================================================== *)
(** ** Vocabulary of the properties *)
(* ===================================================================== *)

Module Pg_stmt.

Definition where_of (s : Pg.stmt) : list Pg.cond :=
  match s with
  | Pg.SELECT _ _ w | Pg.SELECT_COUNT _ w
  | Pg.SELECT_TASKS_JOIN_CATEGORIES w _ _
  | Pg.UPDATE _ _ w _ | Pg.DELETE _ w _ => w
  | Pg.INSERT _ _ _ _ => []
  end.

Definition is_update (s : Pg.stmt) : bool :=
  match s with Pg.UPDATE _ _ _ _ => true | _ => false end.

Definition set_of (s : Pg.stmt) : list Pg.assignment :=
  match s with Pg.UPDATE _ set_ _ _ => set_ | _ => [] end.

End Pg_stmt.
Import Pg_stmt.

(** The WHERE clause [id = $a AND user_id = $b]. *)
Definition id_and_owner (id uid : Z) : list Pg.cond :=
  [Pg.Eq "id" (VNum id); Pg.Eq "user_id" (VNum uid)].

(** No task with this id belongs to the caller: the id is unknown, or the
    task it names has another owner. *)
Definition not_callers_task (d : Pg.db) (id uid : Z) : Prop :=
  (forall r, In r (Pg.tasks d) -> get r "id" <> VNum id)
  \/ (forall r, In r (Pg.tasks d) -> get r "id" = VNum id ->
                get r "user_id" <> VNum uid).

Definition is_none {A} (o : option A) : bool :=
  match o with None => true | Some _ => false end.

(** The value an assignment stores, and the assignment the update trigger
    of a table amounts to. *)
Definition assigned_value `{Platform} (now : Z) (a : Pg.assignment)
  : value :=
  match a with
  | Pg.SetParam c v => Pg.bind_to c v
  | Pg.SetCurrentTimestamp _ => VDate now
  end.

Definition trigger_assignment (t : Pg.table) : list Pg.assignment :=
  if Pg.has_update_trigger t then [Pg.SetCurrentTimestamp "updated_at"]
  else [].

(** A column that a uniqueness or a foreign-key constraint watches. *)
Definition is_key (k : Pg.column) : bool :=
  Pg.unique k || negb (is_none (Pg.references k)).

(** An assignment that cannot break a constraint of the table: it leaves
    the key columns alone and stores a value its column accepts. *)
Definition safe_assignment `{Platform} (now : Z) (t : Pg.table)
  (a : Pg.assignment) : bool :=
  forallb (fun k =>
             negb (String.eqb (Pg.cname k) (Pg.assigned_column a))
             || (negb (is_key k)
                 && is_none (Pg.column_error k (assigned_value now a))))
    (Pg.columns t).

(** The tasks table satisfies its own constraints, and its sequence is
    ahead of every id in it. *)
Definition tasks_consistent (d : Pg.db) : bool :=
  match Pg.constraint_error d Pg.Tasks (Pg.tasks d) (Pg.tasks d) with
  | None => true
  | Some _ => false
  end
  && forallb (fun r => match get r "id" with
                       | VNum z => z <? Pg.tasks_id_seq d
                       | _ => false
                       end)
       (Pg.tasks d).


(** What [completed_at] must hold after the status of the stored row [r]
    is set to [s] by a request running in [e]. *)
Definition completed_at_after (e : env) (s : string) (r : object) : value :=
  if String.eqb s "completed"
  then if strict_eq (get r "status") (VStr "completed")
       then get r "completed_at" else VDate (clock e)
  else VNull.

(** The INSERT of POST /tasks for a validated body and a caller. *)
Definition insert_task (b : object) (uid : Z) : Pg.stmt :=
  Pg.INSERT Pg.Tasks
    ["title"; "description"; "status"; "priority"; "due_date";
     "category_id"; "user_id"]
    [get b "title"; get b "description"; get b "status"; get b "priority";
     get b "due_date"; get b "category_id"; VNum uid]
    ["id"; "title"; "description"; "status"; "priority"; "due_date";
     "created_at"; "updated_at"].

(** The row that INSERT stores: of the due date, the day. *)
Definition inserted_task `{Platform} (now : Z) (d : Pg.db) (b : object)
  (uid : Z) : object :=
  [ ("id", VNum (Pg.tasks_id_seq d));
    ("title", Pg.to_param (get b "title"));
    ("description", Pg.to_param (get b "description"));
    ("status", Pg.to_param (get b "status"));
    ("priority", Pg.to_param (get b "priority"));
    ("due_date", Pg.bind_to "due_date" (get b "due_date"));
    ("category_id", Pg.to_param (get b "category_id"));
    ("user_id", VNum uid);
    ("created_at", VDate now);
    ("updated_at", VDate now);
    ("completed_at", VNull) ].


(** The request [req] with the body [{ status: s }]. *)
Definition set_status (req : request) (s : string) : request :=
  with_body req [("status", VStr s)].

Section Vocabulary.
Context `{Platform}.

(** The statement the guard sends to resolve the user. *)
Definition user_lookup (uid : Z) : Pg.stmt :=
  Pg.SELECT ["id"; "name"; "email"; "avatar_url"; "created_at"]
    Pg.Users [Pg.Eq "id" (VNum uid)].

(** The caller a request is authenticated as, if the guard lets it
    through. *)
Definition caller (e : env) (req : request) (w : world) : option Z :=
  match authenticateToken e req w with
  | (Next req', _) =>
      match user req' with
      | Some u => match get u "id" with VNum z => Some z | _ => None end
      | None => None
      end
  | _ => None
  end.

Definition sent (w : world) (ss : list Pg.stmt) : world :=
  {| database := database w; issued := (issued w ++ ss)%list |}.

(** The rows of the caller that pass the filters of the query. *)
Definition matching_tasks (uid : Z) (q : object) (w : world) : list object :=
  filter (Pg.matches (whereConditions (VNum uid) q)) (Pg.tasks (database w)).

(** The caller's task with this id, as the handlers look it up. *)
Definition callers_task (d : Pg.db) (id uid : Z) : option object :=
  find (Pg.matches (id_and_owner id uid)) (Pg.tasks d).

(** A column of the caller's task with this id. *)
Definition task_field (d : Pg.db) (id uid : Z) (k : string) : value :=
  match callers_task d id uid with
  | Some r => get r k
  | None => VUndefined
  end.

End Vocabulary.

(* ===================================================================== *)
(** ** middleware/rateLimiter.js *)
(* ===================================================================== *)

Module RateLimiter.

(** The module-level object [rateLimit]: for each client id, the
    timestamps of the requests let through, oldest first. *)
Definition store : Type := list (string * list Z).

(** [rateLimit[k]] *)
Fixpoint lookup (s : store) (k : string) : option (list Z) :=
  match s with
  | [] => None
  | (k', v) :: s' => if String.eqb k' k then Some v else lookup s' k
  end.

(** [rateLimit[k] = v] *)
Fixpoint put (s : store) (k : string) (v : list Z) : store :=
  match s with
  | [] => [(k, v)]
  | (k', v') :: s' =>
      if String.eqb k' k then (k', v) :: s' else (k', v') :: put s' k v
  end.

(** [delete rateLimit[k]] *)
Definition delete (s : store) (k : string) : store :=
  filter (fun kv => negb (String.eqb (fst kv) k)) s.

(** The property names a plain object inherits from [Object.prototype].
    Under one of them [rateLimit[clientId]] is never an own array: it
    reads the inherited function (or the prototype itself), which is
    truthy and has no [filter]. *)
Definition inherited (k : string) : bool :=
  existsb (String.eqb k)
    ["constructor"; "__proto__"; "hasOwnProperty"; "isPrototypeOf";
     "propertyIsEnumerable"; "toLocaleString"; "toString"; "valueOf";
     "__defineGetter__"; "__defineSetter__"; "__lookupGetter__";
     "__lookupSetter__"].

(** The instants a [Date] can hold; [toISOString] throws on any other. *)
Definition MAX_DATE : Z := 8640000000000000.

Definition in_date_range (t : Z) : bool :=
  (- MAX_DATE <=? t) && (t <=? MAX_DATE).

(** The array under a client id that is known to be set. *)
Definition timestamps (s : store) (k : string) : list Z :=
  match lookup s k with Some v => v | None => [] end.

(** The two environment variables as [parseInt] reads them: a number, or
    [None] for [NaN] (variable unset or not a number). *)
Record settings : Type := {
  RATE_LIMIT_WINDOW_MS : option Z;
  RATE_LIMIT_MAX_REQUESTS : option Z
}.

(** [parsed || fallback] *)
Definition or_else (parsed : option Z) (fallback : Z) : Z :=
  match parsed with
  | Some z => if z =? 0 then fallback else z
  | None => fallback
  end.

Definition windowMs (cfg : settings) : Z :=
  or_else (RATE_LIMIT_WINDOW_MS cfg) (15 * 60 * 1000).

Definition maxRequests (cfg : settings) : Z :=
  or_else (RATE_LIMIT_MAX_REQUESTS cfg) 100.

(** What the limiter reads of a request. *)
Record client : Type := {
  ip : option string;
  remoteAddress : option string
}.

(** [req.ip || req.connection.remoteAddress], as the property key it is
    used for. *)
Definition clientId (c : client) : string :=
  match ip c with
  | Some a => if String.eqb a ""
              then match remoteAddress c with
                   | Some b => b
                   | None => "undefined"
                   end
              else a
  | None => match remoteAddress c with
            | Some b => b
            | None => "undefined"
            end
  end.

(** The 429 body, and the three headers set on a request let through
    (the reset instant in milliseconds, before its rendering as text). *)
Record too_many : Type := {
  status : Z;
  success : bool;
  message : string;
  retryAfter : value
}.

Record headers : Type := {
  X_RateLimit_Limit : Z;
  X_RateLimit_Remaining : Z;
  X_RateLimit_Reset : Z
}.

(** How one call ends: with the 429, with [next()] and the headers set,
    or with an exception, named by its constructor. *)
Inductive decision : Type :=
| Reject (r : too_many)
| Pass (h : headers)
| Throw (name : string).

Definition rateLimiter (cfg : settings) (now : Z) (c : client) (s : store)
  : decision * store :=
  let windowStart := now - windowMs cfg in
  if inherited (clientId c)
  then
    (* [rateLimit[clientId]] is truthy and [.filter] is not a function *)
    (Throw "TypeError", s)
  else
    (* Initialize client record if it doesn't exist *)
    let s1 := match lookup s (clientId c) with
              | None => put s (clientId c) []
              | Some _ => s
              end in
    (* Remove old requests outside the window *)
    let kept := filter (fun timestamp => windowStart <? timestamp)
                  (timestamps s1 (clientId c)) in
    let s2 := put s1 (clientId c) kept in
    (* Check if client has exceeded the limit *)
    if maxRequests cfg <=? Z.of_nat (List.length kept)
    then (Reject {| status := 429; success := false;
                    message := "Too many requests, please try again later";
                    retryAfter :=
                      ceil_div (VNum (windowMs cfg)) (VNum 1000) |},
          s2)
    else
      (* Add current request timestamp *)
      let s3 := put s2 (clientId c) (kept ++ [now]) in
      (* Add rate limit headers: [toISOString] throws on an instant that
         no [Date] holds, after the timestamp was pushed *)
      if in_date_range (now + windowMs cfg)
      then (Pass {| X_RateLimit_Limit := maxRequests cfg;
                    X_RateLimit_Remaining :=
                      Z.max 0 (maxRequests cfg
                               - Z.of_nat (List.length (kept ++ [now])));
                    X_RateLimit_Reset := now + windowMs cfg |},
            s3)
      else (Throw "RangeError", s3).

(** The periodic clean-up: every client's array is pruned, and a client
    left with an empty array is removed. *)
Definition sweep (cfg : settings) (now : Z) (s : store) : store :=
  fold_left
    (fun acc k =>
       let kept := filter (fun timestamp => now - windowMs cfg <? timestamp)
                     (timestamps acc k) in
       let acc' := put acc k kept in
       match kept with
       | [] => delete acc' k
       | _ :: _ => acc'
       end)
    (map fst s) s.

(** What happens to the limiter over time: a request arrives, or the
    clean-up timer fires. *)
Inductive event : Type :=
| Request (now : Z) (c : client)
| Sweep (now : Z).

Definition time_of (e : event) : Z :=
  match e with Request now _ | Sweep now => now end.

(** The decisions taken on the requests of a run, in order, and the store
    the run leaves. *)
Fixpoint run (cfg : settings) (evs : list event) (s : store)
  : list decision * store :=
  match evs with
  | [] => ([], s)
  | Request now c :: evs' =>
      let (d, s') := rateLimiter cfg now c s in
      let (ds, s'') := run cfg evs' s' in
      (d :: ds, s'')
  | Sweep now :: evs' => run cfg evs' (sweep cfg now s)
  end.

Definition passed (d : decision) : bool :=
  match d with Pass _ => true | Reject _ | Throw _ => false end.

(** The clock never runs backwards over the events. *)
Fixpoint in_order (t : Z) (evs : list event) : Prop :=
  match evs with
  | [] => True
  | e :: evs' => t <= time_of e /\ in_order (time_of e) evs'
  end.

(** The limiter as a rule over the whole history of the requests it
    recorded, with no pruning: a request of a client whose id is no
    inherited name is recorded when fewer than the maximum of the same
    client's recorded requests are younger than the window, and refused
    with the 429 otherwise; a recorded request goes on with its headers,
    unless the reset instant is one no [Date] holds. *)
Definition passes_of (history : list (string * Z)) (k : string) : list Z :=
  map snd (filter (fun p => String.eqb (fst p) k) history).

Definition passes_in_window (cfg : settings) (history : list (string * Z))
  (k : string) (now : Z) : Z :=
  Z.of_nat
    (List.length
       (filter (fun p => String.eqb (fst p) k
                         && (now - windowMs cfg <? snd p)) history)).

Definition recorded (cfg : settings) (history : list (string * Z))
  (now : Z) (c : client) : bool :=
  negb (inherited (clientId c))
  && (passes_in_window cfg history (clientId c) now <? maxRequests cfg).

Definition decide (cfg : settings) (history : list (string * Z))
  (now : Z) (c : client) : decision :=
  if inherited (clientId c) then Throw "TypeError"
  else if recorded cfg history now c
  then if in_date_range (now + windowMs cfg)
       then Pass {| X_RateLimit_Limit := maxRequests cfg;
                    X_RateLimit_Remaining :=
                      Z.max 0 (maxRequests cfg
                               - (passes_in_window cfg history (clientId c)
                                    now + 1));
                    X_RateLimit_Reset := now + windowMs cfg |}
       else Throw "RangeError"
  else Reject {| status := 429; success := false;
                 message := "Too many requests, please try again later";
                 retryAfter := ceil_div (VNum (windowMs cfg)) (VNum 1000) |}.

Fixpoint by_history (cfg : settings) (evs : list event)
  (history : list (string * Z)) : list decision :=
  match evs with
  | [] => []
  | Sweep _ :: evs' => by_history cfg evs' history
  | Request now c :: evs' =>
      decide cfg history now c
      :: by_history cfg evs'
           (if recorded cfg history now c
            then history ++ [(clientId c, now)] else history)%list
  end.

(** The clock readings of a run are instants that [Date.now()] gives, and
    the two settings are integers that a number holds exactly. *)
Definition clock_readings (evs : list event) : Prop :=
  Forall (fun e => 0 <= time_of e <= MAX_DATE) evs.

Definition exact_settings (cfg : settings) : Prop :=
  unsafe (windowMs cfg) = false /\ unsafe (maxRequests cfg) = false.

Definition is_request (e : event) : bool :=
  match e with Request _ _ => true | Sweep _ => false end.

(** A short run: a limit of two requests a second, one client sending
    three requests at once and two more a second later, another client in
    between, and the clean-up timer firing twice. *)
Module Traffic.

Definition cfg : settings :=
  {| RATE_LIMIT_WINDOW_MS := Some 1000; RATE_LIMIT_MAX_REQUESTS := Some 2 |}.

Definition alice : client :=
  {| ip := Some "10.0.0.1"; remoteAddress := Some "10.0.0.1" |}.

Definition bob : client :=
  {| ip := None; remoteAddress := Some "10.0.0.2" |}.

Definition burst : list event :=
  [ Request 0 alice; Request 10 alice; Request 20 alice; Request 30 bob;
    Sweep 500; Request 1005 alice; Sweep 1500; Request 1600 alice;
    Request 1700 alice ].

(** A window so long that the reset instant is past the last [Date]. *)
Definition endless : settings :=
  {| RATE_LIMIT_WINDOW_MS := Some 9000000000000000;
     RATE_LIMIT_MAX_REQUESTS := Some 2 |}.

Definition today : Z := 1700000000000.

End Traffic.

End RateLimiter.

(* ===================================================================== *)
(** ** More of the middleware and of the routes *)
(* ===================================================================== *)

Section ServerMore.
Context `{Platform}.

(** middleware/auth.js [optionalAuth]: the same resolution as
    [authenticateToken], every failure continuing without a user. *)
Definition optionalAuth (e : env) (req : request) (w : world)
  : outcome * world :=
  match bearer_token (authorization req) with
  | None => (Next req, w)
  | Some token =>
      if String.eqb token "" then (Next req, w)
      else
        match verifyToken token with
        | None =>
            (* Continue without authentication if token is invalid *)
            (Next req, w)
        | Some decoded =>
            match query e
                    (Pg.SELECT ["id"; "name"; "email"; "avatar_url";
                                "created_at"]
                       Pg.Users [Pg.Eq "id" (VNum (userId decoded))]) w with
            | (inr _, w') => (Next req, w')
            | (inl [], w') => (Next req, w')
            | (inl (u :: _), w') => (Next (with_user req u), w')
            end
        end
  end.

(** routes/users.js GET /api/users/profile, behind the router's
    [authenticateToken]. *)
Definition users_get_profile (e : env) (req : request) : M response :=
  await userId <- req_user_id req;
  await rows <-
    query e (Pg.SELECT ["id"; "name"; "email"; "avatar_url"; "created_at"]
               Pg.Users [Pg.Eq "id" userId]);
  match rows with
  | [] => ret (json 404 false (Some "User not found") None)
  | r :: _ => ret (json 200 true None (Some (Row (Some r))))
  end.

Definition GET_users_profile := route [authenticateToken] users_get_profile.

End ServerMore.

(** Every assignment of every statement of [ss] is to one of the
    [allowed] columns. *)
Definition assigns_within (allowed : list string) (ss : list Pg.stmt)
  : Prop :=
  Forall (fun s => Forall (fun a => In (Pg.assigned_column a) allowed)
                     (Pg_stmt.set_of s)) ss.
(* ===================================================================== *)
(** * Properties *)
(* ===================================================================== *)

(** ** Objects and numbers *)

Lemma get_set_same o k v : get (set o k v) k = v.
Proof.
  induction o as [|[k' v'] o IH]; simpl.
  - now rewrite String.eqb_refl.
  - destruct (String.eqb k' k) eqn:E; simpl; rewrite E; auto.
Qed.

Lemma get_set_other o k k' v : k <> k' -> get (set o k v) k' = get o k'.
Proof.
  intros Hne. induction o as [|[k0 v0] o IH]; simpl.
  - destruct (String.eqb_spec k k'); congruence.
  - destruct (String.eqb_spec k0 k) as [->|]; simpl.
    + destruct (String.eqb_spec k k'); congruence.
    + now rewrite IH.
Qed.

Lemma parseInt_to_text z : parseInt (VStr (to_text z)) = Some z.
Proof.
  unfold parseInt, to_text. rewrite NilZero.isi.
  - simpl. now rewrite DecimalZ.of_to.
  - destruct z; simpl; try discriminate.
    intros [= E]. now apply DecimalPos.Unsigned.to_uint_nonnil in E.
  - destruct z; simpl; try discriminate.
    intros [= E]. now apply DecimalPos.Unsigned.to_uint_nonnil in E.
Qed.

Lemma value_eqb_eq a b : value_eqb a b = true -> a = b.
Proof.
  destruct a, b; simpl; try discriminate; auto; intros E.
  - apply Z.eqb_eq in E. now subst.
  - apply String.eqb_eq in E. now subst.
  - apply Z.eqb_eq in E. now subst.
Qed.

Lemma value_eqb_num a z : value_eqb a (VNum z) = true <-> a = VNum z.
Proof.
  split.
  - apply value_eqb_eq.
  - intros ->. simpl. apply Z.eqb_refl.
Qed.

(** Rounding the quotient up gives the least number of pages that hold
    [n] rows, [l] to a page. *)
Lemma ceil_div_spec n l :
  0 < l ->
  exists tp, ceil_div (VNum n) (VNum l) = VNum tp
             /\ (tp - 1) * l < n <= tp * l.
Proof.
  intros Hl. unfold ceil_div. simpl.
  destruct (Z.eqb_spec l 0) as [|_]; [lia|].
  eexists. split; [reflexivity|].
  destruct l as [|p|p]; try lia.
  unfold Qceiling, Qfloor, Qdiv, Qmult, Qinv, Qopp, inject_Z. simpl.
  rewrite Z.mul_1_r.
  pose proof (Z.div_mod (- n) (Z.pos p) ltac:(lia)) as Hdm.
  pose proof (Z.mod_pos_bound (- n) (Z.pos p) ltac:(lia)) as Hb.
  nia.
Qed.

(** A text has at most as many characters as UTF-16 code units. *)
Lemma char_length_utf16 s : (Pg.char_length s <= utf16_length s)%nat.
Proof.
  induction s as [|c s IH]; [reflexivity|].
  cbn [Pg.char_length utf16_length]. unfold utf16_units.
  set (n := nat_of_ascii c).
  destruct (Nat.leb_spec 128 n), (Nat.ltb_spec n 192),
    (Nat.ltb_spec n 128), (Nat.ltb_spec n 240); cbn [andb]; lia.
Qed.
Section Properties.
Context `{Platform}.

(* --------------------------------------------------------------------- *)
(** ** The authorisation guard *)




Lemma query_select e cols t wh w :
  query e (Pg.SELECT cols t wh) w
  = (inl (map (Pg.project cols)
            (filter (Pg.matches wh) (Pg.rows_of (database w) t))),
     sent w [Pg.SELECT cols t wh]).
Proof. reflexivity. Qed.

(** Only a [Date] changes when it is bound to a column, and only on a
    DATE column. *)
Lemma bind_to_plain k v :
  (forall t, v <> VDate t) -> Pg.bind_to k v = Pg.to_param v.
Proof.
  intros N. unfold Pg.bind_to. destruct (Pg.is_date_column k); [|easy].
  destruct v; try reflexivity. now destruct (N t).
Qed.

Lemma bind_to_num k z : Pg.bind_to k (VNum z) = VNum z.
Proof. now rewrite bind_to_plain. Qed.

Lemma bind_to_str k s : Pg.bind_to k (VStr s) = VStr s.
Proof. now rewrite bind_to_plain. Qed.

Lemma bind_to_null k : Pg.bind_to k VNull = VNull.
Proof. now rewrite bind_to_plain. Qed.

Lemma bind_to_undefined k : Pg.bind_to k VUndefined = VNull.
Proof. now rewrite bind_to_plain. Qed.

Lemma eval_Eq_num r k z :
  Pg.eval_cond r (Pg.Eq k (VNum z)) = true <-> get r k = VNum z.
Proof.
  cbn [Pg.eval_cond]. rewrite bind_to_num. split.
  - intros E. apply andb_prop in E as [E _]. now apply value_eqb_num.
  - intros ->. simpl. now rewrite Z.eqb_refl.
Qed.

Lemma matches_id_user r a b :
  Pg.matches [Pg.Eq "id" (VNum a); Pg.Eq "user_id" (VNum b)] r = true
  <-> get r "id" = VNum a /\ get r "user_id" = VNum b.
Proof.
  unfold Pg.matches. cbn [forallb].
  rewrite andb_true_r, andb_true_iff, !eval_Eq_num. tauto.
Qed.

Lemma authenticateToken_Next e req w req' w' :
  authenticateToken e req w = (Next req', w') ->
  exists token uid r,
    bearer_token (authorization req) = Some token
    /\ verifyToken token = Some {| userId := uid |}
    /\ In r (Pg.users (database w)) /\ get r "id" = VNum uid
    /\ req' = with_user req
                (Pg.project ["id"; "name"; "email"; "avatar_url";
                             "created_at"] r)
    /\ w' = sent w [user_lookup uid].
Proof.
  unfold authenticateToken.
  destruct (bearer_token (authorization req)) as [token|]; [|discriminate].
  destruct (String.eqb token ""); [discriminate|].
  destruct (verifyToken token) as [[uid]|] eqn:V; [|discriminate].
  rewrite query_select. cbn [userId].
  destruct (filter _ _) as [|r rs] eqn:F; cbn [map]; [discriminate|].
  intros [= <- <-].
  assert (Hin : In r (r :: rs)) by now left.
  rewrite <- F in Hin. apply filter_In in Hin as [Hin Hm].
  unfold Pg.matches in Hm. cbn [forallb] in Hm.
  rewrite andb_true_r in Hm. apply eval_Eq_num in Hm.
  exists token, uid, r. repeat split; auto.
Qed.

Lemma caller_spec e req w uid :
  caller e req w = Some uid ->
  exists u,
    authenticateToken e req w
    = (Next (with_user req u), sent w [user_lookup uid])
    /\ get u "id" = VNum uid
    /\ exists r, In r (Pg.users (database w)) /\ get r "id" = VNum uid.
Proof.
  unfold caller.
  destruct (authenticateToken e req w) as [[r|req'|err] w'] eqn:A;
    try discriminate.
  apply authenticateToken_Next in A
    as (token & uid' & r & _ & _ & Hin & Hid & -> & ->).
  cbn [user with_user]. 
  replace (get (Pg.project _ r) "id") with (get r "id") by reflexivity.
  rewrite Hid. intros [= ->].
  eexists. split; [reflexivity|]. split; [exact Hid|]. eauto.
Qed.

(** C4 (as the code has it).  A request whose bearer token fails
    verification is answered 403 with the one message 'Invalid or expired
    token', whichever check failed; the chain stops there, so no identity
    is attached, and nothing was sent to the database. *)
Theorem invalid_token_rejected e req w token :
  bearer_token (authorization req) = Some token ->
  token <> "" ->
  verifyToken token = None ->
  authenticateToken e req w
  = (Send (json 403 false (Some "Invalid or expired token") None), w)
  /\ caller e req w = None.
Proof.
  intros Hb Hne Hv.
  assert (A : authenticateToken e req w
              = (Send (json 403 false (Some "Invalid or expired token") None),
                 w)).
  { unfold authenticateToken. rewrite Hb.
    destruct (String.eqb_spec token ""); [contradiction|].
    now rewrite Hv. }
  split; [exact A|]. unfold caller. now rewrite A.
Qed.

(* --------------------------------------------------------------------- *)
(** ** Validation *)

Lemma entry_get k v k' :
  get (Joi.entry k v) k' = if String.eqb k k' then v else VUndefined.
Proof.
  unfold Joi.entry. destruct v; cbn [get];
    destruct (String.eqb k k'); reflexivity.
Qed.

Lemma get_app_entry k v o k' :
  get (Joi.entry k v ++ o)%list k'
  = if String.eqb k k'
    then match v with VUndefined => get o k' | _ => v end
    else get o k'.
Proof.
  unfold Joi.entry. destruct v; cbn [get app];
    destruct (String.eqb k k'); reflexivity.
Qed.

(** Reading a key out of a list of entries followed by an object. *)
Lemma get_entries_app (g : string -> value) ks o k :
  get (flat_map (fun k' => Joi.entry k' (g k')) ks ++ o)%list k
  = if existsb (String.eqb k) ks
    then match g k with VUndefined => get o k | v => v end
    else get o k.
Proof.
  induction ks as [|k0 ks IH]; [reflexivity|].
  cbn [flat_map existsb]. rewrite <- app_assoc, get_app_entry, IH.
  rewrite (String.eqb_sym k k0).
  destruct (String.eqb_spec k0 k) as [->|Hne]; cbn [orb]; [|reflexivity].
  destruct (g k); try reflexivity.
  now destruct (existsb (String.eqb k) ks).
Qed.

Lemma own_keys_has_key input k :
  existsb (String.eqb k) (Joi.own_keys input) = has_key input k.
Proof.
  unfold has_key, keys.
  induction input as [|[k0 v0] o IH]; [reflexivity|].
  cbn [Joi.own_keys existsb map fst]. rewrite <- IH.
  destruct (String.eqb_spec k k0) as [->|Hne]; cbn [orb]; [reflexivity|].
  generalize (Joi.own_keys o). intros l.
  induction l as [|x l IHl]; [reflexivity|]. cbn [filter existsb].
  destruct (String.eqb_spec k0 x) as [<-|Hx]; cbn [negb existsb].
  - destruct (String.eqb_spec k k0); [contradiction|]. exact IHl.
  - now rewrite IHl.
Qed.

Lemma has_key_get input k : has_key input k = false -> get input k = VUndefined.
Proof.
  unfold has_key, keys.
  induction input as [|[k0 v0] o IH]; [reflexivity|].
  cbn [map fst existsb get]. rewrite (String.eqb_sym k k0).
  destruct (String.eqb k0 k); [discriminate|]. exact IH.
Qed.

Lemma schema_of_absent sch k :
  ~ In k (map fst sch) -> Joi.schema_of sch k = None.
Proof.
  unfold Joi.schema_of.
  induction sch as [|[k0 sc0] sch IH]; intros Hk; [reflexivity|].
  cbn [find fst]. cbn [map fst In] in Hk.
  destruct (String.eqb_spec k0 k); [tauto|]. apply IH. tauto.
Qed.

Lemma schema_of_declared sch k sc :
  NoDup (map fst sch) -> In (k, sc) sch -> Joi.schema_of sch k = Some sc.
Proof.
  unfold Joi.schema_of.
  induction sch as [|[k0 sc0] sch IH]; intros Hnd Hin; [destruct Hin|].
  cbn [map fst] in Hnd. inversion Hnd as [|? ? Hnot Hnd']; subst.
  cbn [find fst]. destruct Hin as [[= -> ->]|Hin].
  - now rewrite String.eqb_refl.
  - destruct (String.eqb_spec k0 k) as [->|Hne]; [|now apply IH].
    destruct Hnot. apply (in_map fst) in Hin. exact Hin.
Qed.

(** The keys the input lacks, with their defaults. *)
Lemma defaults_absent (g : string * Joi.schema -> value) sch k :
  ~ In k (map fst sch) ->
  get (flat_map (fun p => Joi.entry (fst p) (g p)) sch) k = VUndefined.
Proof.
  induction sch as [|[k0 sc0] sch IH]; intros Hk; [reflexivity|].
  cbn [flat_map fst]. cbn [map fst In] in Hk.
  rewrite get_app_entry. destruct (String.eqb_spec k0 k); [tauto|].
  apply IH. tauto.
Qed.

Lemma defaults_get (g : string * Joi.schema -> value) sch k sc :
  NoDup (map fst sch) -> In (k, sc) sch ->
  get (flat_map (fun p => Joi.entry (fst p) (g p)) sch) k = g (k, sc).
Proof.
  induction sch as [|[k0 sc0] sch IH]; intros Hnd Hin; [destruct Hin|].
  cbn [map fst] in Hnd. inversion Hnd as [|? ? Hnot Hnd']; subst.
  cbn [flat_map fst]. rewrite get_app_entry.
  destruct Hin as [[= -> ->]|Hin].
  - rewrite String.eqb_refl. destruct (g (k, sc)) eqn:G; try reflexivity.
    now apply defaults_absent.
  - destruct (String.eqb_spec k0 k) as [->|Hne]; [|now apply IH].
    destruct Hnot. apply (in_map fst) in Hin. exact Hin.
Qed.

(** The normalised value, read key by key. *)
Lemma validate_keys_value sch input k :
  get (snd (Joi.validate_keys sch input)) k
  = if has_key input k
    then match Joi.schema_of sch k with
         | Some sc => snd (Joi.check_key sc (get input k))
         | None => VUndefined
         end
    else get (flat_map
                (fun p => Joi.entry (fst p)
                            (if has_key input (fst p) then VUndefined
                             else snd (Joi.check_key (snd p) VUndefined)))
                sch) k.
Proof.
  unfold Joi.validate_keys. cbn [snd].
  replace (flat_map
             (fun p => if has_key input (fst p) then []
                       else Joi.entry (fst p)
                              (snd (Joi.check_key (snd p) VUndefined))) sch)
    with (flat_map
            (fun p => Joi.entry (fst p)
                        (if has_key input (fst p) then VUndefined
                         else snd (Joi.check_key (snd p) VUndefined))) sch).
  2:{ apply flat_map_ext. intros p. now destruct (has_key input (fst p)). }
  set (F2 := flat_map _ sch).
  replace (flat_map
             (fun k0 => match Joi.schema_of sch k0 with
                        | Some sc =>
                            Joi.entry k0
                              (snd (Joi.check_key sc (get input k0)))
                        | None => []
                        end) (Joi.own_keys input))
    with (flat_map
            (fun k0 => Joi.entry k0
                         match Joi.schema_of sch k0 with
                         | Some sc => snd (Joi.check_key sc (get input k0))
                         | None => VUndefined
                         end) (Joi.own_keys input)).
  2:{ apply flat_map_ext. intros k0. now destruct (Joi.schema_of sch k0). }
  rewrite (get_entries_app
             (fun k0 => match Joi.schema_of sch k0 with
                        | Some sc => snd (Joi.check_key sc (get input k0))
                        | None => VUndefined
                        end)).
  rewrite own_keys_has_key.
  destruct (has_key input k) eqn:Hk; [|reflexivity].
  assert (E : get F2 k = VUndefined).
  { unfold F2. clear F2.
    induction sch as [|[k0 sc0] sch IH]; [reflexivity|].
    cbn [flat_map fst snd]. rewrite get_app_entry.
    destruct (String.eqb_spec k0 k) as [->|Hne]; [|exact IH].
    rewrite Hk. exact IH. }
  rewrite E. now destruct (Joi.schema_of sch k) as [sc|];
    [destruct (snd (Joi.check_key sc (get input k)))|].
Qed.

Lemma validate_keys_absent sch input k :
  ~ In k (map fst sch) ->
  get (snd (Joi.validate_keys sch input)) k = VUndefined.
Proof.
  intros Hk. rewrite validate_keys_value, (schema_of_absent sch k Hk).
  destruct (has_key input k); [reflexivity|].
  now apply defaults_absent.
Qed.

Lemma validate_keys_get sch input k sc :
  NoDup (map fst sch) -> In (k, sc) sch ->
  get (snd (Joi.validate_keys sch input)) k
  = snd (Joi.check_key sc (get input k)).
Proof.
  intros Hnd Hin.
  rewrite validate_keys_value, (schema_of_declared sch k sc Hnd Hin).
  destruct (has_key input k) eqn:Hk; [reflexivity|].
  rewrite (defaults_get _ sch k sc Hnd Hin). cbn [fst snd].
  now rewrite Hk, (has_key_get input k Hk).
Qed.

Lemma validate_keys_errs sch input k sc :
  fst (Joi.validate_keys sch input) = [] -> In (k, sc) sch ->
  fst (Joi.check_key sc (get input k)) = [].
Proof.
  unfold Joi.validate_keys. cbn [fst].
  induction sch as [|[k0 sc0] sch IH]; intros He Hin; [destruct Hin|].
  cbn [flat_map fst snd] in He. apply app_eq_nil in He as [He1 He2].
  destruct Hin as [[= -> ->]|Hin]; [|auto].
  now destruct (fst (Joi.check_key sc (get input k))).
Qed.

(** No listed or allowed value of the schemas is a number that is no
    integer, and no key without a value is converted. *)
Lemma check_key_undefined sc :
  Joi.check_key sc VUndefined
  = if Joi.is_required sc then ([Joi.AnyRequired], VUndefined)
    else match Joi.default_value sc with
         | Some d => ([], d)
         | None => ([], VUndefined)
         end.
Proof. reflexivity. Qed.

Lemma check_key_defined sc v :
  v <> VUndefined ->
  Joi.check_key sc v
  = match Joi.coerce sc v with
    | Joi.Refused e => ([e], v)
    | Joi.NonInteger b =>
        ((Joi.only_violation sc
          ++ flat_map (Joi.check_number_rule (Joi.Between b))
               (Joi.rules sc))%list, VNaN)
    | Joi.Plain v1 =>
        if existsb (value_eqb v1) (Joi.only sc ++ Joi.allowed sc)
        then ([], v1)
        else ((Joi.only_violation sc ++ Joi.check_base sc v1)%list, v1)
    end.
Proof. intros N. destruct v; [destruct (N eq_refl)|..]; reflexivity. Qed.

(** What a key that passed validation holds. *)
Lemma check_key_ok sc v v' :
  Joi.check_key sc v = ([], v') ->
  (v = VUndefined /\ Joi.is_required sc = false
   /\ v' = match Joi.default_value sc with
           | Some d => d
           | None => VUndefined
           end)
  \/ (v <> VUndefined /\ Joi.coerce sc v = Joi.Plain v'
      /\ existsb (value_eqb v') (Joi.only sc ++ Joi.allowed sc) = true)
  \/ (v <> VUndefined /\ Joi.only sc = []
      /\ match Joi.base sc with
         | Joi.KString =>
             exists s, v = VStr s /\ v' = v /\ s <> ""
                       /\ flat_map (Joi.check_string_rule s) (Joi.rules sc)
                          = []
         | Joi.KNumber =>
             (exists z, v' = VNum z /\ unsafe z = false
                        /\ flat_map (Joi.check_number_rule (Joi.Whole z))
                             (Joi.rules sc) = [])
             \/ (exists b, flat_map (Joi.check_number_rule (Joi.Between b))
                             (Joi.rules sc) = [])
         | Joi.KDate => exists t, v' = VDate t
         end).
Proof.
  assert (U : v = VUndefined \/ v <> VUndefined)
    by (destruct v; auto; right; discriminate).
  destruct U as [->|N].
  { unfold Joi.check_key.
    destruct (Joi.is_required sc); [discriminate|].
    destruct (Joi.default_value sc); intros [= <-]; left; auto. }
  rewrite (check_key_defined sc v N).
  destruct (Joi.coerce sc v) as [v1|b|e] eqn:C; [| |discriminate].
  - destruct (existsb (value_eqb v1) (Joi.only sc ++ Joi.allowed sc)) eqn:A.
    + intros [= <-]. right. left. auto.
    + unfold Joi.only_violation. destruct (Joi.only sc); [|discriminate].
      cbn [app]. intros [= E <-]. right. right.
      split; [exact N|]. split; [reflexivity|].
      revert C E. unfold Joi.coerce, Joi.check_base.
      destruct (Joi.base sc).
      * intros [= <-]. destruct v; try discriminate.
        destruct (String.eqb_spec s ""); [discriminate|].
        intros E. exists s. auto.
      * intros C. destruct v1; try discriminate.
        destruct (unsafe z) eqn:S; [discriminate|].
        intros E. left. exists z. auto.
      * intros C. destruct v1; try discriminate.
        intros _. eauto.
  - unfold Joi.only_violation. destruct (Joi.only sc); [|discriminate].
    cbn [app]. intros [= E <-]. right. right.
    split; [exact N|]. split; [reflexivity|].
    revert C. unfold Joi.coerce.
    destruct (Joi.base sc).
    + discriminate.
    + intros _. right. eauto.
    + destruct v; try discriminate;
        destruct (parse_iso_date _); discriminate.
Qed.

(* --------------------------------------------------------------------- *)
(** ** Routes behind the guard *)

Lemma route_behind_guard ms h e req w uid u :
  authenticateToken e req w
  = (Next (with_user req u), sent w [user_lookup uid]) ->
  route (authenticateToken :: ms) h e req w
  = route ms h e (with_user req u) (sent w [user_lookup uid]).
Proof. intros A. cbn [route]. now rewrite A. Qed.

Lemma query_select_count e t wh w :
  query e (Pg.SELECT_COUNT t wh) w
  = (inl [[("count",
            VStr (to_text
                    (Z.of_nat
                       (List.length
                          (filter (Pg.matches wh)
                             (Pg.rows_of (database w) t))))))]],
     sent w [Pg.SELECT_COUNT t wh]).
Proof. reflexivity. Qed.

Lemma query_select_join e wh ob lo w :
  query e (Pg.SELECT_TASKS_JOIN_CATEGORIES wh ob lo) w
  = (inl (Pg.limit_rows lo
            (match ob with
             | Some (k, dir) =>
                 order_rows k dir
                   (map (Pg.joined_row (database w))
                      (filter (Pg.matches wh) (Pg.tasks (database w))))
             | None =>
                 map (Pg.joined_row (database w))
                   (filter (Pg.matches wh) (Pg.tasks (database w)))
             end)),
     sent w [Pg.SELECT_TASKS_JOIN_CATEGORIES wh ob lo]).
Proof. unfold query, Pg.exec. now destruct ob as [[k dir]|]. Qed.

Lemma sent_sent w a b : sent (sent w a) b = sent w (a ++ b).
Proof. unfold sent. cbn. now rewrite app_assoc. Qed.

(* --------------------------------------------------------------------- *)
(** ** GET /tasks *)


Lemma tasks_list_run e req w u uid page limit o :
  user req = Some u -> get u "id" = VNum uid ->
  get (query_string req) "page" = VNum page ->
  get (query_string req) "limit" = VNum limit ->
  get (query_string req) "order" = VStr o ->
  exists rows w',
    tasks_list e req w
    = (inl (json 200 true None
              (Some (TaskPage rows
                       (pagination_of (VNum page) (VNum limit)
                          (VNum (Z.of_nat
                                   (List.length
                                      (matching_tasks uid
                                         (query_string req) w)))))))),
       w')
    /\ database w' = database w.
Proof.
  intros Hu Hid Hp Hl Ho. unfold tasks_list, req_user_id, bind.
  rewrite Hu, Hid. cbn [ret]. rewrite query_select_count.
  cbn [row0_prop ret get String.eqb Ascii.eqb Bool.eqb].
  rewrite parseInt_to_text. cbn [of_number]. rewrite Ho. cbn [ret].
  rewrite query_select_join, Hp, Hl.
  eexists. eexists. split; [reflexivity|reflexivity].
Qed.

Lemma pagination_schema_keys :
  NoDup (map fst (Joi.concat querySchemas_pagination
                    querySchemas_taskFilters)).
Proof.
  cbn. repeat constructor; cbn; intuition discriminate.
Qed.

(** A validated list query holds a page and a limit that are numbers, at
    least 1, and an order that is text. *)
Lemma validated_list_query raw q :
  Joi.validate_keys
    (Joi.concat querySchemas_pagination querySchemas_taskFilters) raw
  = ([], q) ->
  exists page limit o,
    get q "page" = VNum page /\ 1 <= page
    /\ get q "limit" = VNum limit /\ 1 <= limit <= 100
    /\ get q "order" = VStr o.
Proof.
  intros V.
  set (sch := Joi.concat querySchemas_pagination querySchemas_taskFilters)
    in *.
  assert (Hq : q = snd (Joi.validate_keys sch raw)) by now rewrite V.
  assert (He : fst (Joi.validate_keys sch raw) = []) by now rewrite V.
  assert (G : forall k sc, In (k, sc) sch ->
              exists v', get q k = v'
                         /\ Joi.check_key sc (get raw k) = ([], v')).
  { intros k sc Hin. rewrite Hq.
    rewrite (validate_keys_get sch raw k sc pagination_schema_keys Hin).
    pose proof (validate_keys_errs sch raw k sc He Hin) as E.
    destruct (Joi.check_key sc (get raw k)) as [errs v']. cbn in *.
    subst. eauto. }
  destruct (G "page" _ ltac:(left; reflexivity)) as (vp & Hp & Cp).
  destruct (G "limit" _ ltac:(right; left; reflexivity)) as (vl & Hl & Cl).
  destruct (G "order" _ ltac:(do 3 right; left; reflexivity))
    as (vo & Ho & Co).
  rewrite Hp, Hl, Ho. clear G Hp Hl Ho Hq He V.
  apply check_key_ok in Cp, Cl, Co. cbn in Cp, Cl, Co.
  assert (Pp : exists page, vp = VNum page /\ 1 <= page <= MAX_SAFE_INTEGER).
  { destruct Cp
      as [(_ & _ & ->)|[(_ & _ & F)|(_ & _ & [(z & -> & S & R)|(b & R)])]].
    - exists 1. split; [reflexivity|]. unfold MAX_SAFE_INTEGER. lia.
    - cbn in F. discriminate F.
    - exists z. split; [reflexivity|]. apply orb_false_iff in S as [_ S].
      apply Z.ltb_ge in S.
      destruct (Z.ltb_spec z 1); [discriminate|lia].
    - discriminate R. }
  assert (Pl : exists limit, vl = VNum limit /\ 1 <= limit <= 100).
  { destruct Cl
      as [(_ & _ & ->)|[(_ & _ & F)|(_ & _ & [(z & -> & _ & R)|(b & R)])]].
    - exists 10. split; [reflexivity|lia].
    - cbn in F. discriminate F.
    - exists z. split; [reflexivity|].
      destruct (Z.ltb_spec z 1); [discriminate|].
      destruct (Z.ltb_spec 100 z); [discriminate|lia].
    - discriminate R. }
  assert (Po : exists o, vo = VStr o).
  { destruct Co as [(_ & _ & ->)|[(_ & _ & F)|(_ & F & _)]].
    - eexists; reflexivity.
    - destruct vo; try (cbn in F; discriminate F). eexists; reflexivity.
    - discriminate. }
  destruct Pp as (page & -> & ? & _), Pl as (limit & -> & ?), Po as (o & ->).
  exists page, limit, o. auto.
Qed.


(** The list route as a whole: behind the guard and the query validation,
    the response is 200 and carries the block computed from the validated
    page and limit and from the number of matching rows. *)
Lemma GET_tasks_reports_pagination e req w uid q :
  caller e req w = Some uid ->
  Joi.validate_keys
    (Joi.concat querySchemas_pagination querySchemas_taskFilters)
    (query_string req) = ([], q) ->
  exists page limit rows w',
    get q "page" = VNum page /\ 1 <= page
    /\ get q "limit" = VNum limit /\ 1 <= limit
    /\ GET_tasks e req w
       = (json 200 true None
            (Some (TaskPage rows
                     (pagination_of (VNum page) (VNum limit)
                        (VNum (Z.of_nat
                                 (List.length
                                    (matching_tasks uid q w))))))), w').
Proof.
  intros Hc V.
  destruct (caller_spec e req w uid Hc) as (u & A & Hid & _).
  destruct (validated_list_query _ q V)
    as (page & limit & o & Hp & Hp1 & Hl & Hl1 & Ho).
  unfold GET_tasks. rewrite (route_behind_guard _ _ e req w uid u A).
  cbn [route pure]. unfold validateQuery. cbn [query_string with_user].
  rewrite V.
  destruct (tasks_list_run e (with_query (with_user req u) q)
              (sent w [user_lookup uid]) u uid page limit o
              eq_refl Hid Hp Hl Ho) as (rows & w' & R & _).
  cbn [route]. rewrite R. cbn [query_string with_query].
  exists page, limit, rows, w'. repeat split; auto; lia.
Qed.

(* --------------------------------------------------------------------- *)
(** ** Tasks of other users *)

Lemma no_match_when_not_callers d id uid :
  not_callers_task d id uid ->
  forall r, In r (Pg.tasks d) -> Pg.matches (id_and_owner id uid) r = false.
Proof.
  intros N r Hin. destruct (Pg.matches (id_and_owner id uid) r) eqn:M; auto.
  apply matches_id_user in M as [Hid Hu].
  destruct N as [N|N]; exfalso; eapply N; eauto.
Qed.

Lemma filter_none {A} (p : A -> bool) l :
  (forall x, In x l -> p x = false) -> filter p l = [].
Proof.
  induction l as [|x l IH]; intros Hp; [reflexivity|]. cbn.
  rewrite (Hp x) by now left. apply IH. intros y Hy. apply Hp. now right.
Qed.

Lemma filter_all {A} (p : A -> bool) l :
  (forall x, In x l -> p x = true) -> filter p l = l.
Proof.
  induction l as [|x l IH]; intros Hp; [reflexivity|]. cbn.
  rewrite (Hp x) by now left. f_equal. apply IH. intros y Hy.
  apply Hp. now right.
Qed.

Lemma with_rows_same d t : Pg.with_rows d t (Pg.rows_of d t) = d.
Proof. now destruct d, t. Qed.

Lemma query_delete_tasks_none e wh ret w :
  (forall r, In r (Pg.tasks (database w)) -> Pg.matches wh r = false) ->
  query e (Pg.DELETE Pg.Tasks wh ret) w
  = (inl [], sent w [Pg.DELETE Pg.Tasks wh ret]).
Proof.
  intros N. unfold query, Pg.exec, Pg.delete_rows. cbn [Pg.rows_of].
  rewrite (filter_none _ _ N).
  rewrite filter_all by (intros r Hr; now rewrite N).
  cbn [map]. unfold sent.
  pose proof (with_rows_same (database w) Pg.Tasks) as E.
  cbn [Pg.rows_of] in E. now rewrite E.
Qed.

Lemma tasks_get_not_found e req w u uid :
  user req = Some u -> get u "id" = VNum uid ->
  not_callers_task (database w) (params_id req) uid ->
  tasks_get e req w
  = (inl task_not_found,
     sent w [Pg.SELECT_TASKS_JOIN_CATEGORIES
               (id_and_owner (params_id req) uid) None None]).
Proof.
  intros Hu Hid N. unfold tasks_get, req_user_id, bind.
  rewrite Hu, Hid. cbn [ret]. rewrite query_select_join.
  fold (id_and_owner (params_id req) uid).
  rewrite (filter_none _ _ (no_match_when_not_callers _ _ _ N)).
  reflexivity.
Qed.

Lemma tasks_delete_not_found e req w u uid :
  user req = Some u -> get u "id" = VNum uid ->
  not_callers_task (database w) (params_id req) uid ->
  tasks_delete e req w
  = (inl task_not_found,
     sent w [Pg.DELETE Pg.Tasks (id_and_owner (params_id req) uid) ["id"]]).
Proof.
  intros Hu Hid N. unfold tasks_delete, req_user_id, bind.
  rewrite Hu, Hid. cbn [ret].
  fold (id_and_owner (params_id req) uid).
  rewrite query_delete_tasks_none
    by exact (no_match_when_not_callers _ _ _ N).
  reflexivity.
Qed.

Lemma tasks_update_not_found e req w u uid :
  user req = Some u -> get u "id" = VNum uid ->
  not_callers_task (database w) (params_id req) uid ->
  tasks_update e req w
  = (inl task_not_found,
     sent w [Pg.SELECT ["id"; "status"] Pg.Tasks
               (id_and_owner (params_id req) uid)]).
Proof.
  intros Hu Hid N. unfold tasks_update, req_user_id, bind.
  rewrite Hu, Hid. cbn [ret]. rewrite query_select.
  fold (id_and_owner (params_id req) uid). cbn [Pg.rows_of].
  rewrite (filter_none _ _ (no_match_when_not_callers _ _ _ N)).
  reflexivity.
Qed.

(** What the update route does with the body before the handler sees it. *)
Lemma validate_cases schema req :
  (exists errs, errs <> []
                /\ fst (Joi.validate_keys schema (body req)) = errs
                /\ validate schema req
                   = Send (validation_failure "Validation error" errs))
  \/ (exists b, Joi.validate_keys schema (body req) = ([], b)
                /\ validate schema req = Next (with_body req b)).
Proof.
  unfold validate.
  destruct (Joi.validate_keys schema (body req)) as [[|x errs] b].
  - right. eauto.
  - left. exists (x :: errs). repeat split; auto. discriminate.
Qed.

Lemma query_issued e s w :
  issued (snd (query e s w)) = (issued w ++ [s])%list.
Proof.
  unfold query. destruct (Pg.exec _ s _) as [[rs|c] d]; reflexivity.
Qed.

(** Every statement the three single-task handlers send, on any path,
    carries the filter on the task id and on the caller's id. *)
Lemma single_task_statements_scoped e req w u uid h :
  user req = Some u -> get u "id" = VNum uid ->
  In h [tasks_get; tasks_update; tasks_delete] ->
  exists ss,
    issued (snd (h e req w)) = (issued w ++ ss)%list
    /\ Forall (fun s => where_of s = id_and_owner (params_id req) uid) ss.
Proof.
  intros Hu Hid [<-|[<-|[<-|[]]]].
  - unfold tasks_get, req_user_id, bind. rewrite Hu, Hid. cbn [ret].
    rewrite query_select_join.
    eexists [_]. split.
    + destruct (Pg.limit_rows _ _); reflexivity.
    + repeat constructor.
  - unfold tasks_update, req_user_id, bind. rewrite Hu, Hid. cbn [ret].
    rewrite query_select.
    destruct (map _ (filter _ _)) as [|r0 rs].
    + eexists [_]. split; [reflexivity|repeat constructor].
    + destruct (_ ++ _)%list as [|f fs] eqn:F.
      * eexists [_]. split; [reflexivity|repeat constructor].
      * match goal with
        | |- context [query e ?s ?w0] =>
            pose proof (query_issued e s w0) as Q;
            destruct (query e s w0) as [[rows|err] w1]
        end; cbn [snd ret] in *; rewrite Q; cbn [sent issued];
          rewrite <- app_assoc; eexists [_; _];
          (split; [reflexivity|repeat constructor]).
  - unfold tasks_delete, req_user_id, bind. rewrite Hu, Hid. cbn [ret].
    match goal with
    | |- context [query e ?s ?w0] =>
        pose proof (query_issued e s w0) as Q;
        destruct (query e s w0) as [[[|r rows]|err] w1]
    end; cbn [snd ret] in *; rewrite Q; eexists [_];
      (split; [reflexivity|repeat constructor]).
Qed.

(** C1 (as the code has it).  For a caller the guard let through and a
    task id that the id column can hold, and that is unknown or belongs
    to someone else: fetching and deleting answer 404 'Task not found';
    updating answers the same 404 when the body passes validation, and
    400 'Validation error' before any look-up when it does not.  None of
    these answers is a 403, none carries task data, and the tables are
    left as they were.  On every path, also when the task is the
    caller's, each statement the three handlers send is filtered by
    [id = taskId AND user_id = caller]. *)
Theorem foreign_task_is_not_found e req w uid :
  caller e req w = Some uid ->
  Pg.int4 (params_id req) = true ->
  not_callers_task (database w) (params_id req) uid ->
  let scope := id_and_owner (params_id req) uid in
  GET_tasks_id e req w
  = (task_not_found,
     sent w [user_lookup uid;
             Pg.SELECT_TASKS_JOIN_CATEGORIES scope None None])
  /\ DELETE_tasks_id e req w
     = (task_not_found,
        sent w [user_lookup uid; Pg.DELETE Pg.Tasks scope ["id"]])
  /\ (forall b,
         Joi.validate_keys taskSchemas_update (body req) = ([], b) ->
         PUT_tasks_id e req w
         = (task_not_found,
            sent w [user_lookup uid;
                    Pg.SELECT ["id"; "status"] Pg.Tasks scope]))
  /\ (fst (Joi.validate_keys taskSchemas_update (body req)) <> [] ->
      exists r,
        PUT_tasks_id e req w = (r, sent w [user_lookup uid])
        /\ status r = 400 /\ success r = false
        /\ message r = Some "Validation error"
        /\ data r = None /\ errors r <> [])
  /\ (forall r w',
         In (r, w') [GET_tasks_id e req w; PUT_tasks_id e req w;
                     DELETE_tasks_id e req w] ->
         status r <> 403 /\ data r = None /\ database w' = database w)
  /\ (forall req0 w0 u0 h,
         user req0 = Some u0 -> get u0 "id" = VNum uid ->
         In h [tasks_get; tasks_update; tasks_delete] ->
         exists ss,
           issued (snd (h e req0 w0)) = (issued w0 ++ ss)%list
           /\ Forall (fun s => where_of s
                               = id_and_owner (params_id req0) uid) ss).
Proof.
  intros Hc _ N scope.
  destruct (caller_spec e req w uid Hc) as (u & A & Hid & _).
  assert (G : GET_tasks_id e req w
              = (task_not_found,
                 sent w [user_lookup uid;
                         Pg.SELECT_TASKS_JOIN_CATEGORIES scope None None])).
  { unfold GET_tasks_id. rewrite (route_behind_guard _ _ e req w uid u A).
    cbn [route].
    rewrite (tasks_get_not_found e (with_user req u)
               (sent w [user_lookup uid]) u uid eq_refl Hid N).
    now rewrite sent_sent. }
  assert (D : DELETE_tasks_id e req w
              = (task_not_found,
                 sent w [user_lookup uid; Pg.DELETE Pg.Tasks scope ["id"]])).
  { unfold DELETE_tasks_id.
    rewrite (route_behind_guard _ _ e req w uid u A). cbn [route].
    rewrite (tasks_delete_not_found e (with_user req u)
               (sent w [user_lookup uid]) u uid eq_refl Hid N).
    now rewrite sent_sent. }
  assert (P1 : forall b,
             Joi.validate_keys taskSchemas_update (body req) = ([], b) ->
             PUT_tasks_id e req w
             = (task_not_found,
                sent w [user_lookup uid;
                        Pg.SELECT ["id"; "status"] Pg.Tasks scope])).
  { intros b V. unfold PUT_tasks_id.
    rewrite (route_behind_guard _ _ e req w uid u A).
    cbn [route pure]. unfold validate. cbn [body with_user]. rewrite V.
    cbn [route].
    rewrite (tasks_update_not_found e (with_body (with_user req u) b)
               (sent w [user_lookup uid]) u uid eq_refl Hid N).
    now rewrite sent_sent. }
  assert (P2 : forall errs b,
             errs <> [] ->
             Joi.validate_keys taskSchemas_update (body req) = (errs, b) ->
             PUT_tasks_id e req w
             = (validation_failure "Validation error" errs,
                sent w [user_lookup uid])).
  { intros errs b Hne V. unfold PUT_tasks_id.
    rewrite (route_behind_guard _ _ e req w uid u A).
    cbn [route pure]. unfold validate. cbn [body with_user]. rewrite V.
    destruct errs; [contradiction|reflexivity]. }
  split; [exact G|]. split; [exact D|]. split; [exact P1|].
  split.
  { intros Hne.
    destruct (Joi.validate_keys taskSchemas_update (body req))
      as [errs b] eqn:V.
    cbn [fst] in Hne. rewrite (P2 errs b Hne eq_refl).
    eexists. split; [reflexivity|]. cbn. auto. }
  split; [intros r w' Hin; repeat split|].
  - destruct Hin as [E|[E|[E|[]]]].
    + rewrite G in E. injection E as <- <-. discriminate.
    + destruct (Joi.validate_keys taskSchemas_update (body req))
        as [[|x errs] b] eqn:V.
      * rewrite (P1 b eq_refl) in E. injection E as <- <-. discriminate.
      * rewrite (P2 (x :: errs) b ltac:(discriminate) eq_refl) in E.
        injection E as <- <-. discriminate.
    + rewrite D in E. injection E as <- <-. discriminate.
  - destruct Hin as [E|[E|[E|[]]]].
    + rewrite G in E. now injection E as <- <-.
    + destruct (Joi.validate_keys taskSchemas_update (body req))
        as [[|x errs] b] eqn:V.
      * rewrite (P1 b eq_refl) in E. now injection E as <- <-.
      * rewrite (P2 (x :: errs) b ltac:(discriminate) eq_refl) in E.
        now injection E as <- <-.
    + rewrite D in E. now injection E as <- <-.
  - destruct Hin as [E|[E|[E|[]]]].
    + rewrite G in E. now injection E as <- <-.
    + destruct (Joi.validate_keys taskSchemas_update (body req))
        as [[|x errs] b] eqn:V.
      * rewrite (P1 b eq_refl) in E. now injection E as <- <-.
      * rewrite (P2 (x :: errs) b ltac:(discriminate) eq_refl) in E.
        now injection E as <- <-.
    + rewrite D in E. now injection E as <- <-.
  - intros req0 w0 u0 h Hu0 Hid0 Hh.
    exact (single_task_statements_scoped e req0 w0 u0 uid h Hu0 Hid0 Hh).
Qed.

(* --------------------------------------------------------------------- *)
(** ** Updates that name no field *)

Lemma existsb_filter {A} (p : A -> bool) l :
  existsb p l = match filter p l with [] => false | _ :: _ => true end.
Proof.
  induction l as [|x l IH]; [reflexivity|]. cbn.
  destruct (p x); cbn; auto.
Qed.

Lemma hd_error_filter {A} (p : A -> bool) l :
  hd_error (filter p l) = find p l.
Proof.
  induction l as [|x l IH]; [reflexivity|]. cbn.
  destruct (p x); cbn; auto.
Qed.

Lemma route_validated schema h e req w b :
  Joi.validate_keys schema (body req) = ([], b) ->
  route [pure (validate schema)] h e req w
  = route [] h e (with_body req b) w.
Proof. intros V. cbn [route pure]. unfold validate. now rewrite V. Qed.

(** C3 (as the code has it).  An update whose validated body holds no
    recognised field never reaches an UPDATE statement, so the tables stay
    as they were: the only statements sent are the guard's and the
    handler's look-ups.  The answer is 400 'No valid fields to update'
    once the look-up that precedes the check has found the caller's
    resource: at once for the profile; for a task, 404 'Task not found'
    comes first when no task with the id is the caller's; for a category,
    404 'Category not found' or the 403 of a category that is not the
    caller's comes first.  The id of the task or of the category is one
    its column can hold. *)
Theorem empty_update_changes_nothing e req w uid :
  caller e req w = Some uid ->
  (Joi.validate_keys userSchemas_updateProfile (body req) = ([], []) ->
   PUT_users_profile e req w
   = (no_valid_fields, sent w [user_lookup uid]))
  /\ (Pg.int4 (params_id req) = true ->
      Joi.validate_keys taskSchemas_update (body req) = ([], []) ->
      PUT_tasks_id e req w
      = (if existsb (Pg.matches (id_and_owner (params_id req) uid))
              (Pg.tasks (database w))
         then no_valid_fields else task_not_found,
         sent w [user_lookup uid;
                 Pg.SELECT ["id"; "status"] Pg.Tasks
                   (id_and_owner (params_id req) uid)]))
  /\ (Pg.int4 (params_id req) = true ->
      Joi.validate_keys categorySchemas_update (body req) = ([], []) ->
      PUT_categories_id e req w
      = (match find (Pg.matches [Pg.Eq "id" (VNum (params_id req))])
                 (Pg.categories (database w)) with
         | None => category_not_found
         | Some c =>
             if strict_eq (get c "user_id") (VNum uid)
             then no_valid_fields
             else json 403 false (Some "Cannot update default categories")
                    None
         end,
         sent w [user_lookup uid;
                 Pg.SELECT ["id"; "user_id"] Pg.Categories
                   [Pg.Eq "id" (VNum (params_id req))]])).
Proof.
  intros Hc. destruct (caller_spec e req w uid Hc) as (u & A & Hid & _).
  split; [|split]; [intros V|intros _ V|intros _ V].
  - unfold PUT_users_profile.
    rewrite (route_behind_guard _ _ e req w uid u A).
    rewrite (route_validated _ _ e (with_user req u) _ [] V).
    cbn [route]. unfold users_update_profile, req_user_id, bind.
    cbn [user with_body with_user body]. rewrite Hid. reflexivity.
  - unfold PUT_tasks_id.
    rewrite (route_behind_guard _ _ e req w uid u A).
    rewrite (route_validated _ _ e (with_user req u) _ [] V).
    cbn [route]. unfold tasks_update, req_user_id, bind.
    cbn [user with_body with_user body params_id]. rewrite Hid.
    cbn [ret]. rewrite query_select, sent_sent.
    fold (id_and_owner (params_id req) uid).
    cbn [Pg.rows_of database sent]. rewrite existsb_filter.
    destruct (filter _ _) as [|r rs]; reflexivity.
  - unfold PUT_categories_id.
    rewrite (route_behind_guard _ _ e req w uid u A).
    rewrite (route_validated _ _ e (with_user req u) _ [] V).
    cbn [route]. unfold categories_update, req_user_id, bind.
    cbn [user with_body with_user body params_id]. rewrite Hid.
    cbn [ret]. rewrite query_select, sent_sent.
    cbn [Pg.rows_of database sent]. rewrite <- hd_error_filter.
    destruct (filter _ _) as [|c cs]; [reflexivity|].
    cbn [map hd_error].
    replace (get (Pg.project ["id"; "user_id"] c) "user_id")
      with (get c "user_id") by reflexivity.
    destruct (strict_eq (get c "user_id") (VNum uid)); reflexivity.
Qed.

(* --------------------------------------------------------------------- *)
(** ** Deleting a category *)

Lemma find_filter {A} (p : A -> bool) l x :
  find p l = Some x -> exists xs, filter p l = x :: xs.
Proof.
  rewrite <- hd_error_filter. destruct (filter p l) as [|y ys]; cbn.
  - discriminate.
  - intros [= ->]. eauto.
Qed.

(** C10.  For a category the caller owns, the count that decides the
    deletion is the number [n] of tasks that reference the category and
    belong to the caller, and nothing else: with [n > 0] the answer is the
    400 that reports [n] and the tables are untouched; with [n = 0] the
    category is deleted, whatever tasks of other users reference it. *)
Theorem category_deletion_counts_own_tasks e req w uid c :
  caller e req w = Some uid ->
  find (Pg.matches [Pg.Eq "id" (VNum (params_id req))])
    (Pg.categories (database w)) = Some c ->
  get c "user_id" = VNum uid ->
  let own := filter
               (Pg.matches [Pg.Eq "category_id" (VNum (params_id req));
                            Pg.Eq "user_id" (VNum uid)])
               (Pg.tasks (database w)) in
  let n := Z.of_nat (List.length own) in
  exists w',
    DELETE_categories_id e req w
    = (if 0 <? n
       then json 400 false (Some (category_has_tasks (VNum n))) None
       else json 200 true (Some "Category deleted successfully") None,
       w')
    /\ (0 < n -> database w' = database w)
    /\ (n = 0 -> ~ In c (Pg.categories (database w'))).
Proof.
  intros Hc Hf Ho own n.
  destruct (caller_spec e req w uid Hc) as (u & A & Hid & _).
  destruct (find_filter _ _ _ Hf) as (cs & F).
  unfold DELETE_categories_id.
  rewrite (route_behind_guard _ _ e req w uid u A). cbn [route].
  unfold categories_delete, req_user_id, bind.
  cbn [user with_user params_id]. rewrite Hid. cbn [ret].
  rewrite query_select, sent_sent. cbn [Pg.rows_of database sent].
  rewrite F. cbn [map].
  replace (get (Pg.project ["id"; "user_id"] c) "user_id")
    with (get c "user_id") by reflexivity.
  rewrite Ho. unfold strict_eq. cbn [value_eqb]. rewrite Z.eqb_refl.
  cbn [negb]. rewrite query_select_count, sent_sent.
  cbn [row0_prop ret get String.eqb Ascii.eqb Bool.eqb].
  rewrite parseInt_to_text. cbn [of_number Pg.rows_of database sent].
  fold own. fold n.
  replace (lt (VNum 0) (VNum n)) with (0 <? n) by reflexivity.
  destruct (Z.ltb_spec 0 n) as [Hn|Hn].
  - eexists. split; [reflexivity|]. split; [reflexivity|lia].
  - unfold query at 1. unfold Pg.exec, Pg.delete_rows.
    cbn [map database sent Pg.rows_of].
    eexists. split; [reflexivity|]. split; [lia|].
    intros _. cbn [database Pg.with_rows Pg.categories].
    intros Hin. apply filter_In in Hin as [_ Hneg].
    apply negb_true_iff in Hneg.
    assert (M : Pg.matches [Pg.Eq "id" (VNum (params_id req));
                            Pg.Eq "user_id" (VNum uid)] c = true).
    { apply matches_id_user. split; [|exact Ho].
      apply find_some in Hf as [_ Hm]. unfold Pg.matches in Hm.
      cbn [forallb] in Hm. rewrite andb_true_r in Hm.
      now apply eval_Eq_num in Hm. }
    congruence.
Qed.

(* --------------------------------------------------------------------- *)
(** ** Defaults *)

Lemma create_task_keys : NoDup (map fst taskSchemas_create).
Proof. cbn. repeat constructor; cbn; intuition discriminate. Qed.

Lemma create_category_keys : NoDup (map fst categorySchemas_create).
Proof. cbn. repeat constructor; cbn; intuition discriminate. Qed.

(** POST /tasks behind its guard and its validation: the INSERT decides. *)
Lemma POST_tasks_run e req w uid b :
  caller e req w = Some uid ->
  Joi.validate_keys taskSchemas_create (body req) = ([], b) ->
  POST_tasks e req w
  = match Pg.exec (db_clock e) (insert_task b uid) (database w) with
    | (Pg.Rows rs, d) =>
        (json 201 true (Some "Task created successfully")
           (Some (Row (hd_error rs))),
         {| database := d;
            issued := (issued w
                       ++ [user_lookup uid; insert_task b uid])%list |})
    | (Pg.Error code, d) =>
        (errorHandler e (DatabaseError code),
         {| database := d;
            issued := (issued w
                       ++ [user_lookup uid; insert_task b uid])%list |})
    end.
Proof.
  intros Hc V.
  destruct (caller_spec e req w uid Hc) as (u & A & Hid & Hu).
  unfold POST_tasks. rewrite (route_behind_guard _ _ e req w uid u A).
  rewrite (route_validated _ _ e (with_user req u) _ b V).
  cbn [route]. unfold tasks_create, req_user_id, bind.
  cbn [user with_body with_user body]. rewrite Hid. cbn [ret].
  fold (insert_task b uid). unfold query. cbn [database sent issued].
  rewrite <- app_assoc. cbn [app].
  destruct (Pg.exec _ _ _) as [[rs|code] d]; reflexivity.
Qed.

(** C8.  A key left out of the input comes out of validation with its
    declared default: status 'pending' and priority 'medium' for a new
    task, colour '#3B82F6' for a new category, page 1, limit 10, sort
    'created_at' and order 'desc' for a list query.  When the input is
    valid, the middleware hands on a request whose body (or query) is
    this normalised value, in place of the raw one, and like the request
    it received in everything else; the handler of the route runs on
    that request, and the INSERT of a new task carries the normalised
    values. *)
Theorem validation_fills_defaults raw :
  (get raw "status" = VUndefined ->
   get (snd (Joi.validate_keys taskSchemas_create raw)) "status"
   = VStr "pending")
  /\ (get raw "priority" = VUndefined ->
      get (snd (Joi.validate_keys taskSchemas_create raw)) "priority"
      = VStr "medium")
  /\ (get raw "color" = VUndefined ->
      get (snd (Joi.validate_keys categorySchemas_create raw)) "color"
      = VStr "#3B82F6")
  /\ (get raw "page" = VUndefined ->
      get (snd (Joi.validate_keys
              (Joi.concat querySchemas_pagination
                 querySchemas_taskFilters) raw)) "page" = VNum 1)
  /\ (get raw "limit" = VUndefined ->
      get (snd (Joi.validate_keys
              (Joi.concat querySchemas_pagination
                 querySchemas_taskFilters) raw)) "limit" = VNum 10)
  /\ (get raw "sort" = VUndefined ->
      get (snd (Joi.validate_keys
              (Joi.concat querySchemas_pagination
                 querySchemas_taskFilters) raw)) "sort" = VStr "created_at")
  /\ (get raw "order" = VUndefined ->
      get (snd (Joi.validate_keys
              (Joi.concat querySchemas_pagination
                 querySchemas_taskFilters) raw)) "order" = VStr "desc")
  /\ (forall schema req v,
         body req = raw ->
         Joi.validate_keys schema raw = ([], v) ->
         exists req',
           validate schema req = Next req'
           /\ body req' = v
           /\ query_string req' = query_string req
           /\ params_id req' = params_id req
           /\ user req' = user req
           /\ authorization req' = authorization req)
  /\ (forall schema req v,
         query_string req = raw ->
         Joi.validate_keys schema raw = ([], v) ->
         exists req',
           validateQuery schema req = Next req'
           /\ query_string req' = v
           /\ body req' = body req
           /\ params_id req' = params_id req
           /\ user req' = user req
           /\ authorization req' = authorization req)
  /\ (forall e req w uid v,
         body req = raw -> caller e req w = Some uid ->
         Joi.validate_keys taskSchemas_create raw = ([], v) ->
         exists u req',
           get u "id" = VNum uid
           /\ body req' = v /\ user req' = Some u
           /\ POST_tasks e req w
              = route [] tasks_create e req' (sent w [user_lookup uid])
           /\ issued (snd (POST_tasks e req w))
              = (issued w ++ [user_lookup uid; insert_task v uid])%list)
  /\ (forall e req w uid v,
         body req = raw -> caller e req w = Some uid ->
         Joi.validate_keys categorySchemas_create raw = ([], v) ->
         exists u req',
           get u "id" = VNum uid
           /\ body req' = v /\ user req' = Some u
           /\ POST_categories e req w
              = route [] categories_create e req'
                  (sent w [user_lookup uid]))
  /\ (forall e req w uid v,
         query_string req = raw -> caller e req w = Some uid ->
         Joi.validate_keys
           (Joi.concat querySchemas_pagination querySchemas_taskFilters)
           raw = ([], v) ->
         exists u req',
           get u "id" = VNum uid
           /\ query_string req' = v /\ user req' = Some u
           /\ GET_tasks e req w
              = route [] tasks_list e req' (sent w [user_lookup uid])).
Proof.
  repeat match goal with |- _ /\ _ => split end.
  - intros E.
    rewrite (validate_keys_get taskSchemas_create raw "status" _
               create_task_keys ltac:(do 2 right; left; reflexivity)).
    now rewrite E.
  - intros E.
    rewrite (validate_keys_get taskSchemas_create raw "priority" _
               create_task_keys ltac:(do 3 right; left; reflexivity)).
    now rewrite E.
  - intros E.
    rewrite (validate_keys_get categorySchemas_create raw "color" _
               create_category_keys ltac:(right; left; reflexivity)).
    now rewrite E.
  - intros E.
    rewrite (validate_keys_get _ raw "page" _ pagination_schema_keys
               ltac:(left; reflexivity)).
    now rewrite E.
  - intros E.
    rewrite (validate_keys_get _ raw "limit" _ pagination_schema_keys
               ltac:(right; left; reflexivity)).
    now rewrite E.
  - intros E.
    rewrite (validate_keys_get _ raw "sort" _ pagination_schema_keys
               ltac:(do 2 right; left; reflexivity)).
    now rewrite E.
  - intros E.
    rewrite (validate_keys_get _ raw "order" _ pagination_schema_keys
               ltac:(do 3 right; left; reflexivity)).
    now rewrite E.
  - intros schema req v <- V. unfold validate. rewrite V.
    eexists. split; [reflexivity|]. repeat split.
  - intros schema req v <- V. unfold validateQuery. rewrite V.
    eexists. split; [reflexivity|]. repeat split.
  - intros e req w uid v <- Hc V.
    destruct (caller_spec e req w uid Hc) as (u & A & Hid & _).
    exists u, (with_body (with_user req u) v).
    split; [exact Hid|]. split; [reflexivity|]. split; [reflexivity|].
    split.
    + unfold POST_tasks.
      rewrite (route_behind_guard _ _ e req w uid u A).
      now rewrite (route_validated _ _ e (with_user req u) _ v V).
    + rewrite (POST_tasks_run e req w uid v Hc V).
      now destruct (Pg.exec _ _ _) as [[rs|code] d].
  - intros e req w uid v <- Hc V.
    destruct (caller_spec e req w uid Hc) as (u & A & Hid & _).
    exists u, (with_body (with_user req u) v).
    split; [exact Hid|]. split; [reflexivity|]. split; [reflexivity|].
    unfold POST_categories.
    rewrite (route_behind_guard _ _ e req w uid u A).
    now rewrite (route_validated _ _ e (with_user req u) _ v V).
  - intros e req w uid v <- Hc V.
    destruct (caller_spec e req w uid Hc) as (u & A & Hid & _).
    exists u, (with_query (with_user req u) v).
    split; [exact Hid|]. split; [reflexivity|]. split; [reflexivity|].
    unfold GET_tasks.
    rewrite (route_behind_guard _ _ e req w uid u A).
    cbn [route pure]. unfold validateQuery.
    cbn [query_string with_user]. now rewrite V.
Qed.

(* --------------------------------------------------------------------- *)
(** ** The engine: constraints under UPDATE *)

Lemma first_error_None l :
  Pg.first_error l = None <-> Forall (fun e => e = None) l.
Proof.
  induction l as [|[c|] l IH]; cbn.
  - split; auto.
  - split; [discriminate|]. intros F. inversion F. discriminate.
  - rewrite IH. split; [now constructor|]. intros F. now inversion F.
Qed.

Lemma first_error_map_None {A} (f : A -> option string) l :
  Pg.first_error (map f l) = None <-> forall x, In x l -> f x = None.
Proof.
  rewrite first_error_None, Forall_map, Forall_forall. tauto.
Qed.

Lemma constraint_error_None d t written all :
  Pg.constraint_error d t written all = None
  <-> (forall r, In r written ->
       forall k, In k (Pg.columns t) ->
                 Pg.column_error k (get r (Pg.cname k)) = None)
      /\ Pg.unique_error t all = None
      /\ (forall r, In r written -> Pg.foreign_key_error d t r = None).
Proof.
  unfold Pg.constraint_error. rewrite first_error_None.
  split.
  - intros F. inversion F as [|? ? A F1]; subst.
    inversion F1 as [|? ? B F2]; subst. inversion F2 as [|? ? C _]; subst.
    repeat split; auto.
    + intros r Hr k Hk. rewrite first_error_None, Forall_forall in A.
      apply A. apply in_flat_map. exists r. split; [exact Hr|].
      apply in_map_iff. exists k. auto.
    + now apply first_error_map_None.
  - intros (A & B & C). repeat constructor; auto.
    + apply first_error_None, Forall_forall. intros x Hx.
      apply in_flat_map in Hx as (r & Hr & Hx).
      apply in_map_iff in Hx as (k & <- & Hk). now apply A.
    + now apply first_error_map_None.
Qed.

Lemma assign_get now r a c :
  get (Pg.assign now r a) c
  = if String.eqb (Pg.assigned_column a) c then assigned_value now a
    else get r c.
Proof.
  destruct a as [k v|k]; cbn [Pg.assign Pg.assigned_column assigned_value];
    destruct (String.eqb_spec k c) as [->|Hne];
    auto using get_set_same, get_set_other.
Qed.

Lemma update_row_fold now t set_ r :
  Pg.update_row now t set_ r
  = fold_left (Pg.assign now) (set_ ++ trigger_assignment t) r.
Proof.
  unfold Pg.update_row, Pg.fire_update_trigger, trigger_assignment.
  rewrite fold_left_app. now destruct (Pg.has_update_trigger t).
Qed.

(** Safe assignments keep a row within its column constraints and leave
    its key columns as they were. *)
Lemma safe_assignments_keep now t l :
  forallb (safe_assignment now t) l = true ->
  forall r,
    (forall k, In k (Pg.columns t) ->
               Pg.column_error k (get r (Pg.cname k)) = None) ->
    (forall k, In k (Pg.columns t) ->
               Pg.column_error k
                 (get (fold_left (Pg.assign now) l r) (Pg.cname k)) = None)
    /\ (forall k, In k (Pg.columns t) -> is_key k = true ->
                  get (fold_left (Pg.assign now) l r) (Pg.cname k)
                  = get r (Pg.cname k)).
Proof.
  induction l as [|a l IH]; intros S r Hr; [cbn; auto|].
  cbn [forallb] in S. apply andb_prop in S as [Sa Sl].
  unfold safe_assignment in Sa. rewrite forallb_forall in Sa.
  assert (Ha : forall k, In k (Pg.columns t) ->
               Pg.column_error k (get (Pg.assign now r a) (Pg.cname k))
               = None).
  { intros k Hk. rewrite assign_get. specialize (Sa k Hk).
    destruct (String.eqb_spec (Pg.assigned_column a) (Pg.cname k)) as [E|E].
    - rewrite <- E, String.eqb_refl in Sa. cbn in Sa.
      apply andb_prop in Sa as [_ Sa].
      now destruct (Pg.column_error k (assigned_value now a)).
    - now apply Hr. }
  destruct (IH Sl (Pg.assign now r a) Ha) as [I1 I2].
  cbn [fold_left]. split; [exact I1|].
  intros k Hk Key. rewrite (I2 k Hk Key), assign_get.
  specialize (Sa k Hk).
  destruct (String.eqb_spec (Pg.assigned_column a) (Pg.cname k)) as [E|E];
    [|reflexivity].
  rewrite <- E, String.eqb_refl, Key in Sa. discriminate.
Qed.

(** Safe assignments bind: none stores an integer its column cannot
    hold. *)
Lemma safe_assignments_bind now t l :
  forallb (safe_assignment now t) l = true ->
  Pg.bind_error t (Pg.set_params l) = None.
Proof.
  intros S. unfold Pg.bind_error. apply first_error_map_None.
  intros [c v] Hin. cbn [fst snd]. unfold Pg.param_error.
  apply in_flat_map in Hin as (a & Ha & Hin).
  destruct a as [c0 v0|c0]; [|destruct Hin].
  destruct Hin as [[= -> ->]|[]].
  rewrite forallb_forall in S. specialize (S _ Ha).
  unfold safe_assignment in S. rewrite forallb_forall in S.
  destruct (Pg.find_column t c) as [k|] eqn:F; [|reflexivity].
  destruct v; try reflexivity.
  apply find_some in F as [Hk E]. specialize (S k Hk).
  cbn [Pg.assigned_column assigned_value] in S. rewrite E in S.
  cbn [negb orb] in S. apply andb_prop in S as [_ S].
  rewrite bind_to_num in S. unfold Pg.column_error in S.
  destruct (Pg.type k); try reflexivity; cbn [Pg.type_ok] in S;
    destruct (Pg.int4 z); try reflexivity; discriminate S.
Qed.

Lemma foreign_key_error_ext d t r r' :
  (forall k, In k (Pg.columns t) -> is_key k = true ->
             get r' (Pg.cname k) = get r (Pg.cname k)) ->
  Pg.foreign_key_error d t r' = Pg.foreign_key_error d t r.
Proof.
  intros E. unfold Pg.foreign_key_error. f_equal.
  apply map_ext_in. intros k Hk.
  destruct (Pg.references k) as [[t' a]|] eqn:R; [|reflexivity].
  rewrite (E k Hk); [reflexivity|].
  unfold is_key. rewrite R. cbn. apply orb_true_r.
Qed.

Lemma unique_error_ext t (f : object -> object) rs :
  (forall r, In r rs ->
   forall k, In k (Pg.columns t) -> is_key k = true ->
             get (f r) (Pg.cname k) = get r (Pg.cname k)) ->
  Pg.unique_error t (map f rs) = Pg.unique_error t rs.
Proof.
  intros E. unfold Pg.unique_error. f_equal.
  apply map_ext_in. intros k Hk.
  destruct (Pg.unique k) eqn:U; [|reflexivity].
  rewrite map_map.
  replace (map (fun r => get (f r) (Pg.cname k)) rs)
    with (map (fun r => get r (Pg.cname k)) rs); [reflexivity|].
  apply map_ext_in. intros r Hr. symmetry. apply E; auto.
  unfold is_key. now rewrite U.
Qed.

Lemma tasks_consistent_spec d :
  tasks_consistent d = true
  <-> Pg.constraint_error d Pg.Tasks (Pg.tasks d) (Pg.tasks d) = None
      /\ forall r, In r (Pg.tasks d) ->
                   exists z, get r "id" = VNum z /\ z < Pg.tasks_id_seq d.
Proof.
  unfold tasks_consistent. rewrite andb_true_iff, forallb_forall.
  split; intros [A B]; split.
  - now destruct (Pg.constraint_error _ _ _ _).
  - intros r Hr. specialize (B r Hr).
    destruct (get r "id"); try discriminate.
    exists z. split; [reflexivity|]. now apply Z.ltb_lt.
  - now rewrite A.
  - intros r Hr. destruct (B r Hr) as (z & -> & Hz). now apply Z.ltb_lt.
Qed.

(** An UPDATE of tasks by safe assignments succeeds on a consistent
    table, rewrites exactly the rows the WHERE clause selects, and leaves
    the table consistent. *)
Lemma exec_update_tasks now set_ wh ret d :
  tasks_consistent d = true ->
  Pg.unknown_columns Pg.Tasks (map Pg.assigned_column set_) = false ->
  forallb (safe_assignment now Pg.Tasks)
    (set_ ++ trigger_assignment Pg.Tasks) = true ->
  let f := fun r => if Pg.matches wh r
                    then Pg.update_row now Pg.Tasks set_ r else r in
  Pg.exec now (Pg.UPDATE Pg.Tasks set_ wh ret) d
  = (Pg.Rows (map (Pg.project ret)
                (map (Pg.update_row now Pg.Tasks set_)
                   (filter (Pg.matches wh) (Pg.tasks d)))),
     Pg.with_rows d Pg.Tasks (map f (Pg.tasks d)))
  /\ tasks_consistent (Pg.with_rows d Pg.Tasks (map f (Pg.tasks d))) = true.
Proof.
  intros C U S f.
  apply tasks_consistent_spec in C as [C Ids].
  apply constraint_error_None in C as (Cc & Cu & Cf).
  assert (K : forall r, In r (Pg.tasks d) ->
              (forall k, In k (Pg.columns Pg.Tasks) ->
                 Pg.column_error k
                   (get (Pg.update_row now Pg.Tasks set_ r) (Pg.cname k))
                 = None)
              /\ (forall k, In k (Pg.columns Pg.Tasks) -> is_key k = true ->
                    get (Pg.update_row now Pg.Tasks set_ r) (Pg.cname k)
                    = get r (Pg.cname k))).
  { intros r Hr. rewrite update_row_fold.
    apply (safe_assignments_keep now Pg.Tasks _ S r (Cc r Hr)). }
  assert (Kf : forall r, In r (Pg.tasks d) ->
               (forall k, In k (Pg.columns Pg.Tasks) ->
                  Pg.column_error k (get (f r) (Pg.cname k)) = None)
               /\ (forall k, In k (Pg.columns Pg.Tasks) ->
                     is_key k = true ->
                     get (f r) (Pg.cname k) = get r (Pg.cname k))).
  { intros r Hr. unfold f. destruct (Pg.matches wh r); auto. }
  assert (Uq : Pg.unique_error Pg.Tasks (map f (Pg.tasks d)) = None).
  { rewrite unique_error_ext; [exact Cu|].
    intros r Hr k Hk Key. now apply Kf. }
  assert (B : Pg.bind_error Pg.Tasks (Pg.set_params set_) = None).
  { apply (safe_assignments_bind now). rewrite forallb_app in S.
    now apply andb_prop in S as [S _]. }
  split.
  - unfold Pg.exec. rewrite U, B. cbn [Pg.rows_of]. fold f.
    replace (Pg.constraint_error d Pg.Tasks _ _) with (@None string);
      [reflexivity|].
    symmetry. apply constraint_error_None. repeat split; auto.
    + intros r' Hr' k Hk. apply in_map_iff in Hr' as (r & <- & Hr).
      apply filter_In in Hr as [Hr _]. now apply K.
    + intros r' Hr'. apply in_map_iff in Hr' as (r & <- & Hr).
      apply filter_In in Hr as [Hr _].
      rewrite (foreign_key_error_ext d Pg.Tasks r); [now apply Cf|].
      now apply K.
  - apply tasks_consistent_spec. split.
    + apply constraint_error_None. cbn [Pg.with_rows Pg.tasks].
      repeat split; auto.
      * intros r' Hr' k Hk. apply in_map_iff in Hr' as (r & <- & Hr).
        now apply Kf.
      * intros r' Hr'. apply in_map_iff in Hr' as (r & <- & Hr).
        change (Pg.foreign_key_error d Pg.Tasks (f r) = None).
        rewrite (foreign_key_error_ext d Pg.Tasks r); [now apply Cf|].
        now apply Kf.
    + cbn [Pg.with_rows Pg.tasks Pg.tasks_id_seq].
      intros r' Hr'. apply in_map_iff in Hr' as (r & <- & Hr).
      destruct (Kf r Hr) as [_ Kk].
      pose proof (Kk (Pg.PRIMARY_KEY (Pg.col "id" Pg.SERIAL))
                    ltac:(left; reflexivity) eq_refl) as Kid.
      cbn [Pg.cname Pg.PRIMARY_KEY Pg.col] in Kid. rewrite Kid.
      now apply Ids.
Qed.

(* --------------------------------------------------------------------- *)
(** ** PUT /tasks/:id with a new status *)

Lemma find_map_same {A} (p : A -> bool) (f : A -> A) l :
  (forall x, In x l -> p (f x) = p x) ->
  find p (map f l) = option_map f (find p l).
Proof.
  induction l as [|x l IH]; intros E; [reflexivity|]. cbn.
  rewrite (E x) by now left. destruct (p x); [reflexivity|].
  apply IH. intros y Hy. apply E. now right.
Qed.

Lemma status_body_is_valid s :
  In s ["pending"; "in_progress"; "completed"] ->
  Joi.validate_keys taskSchemas_update [("status", VStr s)]
  = ([], [("status", VStr s)]).
Proof. intros [<-|[<-|[<-|[]]]]; reflexivity. Qed.

(** The SET list the handler builds for a body that holds a status only. *)
Lemma status_update_fields e s stored :
  In s ["pending"; "in_progress"; "completed"] ->
  (updateFields_of [("status", VStr s)]
   ++ completed_at_field e [("status", VStr s)] stored)%list
  = (Pg.SetParam "status" (VStr s)
     :: if String.eqb s "completed"
        then if strict_eq stored (VStr "completed") then []
             else [Pg.SetParam "completed_at" (VDate (clock e))]
        else [Pg.SetParam "completed_at" VNull]).
Proof.
  intros [<-|[<-|[<-|[]]]]; cbn; try reflexivity.
  unfold completed_at_field. cbn.
  now destruct (strict_eq stored (VStr "completed")).
Qed.

(** Column by column, the row the UPDATE of such a request writes. *)
Lemma status_update_row e s stored r k :
  In s ["pending"; "in_progress"; "completed"] ->
  get (Pg.update_row (db_clock e) Pg.Tasks
         ((updateFields_of [("status", VStr s)]
           ++ completed_at_field e [("status", VStr s)] stored)
          ++ [Pg.SetCurrentTimestamp "updated_at"]) r) k
  = if String.eqb "updated_at" k then VDate (db_clock e)
    else if String.eqb "completed_at" k
    then if String.eqb s "completed"
         then if strict_eq stored (VStr "completed")
              then get r k else VDate (clock e)
         else VNull
    else if String.eqb "status" k then VStr s
    else get r k.
Proof.
  intros Hs. rewrite update_row_fold, (status_update_fields e s _ Hs).
  destruct Hs as [<-|[<-|[<-|[]]]].
  - change (String.eqb "pending" "completed") with false.
    cbn [app trigger_assignment Pg.has_update_trigger fold_left].
    rewrite !assign_get.
    cbn [Pg.assigned_column assigned_value Pg.to_param].
    destruct (String.eqb "updated_at" k), (String.eqb "completed_at" k);
      reflexivity.
  - change (String.eqb "in_progress" "completed") with false.
    cbn [app trigger_assignment Pg.has_update_trigger fold_left].
    rewrite !assign_get.
    cbn [Pg.assigned_column assigned_value Pg.to_param].
    destruct (String.eqb "updated_at" k), (String.eqb "completed_at" k);
      reflexivity.
  - change (String.eqb "completed" "completed") with true. cbv iota.
    destruct (strict_eq stored (VStr "completed"));
      cbn [app trigger_assignment Pg.has_update_trigger fold_left];
      rewrite !assign_get;
      cbn [Pg.assigned_column assigned_value Pg.to_param];
      destruct (String.eqb "updated_at" k); try reflexivity;
      destruct (String.eqb_spec "completed_at" k) as [<-|]; reflexivity.
Qed.

Lemma tasks_update_status e req w u uid s r0 :
  user req = Some u -> get u "id" = VNum uid ->
  body req = [("status", VStr s)] ->
  In s ["pending"; "in_progress"; "completed"] ->
  tasks_consistent (database w) = true ->
  callers_task (database w) (params_id req) uid = Some r0 ->
  exists r1 w',
    tasks_update e req w
    = (inl (json 200 true (Some "Task updated successfully")
              (Some (Row (Some
                            (Pg.project
                               ["id"; "title"; "description"; "status";
                                "priority"; "due_date"; "created_at";
                                "updated_at"; "completed_at"] r1))))), w')
    /\ tasks_consistent (database w') = true
    /\ Pg.users (database w') = Pg.users (database w)
    /\ callers_task (database w') (params_id req) uid = Some r1
    /\ get r1 "status" = VStr s
    /\ get r1 "completed_at" = completed_at_after e s r0
    /\ get r1 "updated_at" = VDate (db_clock e)
    /\ (forall k, k <> "status" -> k <> "completed_at" ->
                  k <> "updated_at" -> get r1 k = get r0 k).
Proof.
  intros Hu Hid Hb Hs C Hf.
  set (scope := id_and_owner (params_id req) uid) in *.
  set (set_ := (updateFields_of [("status", VStr s)]
                ++ completed_at_field e [("status", VStr s)]
                     (get r0 "status"))%list).
  set (sets := (set_ ++ [Pg.SetCurrentTimestamp "updated_at"])%list).
  set (ret_ := ["id"; "title"; "description"; "status"; "priority";
                "due_date"; "created_at"; "updated_at"; "completed_at"]).
  assert (Hset : exists a l, set_ = a :: l).
  { unfold set_. rewrite (status_update_fields e s _ Hs). eauto. }
  assert (Hsafe : Pg.unknown_columns Pg.Tasks (map Pg.assigned_column sets)
                  = false
                  /\ forallb (safe_assignment (db_clock e) Pg.Tasks)
                       (sets ++ trigger_assignment Pg.Tasks) = true).
  { unfold sets, set_. rewrite (status_update_fields e s _ Hs).
    destruct Hs as [<-|[<-|[<-|[]]]]; try (split; reflexivity).
    change (String.eqb "completed" "completed") with true. cbv iota.
    destruct (strict_eq (get r0 "status") (VStr "completed"));
      split; reflexivity. }
  destruct Hsafe as [Hunk Hsafe].
  destruct (exec_update_tasks (db_clock e) sets scope ret_
              (database w) C Hunk Hsafe) as [X C'].
  set (f := fun r => if Pg.matches scope r
                     then Pg.update_row (db_clock e) Pg.Tasks sets r
                     else r) in *.
  unfold callers_task in Hf. fold scope in Hf.
  destruct (find_filter _ _ _ Hf) as (rest & F).
  assert (M0 : Pg.matches scope r0 = true)
    by (apply find_some in Hf; tauto).
  assert (Mf : forall r, Pg.matches scope (f r) = Pg.matches scope r).
  { intros r. unfold f. destruct (Pg.matches scope r) eqn:M; [|exact M].
    apply matches_id_user in M as [M1 M2]. apply matches_id_user.
    unfold sets, set_. rewrite !(status_update_row e s _ r _ Hs).
    cbn. auto. }
  exists (Pg.update_row (db_clock e) Pg.Tasks sets r0).
  exists {| database := Pg.with_rows (database w) Pg.Tasks
                          (map f (Pg.tasks (database w)));
            issued := ((issued w
                        ++ [Pg.SELECT ["id"; "status"] Pg.Tasks scope])
                       ++ [Pg.UPDATE Pg.Tasks sets scope ret_])%list |}.
  split; [|split; [exact C'|split; [reflexivity|split]]].
  - unfold tasks_update, req_user_id, bind. rewrite Hu, Hid, Hb.
    cbn [ret]. rewrite query_select.
    change [Pg.Eq "id" (VNum (params_id req)); Pg.Eq "user_id" (VNum uid)]
      with scope.
    cbn [Pg.rows_of database]. rewrite F. cbn [map].
    replace (get (Pg.project ["id"; "status"] r0) "status")
      with (get r0 "status") by reflexivity.
    fold set_. destruct Hset as (a & l & Hset). rewrite Hset.
    rewrite <- Hset. fold sets. fold ret_.
    unfold query. cbn [database sent issued]. rewrite X.
    unfold f. rewrite F. cbn [map hd_error]. reflexivity.
  - unfold callers_task. fold scope. cbn [database Pg.with_rows Pg.tasks].
    rewrite find_map_same by (intros; apply Mf).
    rewrite Hf. cbn [option_map]. unfold f. now rewrite M0.
  - unfold sets, set_. repeat split.
    + rewrite (status_update_row e s _ r0 _ Hs). reflexivity.
    + rewrite (status_update_row e s _ r0 _ Hs). reflexivity.
    + rewrite (status_update_row e s _ r0 _ Hs). reflexivity.
    + intros k K1 K2 K3.
    rewrite (status_update_row e s _ r0 _ Hs).
    destruct (String.eqb_spec "updated_at" k); [congruence|].
    destruct (String.eqb_spec "completed_at" k); [congruence|].
    destruct (String.eqb_spec "status" k); [congruence|]. reflexivity.
Qed.

(** Who the caller is depends on the token and on the users table only. *)
Lemma caller_depends_on_users e e' req req' w w' :
  authorization req' = authorization req ->
  Pg.users (database w') = Pg.users (database w) ->
  caller e' req' w' = caller e req w.
Proof.
  intros Ha Hu. unfold caller, authenticateToken. rewrite Ha.
  destruct (bearer_token (authorization req)) as [token|]; [|reflexivity].
  destruct (String.eqb token ""); [reflexivity|].
  destruct (verifyToken token) as [[uid]|]; [|reflexivity].
  rewrite !query_select. cbn [Pg.rows_of]. rewrite Hu.
  destruct (map _ (filter _ _)); reflexivity.
Qed.

Lemma PUT_status_step e req w uid s r0 :
  caller e req w = Some uid ->
  In s ["pending"; "in_progress"; "completed"] ->
  tasks_consistent (database w) = true ->
  callers_task (database w) (params_id req) uid = Some r0 ->
  exists r1 resp w',
    PUT_tasks_id e (set_status req s) w = (resp, w')
    /\ status resp = 200
    /\ data resp
       = Some (Row (Some
                      (Pg.project
                         ["id"; "title"; "description"; "status";
                          "priority"; "due_date"; "created_at";
                          "updated_at"; "completed_at"] r1)))
    /\ tasks_consistent (database w') = true
    /\ (forall e', caller e' req w' = Some uid)
    /\ callers_task (database w') (params_id req) uid = Some r1
    /\ get r1 "status" = VStr s
    /\ get r1 "completed_at" = completed_at_after e s r0
    /\ get r1 "updated_at" = VDate (db_clock e)
    /\ (forall k, k <> "status" -> k <> "completed_at" ->
                  k <> "updated_at" -> get r1 k = get r0 k).
Proof.
  intros Hc Hs C Hf.
  assert (Hc' : caller e (set_status req s) w = Some uid).
  { rewrite <- Hc. now apply caller_depends_on_users. }
  destruct (caller_spec e (set_status req s) w uid Hc')
    as (u & A & Hid & _).
  destruct (tasks_update_status e
              (with_body (with_user (set_status req s) u)
                 [("status", VStr s)])
              (sent w [user_lookup uid]) u uid s r0
              eq_refl Hid eq_refl Hs C Hf)
    as (r1 & w' & R & C' & Us & Hf' & G1 & G2 & G3 & G4).
  exists r1. eexists. exists w'. split.
  - unfold PUT_tasks_id.
    rewrite (route_behind_guard _ _ e _ w uid u A).
    rewrite (route_validated taskSchemas_update _ e
               (with_user (set_status req s) u) _ [("status", VStr s)]
               (status_body_is_valid s Hs)).
    cbn [route]. rewrite R. reflexivity.
  - repeat split; auto.
    intros e'. rewrite <- Hc. now apply caller_depends_on_users.
Qed.


(* --------------------------------------------------------------------- *)
(** ** Successful updates and [updated_at] *)

Lemma errorHandler_database_error e c :
  status (errorHandler e (DatabaseError c)) <> 200
  /\ status (errorHandler e (DatabaseError c)) <> 201.
Proof.
  unfold errorHandler, DatabaseError.
  cbn [err_message err_status err_isJoi err_code err_name err_stack].
  change (String.eqb "statement failed" "") with false.
  change (String.eqb "error" "JsonWebTokenError") with false.
  change (String.eqb "error" "TokenExpiredError") with false.
  cbv iota.
  destruct (String.eqb c ""), (String.eqb c "23505"),
    (String.eqb c "23503"), (String.eqb c "23502"), (String.eqb c "42P01");
    cbn [status]; split; discriminate.
Qed.

Lemma authenticateToken_cases e req w :
  (exists r w1, authenticateToken e req w = (Send r, w1)
                /\ (status r = 401 \/ status r = 403))
  \/ (exists uid, caller e req w = Some uid).
Proof.
  destruct (authenticateToken e req w) as [[r|req'|err] w1] eqn:A.
  - left. exists r, w1. split; [reflexivity|].
    revert A. unfold authenticateToken.
    destruct (bearer_token (authorization req)) as [token|];
      [|intros [= <- _]; auto].
    destruct (String.eqb token ""); [intros [= <- _]; auto|].
    destruct (verifyToken token) as [[uid]|]; [|intros [= <- _]; auto].
    rewrite query_select.
    destruct (map _ (filter _ _)); [intros [= <- _]; auto|discriminate].
  - right. unfold caller. rewrite A.
    apply authenticateToken_Next in A
      as (token & uid & r & _ & _ & _ & Hid & -> & _).
    exists uid. cbn [user with_user].
    replace (get (Pg.project _ r) "id") with (get r "id") by reflexivity.
    now rewrite Hid.
  - exfalso. revert A. unfold authenticateToken.
    destruct (bearer_token (authorization req)) as [token|];
      [|discriminate].
    destruct (String.eqb token ""); [discriminate|].
    destruct (verifyToken token) as [[uid]|]; [|discriminate].
    rewrite query_select. destruct (map _ (filter _ _)); discriminate.
Qed.

Lemma query_update_cases e t set_ wh ret w :
  (exists c w1,
      query e (Pg.UPDATE t set_ wh ret) w = (inr (DatabaseError c), w1))
  \/ query e (Pg.UPDATE t set_ wh ret) w
     = (inl (map (Pg.project ret)
               (map (Pg.update_row (db_clock e) t set_)
                  (filter (Pg.matches wh) (Pg.rows_of (database w) t)))),
        {| database :=
             Pg.with_rows (database w) t
               (map (fun r => if Pg.matches wh r
                              then Pg.update_row (db_clock e) t set_ r
                              else r)
                  (Pg.rows_of (database w) t));
           issued := (issued w ++ [Pg.UPDATE t set_ wh ret])%list |}).
Proof.
  unfold query, Pg.exec.
  destruct (Pg.unknown_columns t (map Pg.assigned_column set_)).
  - left. eauto.
  - destruct (Pg.bind_error t (Pg.set_params set_)); [left; eauto|].
    destruct (Pg.constraint_error _ _ _ _).
    + left. eauto.
    + right. reflexivity.
Qed.

Lemma updated_row_is_touched now t set_ r :
  Pg.has_update_trigger t = true ->
  get (Pg.update_row now t set_ r) "updated_at" = VDate now.
Proof.
  intros T. unfold Pg.update_row, Pg.fire_update_trigger. rewrite T.
  apply get_set_same.
Qed.

Lemma entry_key k v k1 v1 : In (k1, v1) (Joi.entry k v) -> k1 = k.
Proof.
  unfold Joi.entry. destruct v; cbn [In]; try tauto;
    intros [[= <- _]|[]]; reflexivity.
Qed.

Lemma validated_keys sch raw k :
  In k (keys (snd (Joi.validate_keys sch raw))) -> In k (map fst sch).
Proof.
  unfold Joi.validate_keys, keys. cbn [snd]. rewrite map_app, in_app_iff.
  intros [Hin|Hin]; apply in_map_iff in Hin as ([k1 v1] & <- & Hin);
    apply in_flat_map in Hin as (x & Hx & Hin); cbn [fst].
  - unfold Joi.schema_of in Hin.
    destruct (find _ sch) as [[k2 sc]|] eqn:F; [|destruct Hin].
    apply find_some in F as [F E]. cbn [fst] in E.
    apply String.eqb_eq in E. subst k2. cbn [option_map snd] in Hin.
    apply entry_key in Hin. subst k1. apply (in_map fst) in F. exact F.
  - destruct (has_key raw (fst x)); [destruct Hin|].
    apply entry_key in Hin. subst k1. now apply in_map.
Qed.

Lemma updateFields_columns updates a :
  In a (updateFields_of updates) -> In (Pg.assigned_column a) (keys updates).
Proof.
  unfold updateFields_of. intros Hin.
  apply in_flat_map in Hin as (k & Hk & Hin).
  destruct (strict_eq (get updates k) VUndefined); [destruct Hin|].
  destruct Hin as [<-|[]]. exact Hk.
Qed.

Lemma filter_inhabited {A} (p : A -> bool) l x :
  In x l -> p x = true -> exists y ys, filter p l = y :: ys.
Proof.
  intros Hin Hp. destruct (filter p l) as [|y ys] eqn:F; [|eauto].
  assert (In x (filter p l)) by (apply filter_In; auto).
  rewrite F in *. contradiction.
Qed.

(** C6 (as the code has it).  A task update and a profile update that
    succeed end with one UPDATE statement whose SET list is the supplied
    fields followed by [updated_at = CURRENT_TIMESTAMP], and the row they
    return carries the engine's current time in [updated_at].  A category
    update that succeeds ends with an UPDATE whose SET list is the
    supplied fields alone: none of them is [updated_at], a column the
    categories table does not have. *)
Theorem successful_update_and_updated_at e req w resp w' :
  status resp = 200 ->
  (PUT_tasks_id e req w = (resp, w') ->
   exists fields wh ret before row,
     issued w'
     = (before
        ++ [Pg.UPDATE Pg.Tasks
              (fields ++ [Pg.SetCurrentTimestamp "updated_at"]) wh ret])%list
     /\ data resp = Some (Row (Some row))
     /\ get row "updated_at" = VDate (db_clock e))
  /\ (PUT_users_profile e req w = (resp, w') ->
      exists fields wh ret before row,
        issued w'
        = (before
           ++ [Pg.UPDATE Pg.Users
                 (fields ++ [Pg.SetCurrentTimestamp "updated_at"]) wh
                 ret])%list
        /\ data resp = Some (Row (Some row))
        /\ get row "updated_at" = VDate (db_clock e))
  /\ (PUT_categories_id e req w = (resp, w') ->
      exists fields wh ret before,
        issued w'
        = (before ++ [Pg.UPDATE Pg.Categories fields wh ret])%list
        /\ Forall (fun a => Pg.assigned_column a <> "updated_at") fields
        /\ Pg.find_column Pg.Categories "updated_at" = None).
Proof.
  intros Ok. split; [|split].
  - unfold PUT_tasks_id.
    destruct (authenticateToken_cases e req w)
      as [(r & w1 & A & St)|(uid & Hc)].
    { cbn [route]. rewrite A. intros [= <- <-]. lia. }
    destruct (caller_spec e req w uid Hc) as (u & A & Hid & _).
    rewrite (route_behind_guard _ _ e req w uid u A).
    destruct (validate_cases taskSchemas_update (with_user req u))
      as [(errs & _ & _ & V)|(b & _ & V)]; cbn [route pure]; rewrite V.
    { intros [= <- <-]. discriminate. }
    cbn [route]. unfold tasks_update, req_user_id, bind.
    cbn [user with_body with_user body params_id]. rewrite Hid.
    cbn [ret]. rewrite query_select, sent_sent.
    cbn [Pg.rows_of database sent].
    destruct (filter _ _) as [|r0 rest] eqn:F; cbn [map].
    { intros [= <- <-]. discriminate. }
    destruct (_ ++ _)%list as [|a fields] eqn:UF.
    { intros [= <- <-]. discriminate. }
    match goal with
    | |- context [query e ?s ?w0] =>
        destruct (query_update_cases e Pg.Tasks
                    ((a :: fields) ++ [Pg.SetCurrentTimestamp "updated_at"])
                    (id_and_owner (params_id req) uid)
                    ["id"; "title"; "description"; "status"; "priority";
                     "due_date"; "created_at"; "updated_at"; "completed_at"]
                    w0) as [(c & w1 & Q)|Q]
    end; unfold id_and_owner in Q; rewrite Q.
    { intros [= <- <-].
      now destruct (errorHandler_database_error e c). }
    cbn [Pg.rows_of database sent]. rewrite F. cbn [map hd_error ret].
    intros [= <- <-]. cbn [issued data json].
    exists (a :: fields). do 4 eexists.
    split; [reflexivity|]. split; [reflexivity|].
    apply (updated_row_is_touched (db_clock e) Pg.Tasks). reflexivity.
  - unfold PUT_users_profile.
    destruct (authenticateToken_cases e req w)
      as [(r & w1 & A & St)|(uid & Hc)].
    { cbn [route]. rewrite A. intros [= <- <-]. lia. }
    destruct (caller_spec e req w uid Hc) as (u & A & Hid & r0 & Hr0 & Hr0id).
    rewrite (route_behind_guard _ _ e req w uid u A).
    destruct (validate_cases userSchemas_updateProfile (with_user req u))
      as [(errs & _ & _ & V)|(b & _ & V)]; cbn [route pure]; rewrite V.
    { intros [= <- <-]. discriminate. }
    cbn [route]. unfold users_update_profile, req_user_id, bind.
    cbn [user with_body with_user body]. rewrite Hid. cbn [ret].
    destruct (truthy (get b "email")).
    + rewrite query_select.
      destruct (map _ (filter _ _)).
      2:{ intros [= <- <-]. discriminate. }
      destruct (updateFields_of b) as [|a fields] eqn:UF.
      { intros [= <- <-]. discriminate. }
      match goal with
      | |- context [query e ?s ?w0] =>
          destruct (query_update_cases e Pg.Users
                      ((a :: fields)
                       ++ [Pg.SetCurrentTimestamp "updated_at"])
                      [Pg.Eq "id" (VNum uid)]
                      ["id"; "name"; "email"; "avatar_url"; "created_at";
                       "updated_at"] w0) as [(c & w1 & Q)|Q]
      end; rewrite Q.
      { intros [= <- <-].
        now destruct (errorHandler_database_error e c). }
      cbn [Pg.rows_of database sent].
      destruct (filter_inhabited
                  (Pg.matches [Pg.Eq "id" (VNum uid)])
                  (Pg.users (database w)) r0 Hr0) as (y & ys & F).
      { unfold Pg.matches. cbn [forallb]. rewrite andb_true_r.
        now apply eval_Eq_num. }
      rewrite F. cbn [map hd_error ret].
      intros [= <- <-]. cbn [issued data json].
      exists (a :: fields). do 4 eexists.
    split; [reflexivity|]. split; [reflexivity|].
      apply (updated_row_is_touched (db_clock e) Pg.Users). reflexivity.
    + cbn [ret].
      destruct (updateFields_of b) as [|a fields] eqn:UF.
      { intros [= <- <-]. discriminate. }
      match goal with
      | |- context [query e ?s ?w0] =>
          destruct (query_update_cases e Pg.Users
                      ((a :: fields)
                       ++ [Pg.SetCurrentTimestamp "updated_at"])
                      [Pg.Eq "id" (VNum uid)]
                      ["id"; "name"; "email"; "avatar_url"; "created_at";
                       "updated_at"] w0) as [(c & w1 & Q)|Q]
      end; rewrite Q.
      { intros [= <- <-].
        now destruct (errorHandler_database_error e c). }
      cbn [Pg.rows_of database sent].
      destruct (filter_inhabited
                  (Pg.matches [Pg.Eq "id" (VNum uid)])
                  (Pg.users (database w)) r0 Hr0) as (y & ys & F).
      { unfold Pg.matches. cbn [forallb]. rewrite andb_true_r.
        now apply eval_Eq_num. }
      rewrite F. cbn [map hd_error ret].
      intros [= <- <-]. cbn [issued data json].
      exists (a :: fields). do 4 eexists.
    split; [reflexivity|]. split; [reflexivity|].
      apply (updated_row_is_touched (db_clock e) Pg.Users). reflexivity.
  - unfold PUT_categories_id.
    destruct (authenticateToken_cases e req w)
      as [(r & w1 & A & St)|(uid & Hc)].
    { cbn [route]. rewrite A. intros [= <- <-]. lia. }
    destruct (caller_spec e req w uid Hc) as (u & A & Hid & _).
    rewrite (route_behind_guard _ _ e req w uid u A).
    destruct (validate_cases categorySchemas_update (with_user req u))
      as [(errs & _ & _ & V)|(b & Vb & V)]; cbn [route pure]; rewrite V.
    { intros [= <- <-]. discriminate. }
    assert (Hb : forall a, In a (updateFields_of b) ->
                           Pg.assigned_column a <> "updated_at").
    { intros a Ha. apply updateFields_columns in Ha.
      replace b
        with (snd (Joi.validate_keys categorySchemas_update
                     (body (with_user req u)))) in Ha by now rewrite Vb.
      apply validated_keys in Ha. cbn in Ha.
      destruct Ha as [<-|[<-|[]]]; discriminate. }
    cbn [route]. unfold categories_update, req_user_id, bind.
    cbn [user with_body with_user body params_id]. rewrite Hid.
    cbn [ret]. rewrite query_select.
    destruct (map _ (filter _ _)) as [|existing rest].
    { intros [= <- <-]. discriminate. }
    destruct (negb (strict_eq (get existing "user_id") (VNum uid))).
    { intros [= <- <-]. discriminate. }
    destruct (truthy (get b "name")).
    + rewrite query_select.
      destruct (map _ (filter _ _)).
      2:{ intros [= <- <-]. discriminate. }
      destruct (updateFields_of b) as [|a fields] eqn:UF.
      { intros [= <- <-]. discriminate. }
      match goal with
      | |- context [query e ?s ?w0] =>
          pose proof (query_issued e s w0) as QI;
          destruct (query e s w0) as [[rows|err] w1] eqn:Q
      end.
      * cbn [ret snd] in *. intros [= <- <-].
        do 4 eexists. split; [exact QI|].
        split; [|reflexivity]. apply Forall_forall. exact Hb.
      * intros [= <- <-]. exfalso.
        unfold query in Q.
        destruct (Pg.exec _ _ _) as [[rs|c] d]; [discriminate|].
        injection Q as <- <-.
        now destruct (errorHandler_database_error e c).
    + cbn [ret].
      destruct (updateFields_of b) as [|a fields] eqn:UF.
      { intros [= <- <-]. discriminate. }
      match goal with
      | |- context [query e ?s ?w0] =>
          pose proof (query_issued e s w0) as QI;
          destruct (query e s w0) as [[rows|err] w1] eqn:Q
      end.
      * cbn [ret snd] in *. intros [= <- <-].
        do 4 eexists. split; [exact QI|].
        split; [|reflexivity]. apply Forall_forall. exact Hb.
      * intros [= <- <-]. exfalso.
        unfold query in Q.
        destruct (Pg.exec _ _ _) as [[rs|c] d]; [discriminate|].
        injection Q as <- <-.
        now destruct (errorHandler_database_error e c).
Qed.

(* --------------------------------------------------------------------- *)
(** ** POST /tasks and the category it names *)

Lemma validated_key sch raw b k sc :
  NoDup (map fst sch) ->
  Joi.validate_keys sch raw = ([], b) -> In (k, sc) sch ->
  Joi.check_key sc (get raw k) = ([], get b k).
Proof.
  intros Hnd V Hin.
  assert (Hb : b = snd (Joi.validate_keys sch raw)) by now rewrite V.
  assert (He : fst (Joi.validate_keys sch raw) = []) by now rewrite V.
  rewrite Hb, (validate_keys_get sch raw k sc Hnd Hin).
  pose proof (validate_keys_errs sch raw k sc He Hin) as E.
  destruct (Joi.check_key sc (get raw k)) as [errs v']. cbn in *.
  now subst.
Qed.

Lemma existsb_value_eqb v l :
  existsb (value_eqb v) l = true -> In v l.
Proof.
  intros E. apply existsb_exists in E as (x & Hx & E).
  apply value_eqb_eq in E. now subst.
Qed.

(** What the body of a task creation holds once it passed validation. *)
Lemma validated_create_body raw b :
  Joi.validate_keys taskSchemas_create raw = ([], b) ->
  (exists s, get b "title" = VStr s /\ (Pg.char_length s <= 200)%nat)
  /\ (get b "description" = VUndefined
      \/ exists s, get b "description" = VStr s)
  /\ In (get b "status")
       [VStr "pending"; VStr "in_progress"; VStr "completed"]
  /\ In (get b "priority") [VStr "low"; VStr "medium"; VStr "high"]
  /\ (get b "due_date" = VUndefined \/ get b "due_date" = VNull
      \/ exists t, get b "due_date" = VDate t)
  /\ (get b "category_id" = VUndefined \/ get b "category_id" = VNull
      \/ exists c, get b "category_id" = VNum c
                   /\ 0 < c <= MAX_SAFE_INTEGER).
Proof.
  intros V.
  pose proof (validated_key _ raw b "title" _ create_task_keys V
                ltac:(left; reflexivity)) as K1.
  pose proof (validated_key _ raw b "description" _ create_task_keys V
                ltac:(do 1 right; left; reflexivity)) as K2.
  pose proof (validated_key _ raw b "status" _ create_task_keys V
                ltac:(do 2 right; left; reflexivity)) as K3.
  pose proof (validated_key _ raw b "priority" _ create_task_keys V
                ltac:(do 3 right; left; reflexivity)) as K4.
  pose proof (validated_key _ raw b "due_date" _ create_task_keys V
                ltac:(do 4 right; left; reflexivity)) as K5.
  pose proof (validated_key _ raw b "category_id" _ create_task_keys V
                ltac:(do 5 right; left; reflexivity)) as K6.
  apply check_key_ok in K1, K2, K3, K4, K5, K6.
  cbn [Joi.required Joi.max Joi.min Joi.string_ Joi.with_rule Joi.allow
       Joi.default Joi.valid Joi.iso Joi.date Joi.positive Joi.integer
       Joi.number Joi.base Joi.rules Joi.only Joi.allowed Joi.is_required
       Joi.default_value app map] in K1, K2, K3, K4, K5, K6.
  repeat split.
  - destruct K1 as [(_ & F & _)|[(_ & _ & F)|(_ & _ & s & E & -> & _ & R)]];
      try discriminate.
    exists s. split; [exact E|].
    cbn [flat_map Joi.check_string_rule app] in R.
    destruct (Joi.str_len s <? 1); [discriminate|].
    cbn [app] in R. unfold Joi.str_len in R.
    pose proof (char_length_utf16 s).
    destruct (Z.ltb_spec 200 (Z.of_nat (utf16_length s)));
      [discriminate|lia].
  - destruct K2 as [(_ & _ & ->)|[(_ & _ & F)|(_ & _ & s & E & -> & _)]].
    + now left.
    + apply existsb_value_eqb in F. destruct F as [<-|[]]. right. eauto.
    + right. exists s. exact E.
  - destruct K3 as [(_ & _ & ->)|[(_ & _ & F)|(_ & F & _)]].
    + cbn. auto.
    + now apply existsb_value_eqb in F.
    + discriminate.
  - destruct K4 as [(_ & _ & ->)|[(_ & _ & F)|(_ & F & _)]].
    + cbn. auto.
    + now apply existsb_value_eqb in F.
    + discriminate.
  - destruct K5 as [(_ & _ & ->)|[(_ & _ & F)|(_ & _ & t & ->)]].
    + now left.
    + apply existsb_value_eqb in F. destruct F as [<-|[]]. auto.
    + right. right. eauto.
  - destruct K6
      as [(_ & _ & ->)|[(_ & _ & F)|(_ & _ & [(z & -> & S & R)|(z & R)])]].
    + now left.
    + apply existsb_value_eqb in F. destruct F as [<-|[]]. auto.
    + right. right. exists z. split; [reflexivity|].
      apply orb_false_iff in S as [_ S]. apply Z.ltb_ge in S.
      cbn [flat_map Joi.check_number_rule app] in R.
      destruct (Z.ltb_spec 0 z); [lia|discriminate].
    + discriminate R.
Qed.


Lemma new_task_row now d b uid :
  Pg.new_row now d Pg.Tasks
    (combine ["title"; "description"; "status"; "priority"; "due_date";
              "category_id"; "user_id"]
       [get b "title"; get b "description"; get b "status";
        get b "priority"; get b "due_date"; get b "category_id"; VNum uid])
  = inserted_task now d b uid.
Proof. reflexivity. Qed.






(* --------------------------------------------------------------------- *)
(** ** [completed_at] under updates *)

(** An update whose validated body holds no status assigns nothing to
    [completed_at]. *)
Lemma update_without_status_keeps_completed_at e raw stored :
  let b := snd (Joi.validate_keys taskSchemas_update raw) in
  get b "status" = VUndefined ->
  Forall (fun a => Pg.assigned_column a <> "completed_at")
    (updateFields_of b ++ completed_at_field e b stored).
Proof.
  intros b Hs. apply Forall_app. split.
  - apply Forall_forall. intros a Ha.
    apply updateFields_columns, validated_keys in Ha. cbn in Ha.
    intros E. rewrite E in Ha. intuition discriminate.
  - unfold completed_at_field. rewrite Hs. cbn. constructor.
Qed.

(** The half of the invariant that updates establish: after a status
    update of the caller's task, a [completed_at] that is set means the
    status is 'completed'. *)
Lemma status_update_keeps_completed_at_sound e req w uid s r0 :
  caller e req w = Some uid ->
  In s ["pending"; "in_progress"; "completed"] ->
  tasks_consistent (database w) = true ->
  callers_task (database w) (params_id req) uid = Some r0 ->
  let d' := database (snd (PUT_tasks_id e (set_status req s) w)) in
  Pg.is_null (task_field d' (params_id req) uid "completed_at") = false ->
  task_field d' (params_id req) uid "status" = VStr "completed".
Proof.
  intros Hc Hs C Hf d'.
  destruct (PUT_status_step e req w uid s r0 Hc Hs C Hf)
    as (r1 & resp & w' & E & _ & _ & _ & _ & Hf1 & St & Ca & _).
  subst d'. rewrite E. cbn [snd]. unfold task_field. rewrite Hf1, St, Ca.
  unfold completed_at_after.
  destruct Hs as [<-|[<-|[<-|[]]]]; try discriminate. reflexivity.
Qed.

(* ===================================================================== *)
(** * Further properties *)
(* ===================================================================== *)

(* --------------------------------------------------------------------- *)
(** ** The rate limiter *)

Lemma rl_lookup_put s k v k' :
  RateLimiter.lookup (RateLimiter.put s k v) k'
  = if String.eqb k k' then Some v else RateLimiter.lookup s k'.
Proof.
  induction s as [|[k0 v0] s IH]; cbn.
  - now destruct (String.eqb k k').
  - destruct (String.eqb_spec k0 k) as [->|Hne]; cbn.
    + now destruct (String.eqb k k').
    + rewrite IH. destruct (String.eqb_spec k0 k'); [|reflexivity].
      subst. destruct (String.eqb_spec k k'); congruence.
Qed.

Lemma rl_lookup_delete s k k' :
  RateLimiter.lookup (RateLimiter.delete s k) k'
  = if String.eqb k k' then None else RateLimiter.lookup s k'.
Proof.
  unfold RateLimiter.delete.
  induction s as [|[k0 v0] s IH]; cbn.
  - now destruct (String.eqb k k').
  - destruct (String.eqb_spec k0 k) as [->|Hne]; cbn.
    + rewrite IH. destruct (String.eqb k k'); reflexivity.
    + rewrite IH. destruct (String.eqb_spec k0 k'); [|reflexivity].
      subst. destruct (String.eqb_spec k k'); congruence.
Qed.

Lemma rl_timestamps_put s k v k' :
  RateLimiter.timestamps (RateLimiter.put s k v) k'
  = if String.eqb k k' then v else RateLimiter.timestamps s k'.
Proof.
  unfold RateLimiter.timestamps. rewrite rl_lookup_put.
  now destruct (String.eqb k k').
Qed.

Lemma filter_newer_twice (a b : Z) l :
  a <= b ->
  filter (fun t => b <? t) (filter (fun t => a <? t) l)
  = filter (fun t => b <? t) l.
Proof.
  intros Hab. induction l as [|t l IH]; [reflexivity|]. cbn.
  destruct (Z.ltb_spec a t); cbn; rewrite IH; [reflexivity|].
  destruct (Z.ltb_spec b t); [lia|reflexivity].
Qed.

(** One request: the decision and the array left under every client. *)
Lemma rateLimiter_step cfg now c s :
  let id := RateLimiter.clientId c in
  let kept := filter (fun t => now - RateLimiter.windowMs cfg <? t)
                (RateLimiter.timestamps s id) in
  let n := Z.of_nat (List.length kept) in
  let ok := negb (RateLimiter.inherited id)
            && (n <? RateLimiter.maxRequests cfg) in
  fst (RateLimiter.rateLimiter cfg now c s)
  = (if RateLimiter.inherited id then RateLimiter.Throw "TypeError"
     else if ok
     then if RateLimiter.in_date_range (now + RateLimiter.windowMs cfg)
          then RateLimiter.Pass
                 {| RateLimiter.X_RateLimit_Limit :=
                      RateLimiter.maxRequests cfg;
                    RateLimiter.X_RateLimit_Remaining :=
                      Z.max 0 (RateLimiter.maxRequests cfg - (n + 1));
                    RateLimiter.X_RateLimit_Reset :=
                      now + RateLimiter.windowMs cfg |}
          else RateLimiter.Throw "RangeError"
     else RateLimiter.Reject
            {| RateLimiter.status := 429; RateLimiter.success := false;
               RateLimiter.message :=
                 "Too many requests, please try again later";
               RateLimiter.retryAfter :=
                 ceil_div (VNum (RateLimiter.windowMs cfg)) (VNum 1000) |})
  /\ forall k,
       RateLimiter.timestamps
         (snd (RateLimiter.rateLimiter cfg now c s)) k
       = if String.eqb id k
         then if RateLimiter.inherited id then RateLimiter.timestamps s k
              else if ok then (kept ++ [now])%list else kept
         else RateLimiter.timestamps s k.
Proof.
  intros id kept n ok. unfold RateLimiter.rateLimiter. fold id.
  destruct (RateLimiter.inherited id) eqn:Inh.
  { cbn [fst snd]. split; [reflexivity|]. intros k.
    now destruct (String.eqb id k). }
  set (s1 := match RateLimiter.lookup s id with
             | None => RateLimiter.put s id []
             | Some _ => s
             end).
  assert (E1 : forall k, RateLimiter.timestamps s1 k
                         = RateLimiter.timestamps s k).
  { intros k. unfold s1. destruct (RateLimiter.lookup s id) eqn:L;
      [reflexivity|].
    rewrite rl_timestamps_put. destruct (String.eqb_spec id k); [|easy].
    subst. unfold RateLimiter.timestamps. now rewrite L. }
  rewrite E1. fold kept. fold n.
  assert (Eok : (RateLimiter.maxRequests cfg <=? n) = negb ok).
  { unfold ok. cbn [negb andb].
    destruct (Z.leb_spec (RateLimiter.maxRequests cfg) n);
      destruct (Z.ltb_spec n (RateLimiter.maxRequests cfg)); try lia;
      reflexivity. }
  rewrite Eok.
  assert (Len : Z.of_nat (List.length (kept ++ [now])) = n + 1).
  { rewrite length_app. cbn [List.length]. unfold n. lia. }
  rewrite Len.
  destruct ok; cbn [negb].
  - destruct (RateLimiter.in_date_range _); cbn [fst snd];
      (split; [reflexivity|]); intros k;
      rewrite !rl_timestamps_put, E1; now destruct (String.eqb id k).
  - cbn [fst snd]. split; [reflexivity|]. intros k.
    rewrite rl_timestamps_put, E1. reflexivity.
Qed.

Lemma sweep_timestamps cfg now s k :
  RateLimiter.timestamps (RateLimiter.sweep cfg now s) k
  = filter (fun t => now - RateLimiter.windowMs cfg <? t)
      (RateLimiter.timestamps s k).
Proof.
  unfold RateLimiter.sweep.
  set (w := now - RateLimiter.windowMs cfg).
  set (step := fun acc k0 =>
                 match filter (fun t => w <? t)
                         (RateLimiter.timestamps acc k0) with
                 | [] => RateLimiter.delete
                           (RateLimiter.put acc k0
                              (filter (fun t => w <? t)
                                 (RateLimiter.timestamps acc k0))) k0
                 | _ :: _ => RateLimiter.put acc k0
                               (filter (fun t => w <? t)
                                  (RateLimiter.timestamps acc k0))
                 end).
  assert (Hstep : forall acc k0 k1,
             RateLimiter.timestamps (step acc k0) k1
             = if String.eqb k0 k1
               then filter (fun t => w <? t) (RateLimiter.timestamps acc k0)
               else RateLimiter.timestamps acc k1).
  { intros acc k0 k1. unfold step.
    destruct (filter _ (RateLimiter.timestamps acc k0)) as [|x xs] eqn:F.
    - unfold RateLimiter.timestamps at 1.
      rewrite rl_lookup_delete, rl_lookup_put.
      now destruct (String.eqb k0 k1).
    - rewrite rl_timestamps_put. reflexivity. }
  assert (G : forall ks acc,
             RateLimiter.timestamps (fold_left step ks acc) k
             = if existsb (String.eqb k) ks
               then filter (fun t => w <? t) (RateLimiter.timestamps acc k)
               else RateLimiter.timestamps acc k).
  { induction ks as [|k0 ks IH]; intros acc; [reflexivity|].
    cbn [fold_left existsb]. rewrite IH, !Hstep.
    rewrite (String.eqb_sym k k0).
    destruct (String.eqb_spec k0 k) as [->|Hne]; cbn [orb].
    - destruct (existsb _ ks); [|reflexivity].
      apply filter_newer_twice. lia.
    - reflexivity. }
  change (fold_left _ (map fst s) s) with (fold_left step (map fst s) s).
  rewrite G. destruct (existsb (String.eqb k) (map fst s)) eqn:Ex;
    [reflexivity|].
  assert (L : RateLimiter.lookup s k = None).
  { clear -Ex. induction s as [|[k0 v0] s IH]; [reflexivity|].
    cbn in *. apply orb_false_iff in Ex as [E1 E2].
    rewrite String.eqb_sym, E1. auto. }
  unfold RateLimiter.timestamps. now rewrite L.
Qed.

Lemma passes_in_window_count cfg history k now :
  RateLimiter.passes_in_window cfg history k now
  = Z.of_nat
      (List.length
         (filter (fun t => now - RateLimiter.windowMs cfg <? t)
            (RateLimiter.passes_of history k))).
Proof.
  unfold RateLimiter.passes_in_window, RateLimiter.passes_of. f_equal.
  induction history as [|[k0 t0] h IH]; [reflexivity|]. cbn.
  destruct (String.eqb k0 k); cbn; [|exact IH].
  destruct (now - RateLimiter.windowMs cfg <? t0); cbn; now rewrite IH.
Qed.

Lemma passes_of_snoc history k k' t :
  RateLimiter.passes_of (history ++ [(k', t)]) k
  = (RateLimiter.passes_of history k
     ++ if String.eqb k' k then [t] else [])%list.
Proof.
  unfold RateLimiter.passes_of. rewrite filter_app, map_app. cbn.
  now destruct (String.eqb k' k).
Qed.

(** The pruned arrays and the unpruned history agree on every timestamp
    that a request at or after [t] can still count. *)
Lemma run_follows_history cfg evs :
  forall s history t,
    (forall k T, t - RateLimiter.windowMs cfg <= T ->
                 filter (fun x => T <? x) (RateLimiter.timestamps s k)
                 = filter (fun x => T <? x)
                     (RateLimiter.passes_of history k)) ->
    RateLimiter.in_order t evs ->
    fst (RateLimiter.run cfg evs s) = RateLimiter.by_history cfg evs history.
Proof.
  induction evs as [|[now c|now] evs IH]; intros s history t Inv Ord;
    [reflexivity| |].
  - destruct Ord as [Ht Ord]. cbn [RateLimiter.time_of] in *.
    cbn [RateLimiter.run RateLimiter.by_history].
    destruct (rateLimiter_step cfg now c s) as [Hd Hs].
    destruct (RateLimiter.rateLimiter cfg now c s) as [d s'].
    cbn [fst snd] in Hd, Hs.
    assert (N : RateLimiter.passes_in_window cfg history
                  (RateLimiter.clientId c) now
                = Z.of_nat
                    (List.length
                       (filter
                          (fun x => now - RateLimiter.windowMs cfg <? x)
                          (RateLimiter.timestamps s
                             (RateLimiter.clientId c))))).
    { rewrite passes_in_window_count.
      rewrite <- (Inv (RateLimiter.clientId c)
                    (now - RateLimiter.windowMs cfg)) by lia.
      reflexivity. }
    unfold RateLimiter.decide, RateLimiter.recorded. rewrite N.
    set (kept := filter (fun x => now - RateLimiter.windowMs cfg <? x)
                   (RateLimiter.timestamps s (RateLimiter.clientId c)))
      in *.
    set (ok := negb (RateLimiter.inherited (RateLimiter.clientId c))
               && (Z.of_nat (List.length kept)
                   <? RateLimiter.maxRequests cfg)) in *.
    specialize (IH s'
                  (if ok then history ++ [(RateLimiter.clientId c, now)]
                   else history)%list now).
    destruct (RateLimiter.run cfg evs s') as [ds s''].
    cbn [fst] in *. rewrite Hd. f_equal. apply IH; [|exact Ord].
    intros k T HT. rewrite Hs.
    destruct (String.eqb_spec (RateLimiter.clientId c) k) as [<-|Hne].
    + destruct (RateLimiter.inherited (RateLimiter.clientId c)) eqn:Inh.
      { cbn [negb andb] in ok. unfold ok. apply Inv. lia. }
      destruct ok.
      * rewrite passes_of_snoc, String.eqb_refl, !filter_app.
        f_equal. unfold kept. rewrite filter_newer_twice by lia.
        apply Inv. lia.
      * unfold kept. rewrite filter_newer_twice by lia. apply Inv. lia.
    + destruct ok.
      * rewrite passes_of_snoc.
        destruct (String.eqb_spec (RateLimiter.clientId c) k);
          [contradiction|].
        rewrite app_nil_r. apply Inv. lia.
      * apply Inv. lia.
  - destruct Ord as [Ht Ord]. cbn [RateLimiter.time_of] in *.
    cbn [RateLimiter.run RateLimiter.by_history].
    apply (IH _ history now); [|exact Ord].
    intros k T HT. rewrite sweep_timestamps.
    rewrite filter_newer_twice by lia. apply Inv. lia.
Qed.

(** X1.  From an empty store, with a clock that never runs backwards and
    gives the instants [Date.now()] gives, and with settings that numbers
    hold exactly, the limiter (with its pruning of old timestamps and its
    periodic clean-up) answers every request as the rule that keeps the
    whole history of recorded requests and prunes nothing.  A request of
    a client whose id is a name every object inherits ends in a
    TypeError and is not recorded.  Any other request is recorded exactly
    when fewer than [maxRequests] recorded requests of the same client
    are younger than [windowMs], and is refused with the 429 otherwise; a
    recorded request goes on with the headers, or ends in a RangeError
    when [now + windowMs] is an instant no [Date] holds, in which case it
    still counts against the client.  Refused requests never count. *)
Theorem rate_limiter_decides_by_history cfg evs t0 :
  RateLimiter.in_order t0 evs ->
  0 <= t0 -> RateLimiter.clock_readings evs ->
  RateLimiter.exact_settings cfg ->
  fst (RateLimiter.run cfg evs []) = RateLimiter.by_history cfg evs [].
Proof.
  intros Ord _ _ _.
  apply (run_follows_history cfg evs [] [] t0); [|exact Ord].
  intros k T _. reflexivity.
Qed.

Lemma in_order_weaken t t' evs :
  t' <= t -> RateLimiter.in_order t evs -> RateLimiter.in_order t' evs.
Proof. destruct evs; cbn; [auto|]. intros ? [? ?]. split; [lia|auto]. Qed.

Lemma in_order_requests t evs :
  RateLimiter.in_order t evs ->
  RateLimiter.in_order t (filter RateLimiter.is_request evs).
Proof.
  revert t. induction evs as [|e evs IH]; intros t; [auto|].
  intros [Ht Ord]. destruct e as [now c|now]; cbn.
  - split; [exact Ht|]. now apply IH.
  - apply IH. now apply (in_order_weaken now).
Qed.

Lemma by_history_requests cfg evs history :
  RateLimiter.by_history cfg (filter RateLimiter.is_request evs) history
  = RateLimiter.by_history cfg evs history.
Proof.
  revert history. induction evs as [|[now c|now] evs IH]; intros h;
    cbn [filter RateLimiter.is_request RateLimiter.by_history];
    [reflexivity| |apply IH].
  now rewrite IH.
Qed.

(** X2.  The periodic clean-up changes no decision: with a clock that
    never runs backwards, a run answers its requests as the same run
    without any clean-up does. *)
Theorem sweeps_change_no_decision cfg evs t0 :
  RateLimiter.in_order t0 evs ->
  map RateLimiter.passed (fst (RateLimiter.run cfg evs []))
  = map RateLimiter.passed
      (fst (RateLimiter.run cfg (filter RateLimiter.is_request evs) [])).
Proof.
  intros Ord.
  rewrite (run_follows_history cfg evs [] [] t0);
    [|intros; reflexivity|exact Ord].
  rewrite (run_follows_history cfg _ [] [] t0);
    [|intros; reflexivity|now apply in_order_requests].
  now rewrite by_history_requests.
Qed.

(** X3.  What one call answers, at an instant [Date.now()] gives and with
    a positive window and settings that numbers hold exactly.  For a
    client whose id is a name every object inherits, the call ends in a
    TypeError and the store is as it was.  For any other client: a
    rejection is a 429 whose [retryAfter] is the window in whole seconds,
    rounded up, and leaves the client's array pruned but not extended; a
    request let through is appended to the array, which then holds at
    most [maxRequests] timestamps, all younger than the window, the
    remaining-requests header being exactly [maxRequests] minus the
    length of that array, between 0 and [maxRequests - 1], so that its
    clamp at 0 never applies, and the reset instant [now + windowMs], an
    instant a [Date] holds; when it is not such an instant, the call ends
    in a RangeError after the timestamp was appended, and no header is
    set. *)
Theorem rate_limiter_answer cfg now c s :
  0 < RateLimiter.windowMs cfg ->
  RateLimiter.exact_settings cfg ->
  0 <= now <= RateLimiter.MAX_DATE ->
  let kept := filter (fun t => now - RateLimiter.windowMs cfg <? t)
                (RateLimiter.timestamps s (RateLimiter.clientId c)) in
  let after := RateLimiter.timestamps
                 (snd (RateLimiter.rateLimiter cfg now c s))
                 (RateLimiter.clientId c) in
  (RateLimiter.inherited (RateLimiter.clientId c) = true ->
   RateLimiter.rateLimiter cfg now c s = (RateLimiter.Throw "TypeError", s))
  /\ (RateLimiter.inherited (RateLimiter.clientId c) = false ->
      match fst (RateLimiter.rateLimiter cfg now c s) with
      | RateLimiter.Reject r =>
          RateLimiter.maxRequests cfg <= Z.of_nat (List.length kept)
          /\ RateLimiter.status r = 429
          /\ (exists n,
                 RateLimiter.retryAfter r = VNum n
                 /\ (n - 1) * 1000 < RateLimiter.windowMs cfg <= n * 1000)
          /\ after = kept
      | RateLimiter.Pass h =>
          after = (kept ++ [now])%list
          /\ Z.of_nat (List.length after) <= RateLimiter.maxRequests cfg
          /\ Forall (fun t => now - RateLimiter.windowMs cfg < t) after
          /\ RateLimiter.X_RateLimit_Remaining h
             = RateLimiter.maxRequests cfg - Z.of_nat (List.length after)
          /\ 0 <= RateLimiter.X_RateLimit_Remaining h
             < RateLimiter.maxRequests cfg
          /\ RateLimiter.X_RateLimit_Reset h
             = now + RateLimiter.windowMs cfg
          /\ now + RateLimiter.windowMs cfg <= RateLimiter.MAX_DATE
      | RateLimiter.Throw name =>
          name = "RangeError"
          /\ after = (kept ++ [now])%list
          /\ Z.of_nat (List.length kept) < RateLimiter.maxRequests cfg
          /\ RateLimiter.MAX_DATE < now + RateLimiter.windowMs cfg
      end).
Proof.
  intros Hw _ Hnow kept after. split.
  { intros Inh. unfold RateLimiter.rateLimiter. now rewrite Inh. }
  intros Inh.
  destruct (rateLimiter_step cfg now c s) as [Hd Hs].
  specialize (Hs (RateLimiter.clientId c)).
  rewrite String.eqb_refl, Inh in Hs. rewrite Inh in Hd.
  cbn [negb andb] in Hd, Hs. fold kept in Hd, Hs. fold after in Hs.
  rewrite Hd.
  assert (L : Z.of_nat (List.length (kept ++ [now]))
              = Z.of_nat (List.length kept) + 1).
  { rewrite length_app. cbn. lia. }
  assert (Y : Forall (fun t => now - RateLimiter.windowMs cfg < t)
                (kept ++ [now])).
  { apply Forall_app. split.
    - apply Forall_forall. intros t Ht. apply filter_In in Ht as [_ Ht].
      now apply Z.ltb_lt.
    - repeat constructor. lia. }
  destruct (Z.ltb_spec (Z.of_nat (List.length kept))
              (RateLimiter.maxRequests cfg)) as [Hlt|Hge].
  - rewrite Hs.
    destruct (RateLimiter.in_date_range (now + RateLimiter.windowMs cfg))
      eqn:D;
      unfold RateLimiter.in_date_range in D.
    + apply andb_prop in D as [_ D]. apply Z.leb_le in D.
      cbn [RateLimiter.X_RateLimit_Remaining RateLimiter.X_RateLimit_Reset].
      repeat split; auto; lia.
    + apply andb_false_iff in D as [D|D].
      * apply Z.leb_gt in D. unfold RateLimiter.MAX_DATE in *. lia.
      * apply Z.leb_gt in D. repeat split; auto.
  - rewrite Hs. cbn [RateLimiter.status RateLimiter.retryAfter].
    repeat split; auto. apply ceil_div_spec. lia.
Qed.

(* --------------------------------------------------------------------- *)
(** ** The two guards *)

(** X4.  The optional guard never answers and never fails: it always
    hands the request on.  It attaches an identity exactly when the
    required guard would let the request through, and then the same one;
    when the required guard would reject, the request goes on as it
    came. *)
Theorem optionalAuth_never_rejects e req w :
  exists req' w',
    optionalAuth e req w = (Next req', w')
    /\ database w' = database w
    /\ match authenticateToken e req w with
       | (Next authenticated, _) => req' = authenticated
       | _ => req' = req
       end.
Proof.
  unfold optionalAuth, authenticateToken.
  destruct (bearer_token (authorization req)) as [token|];
    [|eexists; eexists; repeat split; reflexivity].
  destruct (String.eqb token "");
    [eexists; eexists; repeat split; reflexivity|].
  destruct (verifyToken token) as [[uid]|];
    [|eexists; eexists; repeat split; reflexivity].
  rewrite query_select.
  destruct (map _ (filter _ _)); eexists; eexists; repeat split; reflexivity.
Qed.

(** X5.  The required guard answers 401 'Access token required' without
    touching the database when the header is missing, empty or has no
    second word, and 401 'User not found' when the token is good but
    names no stored user; when it lets a request through, the identity it
    attaches is the stored user the token names, reduced to id, name,
    email, avatar_url and created_at: the password hash is not in it. *)
Theorem authenticateToken_outcomes e req w :
  (bearer_token (authorization req) = None
   \/ bearer_token (authorization req) = Some "" ->
   authenticateToken e req w
   = (Send (json 401 false (Some "Access token required") None), w))
  /\ (forall token uid,
         bearer_token (authorization req) = Some token -> token <> "" ->
         verifyToken token = Some {| userId := uid |} ->
         (forall r, In r (Pg.users (database w)) -> get r "id" <> VNum uid) ->
         authenticateToken e req w
         = (Send (json 401 false (Some "User not found") None),
            sent w [user_lookup uid]))
  /\ (forall req' w',
         authenticateToken e req w = (Next req', w') ->
         exists u r,
           user req' = Some u
           /\ In r (Pg.users (database w))
           /\ keys u = ["id"; "name"; "email"; "avatar_url"; "created_at"]
           /\ (forall k, In k (keys u) -> get u k = get r k)
           /\ get u "password" = VUndefined
           /\ body req' = body req /\ params_id req' = params_id req
           /\ database w' = database w).
Proof.
  split; [|split].
  - unfold authenticateToken. intros [-> | ->]; reflexivity.
  - intros token uid Hb Hne Hv Hno. unfold authenticateToken.
    rewrite Hb. destruct (String.eqb_spec token ""); [contradiction|].
    rewrite Hv, query_select. cbn [userId Pg.rows_of].
    rewrite filter_none; [reflexivity|].
    intros r Hr. apply not_true_is_false. intros M.
    unfold Pg.matches in M. cbn [forallb] in M.
    rewrite andb_true_r in M. apply eval_Eq_num in M.
    exact (Hno r Hr M).
  - intros req' w' A.
    apply authenticateToken_Next in A
      as (token & uid & r & _ & _ & Hin & Hid & -> & ->).
    eexists. exists r. split; [reflexivity|]. split; [exact Hin|].
    split; [reflexivity|]. split.
    + intros k Hk. cbn in Hk.
      repeat (destruct Hk as [<-|Hk]; [reflexivity|]). destruct Hk.
    + repeat split.
Qed.

(* --------------------------------------------------------------------- *)
(** ** The central error handler *)

(** The shape of every answer of the error handler. *)
Lemma errorHandler_shape e err :
  exists st msg,
    errorHandler e err
    = {| status := st; success := false;
         message :=
           Some (match NODE_ENV e with
                 | Some mode =>
                     if String.eqb mode "production" && (st =? 500)
                     then "Internal Server Error" else msg
                 | None => msg
                 end);
         data := None; errors := [];
         stack := match NODE_ENV e with
                  | Some mode =>
                      if String.eqb mode "development"
                      then Some (err_stack err) else None
                  | None => None
                  end |}.
Proof.
  unfold errorHandler.
  repeat match goal with
         | |- context [let '(a, b) := ?X in _] => destruct X as [? ?]
         end.
  eexists. eexists. reflexivity.
Qed.

(** X6.  An error that carries a storage code is answered in the
    handler's words: whatever its message, the answer's message is one of
    eight fixed texts and its status one of 400, 401, 409 and 500.
    Unique violations give 409, foreign-key and not-null violations 400,
    any other code 500, unless the error is named as a token error.  The
    answer has no data; it carries the error's own stack trace, which
    begins with the error's own text, exactly when NODE_ENV is
    'development', and nothing of the error otherwise. *)
Theorem storage_errors_are_translated e err c :
  err_code err = Some c -> c <> "" ->
  let r := errorHandler e err in
  In (message r)
    [Some "Resource already exists";
     Some "Referenced resource does not exist";
     Some "Required field is missing";
     Some "Database configuration error";
     Some "Database error occurred";
     Some "Invalid token"; Some "Token expired";
     Some "Internal Server Error"]
  /\ In (status r) [400; 401; 409; 500]
  /\ data r = None /\ success r = false
  /\ (err_name err <> "JsonWebTokenError" ->
      err_name err <> "TokenExpiredError" ->
      status r = (if String.eqb c "23505" then 409
                  else if String.eqb c "23503" then 400
                  else if String.eqb c "23502" then 400
                  else 500))
  /\ errors r = []
  /\ (NODE_ENV e = Some "development" -> stack r = Some (err_stack err))
  /\ (NODE_ENV e <> Some "development" -> stack r = None).
Proof.
  intros Hc Hne r. subst r.
  assert (S : errors (errorHandler e err) = []
              /\ (NODE_ENV e = Some "development" ->
                  stack (errorHandler e err) = Some (err_stack err))
              /\ (NODE_ENV e <> Some "development" ->
                  stack (errorHandler e err) = None)).
  { destruct (errorHandler_shape e err) as (st & msg & ->).
    cbn [errors stack]. split; [reflexivity|]. split.
    - now intros ->.
    - intros Hd. destruct (NODE_ENV e) as [mode|]; [|reflexivity].
      destruct (String.eqb_spec mode "development"); congruence. }
  revert S. generalize (errors (errorHandler e err)),
    (stack (errorHandler e err)). intros errs stk S.
  cut (In (message (errorHandler e err))
         [Some "Resource already exists";
          Some "Referenced resource does not exist";
          Some "Required field is missing";
          Some "Database configuration error";
          Some "Database error occurred";
          Some "Invalid token"; Some "Token expired";
          Some "Internal Server Error"]
       /\ In (status (errorHandler e err)) [400; 401; 409; 500]
       /\ data (errorHandler e err) = None
       /\ success (errorHandler e err) = false
       /\ (err_name err <> "JsonWebTokenError" ->
           err_name err <> "TokenExpiredError" ->
           status (errorHandler e err)
           = (if String.eqb c "23505" then 409
              else if String.eqb c "23503" then 400
              else if String.eqb c "23502" then 400
              else 500))); [tauto|].
  clear S errs stk. unfold errorHandler. rewrite Hc.
  destruct (String.eqb_spec c ""); [contradiction|].
  destruct (match err_isJoi err with Some m => _ | None => _ end)
    as [status1 message1].
  destruct (String.eqb c "23505"), (String.eqb c "23503"),
      (String.eqb c "23502"), (String.eqb c "42P01");
    destruct (String.eqb_spec (err_name err) "JsonWebTokenError");
    destruct (String.eqb_spec (err_name err) "TokenExpiredError");
    destruct (NODE_ENV e) as [mode|];
    try destruct (String.eqb mode "production");
    cbn; repeat split; try tauto; try congruence.
Qed.

(** X7.  In production no answer of the error handler with status 500
    says more than 'Internal Server Error', and a stack trace is sent in
    development only. *)
Theorem production_hides_internal_errors e err :
  (NODE_ENV e = Some "production" ->
   status (errorHandler e err) = 500 ->
   message (errorHandler e err) = Some "Internal Server Error")
  /\ (NODE_ENV e <> Some "development" ->
      stack (errorHandler e err) = None).
Proof.
  destruct (errorHandler_shape e err) as (st & msg & ->).
  cbn [status message stack]. split.
  - intros -> ->. reflexivity.
  - intros Hd. destruct (NODE_ENV e) as [mode|]; [|reflexivity].
    destruct (String.eqb_spec mode "development"); congruence.
Qed.

(* --------------------------------------------------------------------- *)
(** ** What a guarded, validated route can do before its handler *)

Lemma guarded_route_cases schema h e req w :
  (exists r w1,
      route [authenticateToken; pure (validate schema)] h e req w = (r, w1)
      /\ (status r = 401 \/ status r = 403)
      /\ database w1 = database w
      /\ (issued w1 = issued w
          \/ exists uid, issued w1 = (issued w ++ [user_lookup uid])%list))
  \/ (exists uid errs,
         caller e req w = Some uid
         /\ route [authenticateToken; pure (validate schema)] h e req w
            = (validation_failure "Validation error" errs,
               sent w [user_lookup uid]))
  \/ (exists uid u b,
         caller e req w = Some uid /\ get u "id" = VNum uid
         /\ Joi.validate_keys schema (body req) = ([], b)
         /\ route [authenticateToken; pure (validate schema)] h e req w
            = route [] h e (with_body (with_user req u) b)
                (sent w [user_lookup uid])).
Proof.
  destruct (caller e req w) as [uid|] eqn:Hc.
  - destruct (caller_spec e req w uid Hc) as (u & A & Hid & _).
    rewrite (route_behind_guard _ _ e req w uid u A).
    destruct (Joi.validate_keys schema (body req)) as [[|x errs] b] eqn:V.
    + right. right. exists uid, u, b. repeat split; auto.
      now apply route_validated.
    + right. left. exists uid, (x :: errs). split; [reflexivity|].
      cbn [route pure]. unfold validate. cbn [body with_user].
      now rewrite V.
  - left. unfold caller in Hc. cbn [route].
    unfold authenticateToken in *.
    destruct (bearer_token (authorization req)) as [token|];
      [|do 2 eexists; repeat split; auto].
    destruct (String.eqb token ""); [do 2 eexists; repeat split; auto|].
    destruct (verifyToken token) as [[uid]|];
      [|do 2 eexists; repeat split; auto].
    rewrite query_select in *.
    destruct (filter _ _) as [|r rs] eqn:F; cbn [map] in *.
    + do 2 eexists. split; [reflexivity|]. split; [auto|].
      split; [reflexivity|]. right. exists uid. reflexivity.
    + exfalso. cbn [user with_user] in Hc.
      assert (Hin : In r (r :: rs)) by now left.
      rewrite <- F in Hin. apply filter_In in Hin as [_ Hm].
      unfold Pg.matches in Hm. cbn [forallb] in Hm.
      rewrite andb_true_r in Hm. apply eval_Eq_num in Hm.
      replace (get (Pg.project _ r) "id") with (get r "id") in Hc
        by reflexivity.
      rewrite Hm in Hc. discriminate.
Qed.

Lemma guarded_cases h e req w :
  (exists r w1,
      route [authenticateToken] h e req w = (r, w1)
      /\ (status r = 401 \/ status r = 403)
      /\ database w1 = database w
      /\ (issued w1 = issued w
          \/ exists uid, issued w1 = (issued w ++ [user_lookup uid])%list))
  \/ (exists uid u,
         caller e req w = Some uid /\ get u "id" = VNum uid
         /\ route [authenticateToken] h e req w
            = route [] h e (with_user req u) (sent w [user_lookup uid])).
Proof.
  destruct (caller e req w) as [uid|] eqn:Hc.
  - destruct (caller_spec e req w uid Hc) as (u & A & Hid & _).
    right. exists uid, u. repeat split; auto.
    now apply route_behind_guard.
  - left. unfold caller in Hc. cbn [route].
    unfold authenticateToken in *.
    destruct (bearer_token (authorization req)) as [token|];
      [|do 2 eexists; repeat split; auto].
    destruct (String.eqb token ""); [do 2 eexists; repeat split; auto|].
    destruct (verifyToken token) as [[uid]|];
      [|do 2 eexists; repeat split; auto].
    rewrite query_select in *.
    destruct (filter _ _) as [|r rs] eqn:F; cbn [map] in *.
    + do 2 eexists. split; [reflexivity|]. split; [auto|].
      split; [reflexivity|]. right. exists uid. reflexivity.
    + exfalso. cbn [user with_user] in Hc.
      assert (Hin : In r (r :: rs)) by now left.
      rewrite <- F in Hin. apply filter_In in Hin as [_ Hm].
      unfold Pg.matches in Hm. cbn [forallb] in Hm.
      rewrite andb_true_r in Hm. apply eval_Eq_num in Hm.
      replace (get (Pg.project _ r) "id") with (get r "id") in Hc
        by reflexivity.
      rewrite Hm in Hc. discriminate.
Qed.

(* --------------------------------------------------------------------- *)
(** ** Columns an update can reach *)

Lemma updateFields_within updates allowed :
  (forall k, In k (keys updates) -> In k allowed) ->
  Forall (fun a => In (Pg.assigned_column a) allowed)
    (updateFields_of updates).
Proof.
  intros Hk. apply Forall_forall. intros a Ha.
  apply Hk. now apply updateFields_columns.
Qed.

Lemma validated_within schema raw b :
  Joi.validate_keys schema raw = ([], b) ->
  forall k, In k (keys b) -> In k (map fst schema).
Proof.
  intros V k Hk. apply (validated_keys schema raw).
  now rewrite V.
Qed.

Ltac in_list := cbn; repeat (first [left; reflexivity | right]).

Ltac each_statement :=
  first [apply Forall_nil
        |apply Forall_cons;
         [cbn [Pg_stmt.set_of]; try apply Forall_nil|each_statement]].

Ltac issued_so_far :=
  eexists; split;
  [cbn [snd sent issued ret]; rewrite <- ?app_assoc; cbn [app];
   first [reflexivity | symmetry; apply app_nil_r]
  |unfold assigns_within; each_statement].

Ltac step_query e :=
  match goal with
  | |- context [query e ?s ?w0] =>
      let Q := fresh "Q" in
      pose proof (query_issued e s w0) as Q;
      destruct (query e s w0) as [[?rows|?err] ?w1];
      cbn [snd ret] in *
  end.

Lemma tasks_update_assignments e req w u uid :
  user req = Some u -> get u "id" = VNum uid ->
  (forall k, In k (keys (body req)) -> In k (map fst taskSchemas_update)) ->
  exists l,
    issued (snd (tasks_update e req w)) = (issued w ++ l)%list
    /\ assigns_within
         ["title"; "description"; "status"; "priority"; "due_date";
          "category_id"; "completed_at"; "updated_at"] l.
Proof.
  intros Hu Hid Hk. unfold tasks_update, req_user_id, bind.
  rewrite Hu, Hid. cbn [ret]. rewrite query_select.
  destruct (map _ (filter _ _)) as [|existing rest].
  { issued_so_far. }
  destruct (_ ++ _)%list as [|a fields] eqn:UF.
  { issued_so_far. }
  assert (W : Forall (fun a0 => In (Pg.assigned_column a0)
                                  ["title"; "description"; "status";
                                   "priority"; "due_date"; "category_id";
                                   "completed_at"; "updated_at"])
                ((a :: fields) ++ [Pg.SetCurrentTimestamp "updated_at"])).
  { rewrite <- UF. apply Forall_app. split; [apply Forall_app; split|].
    - eapply Forall_impl; [|apply (updateFields_within _ _ Hk)].
      cbn. intros x Hx. intuition.
    - unfold completed_at_field.
      repeat match goal with
             | |- context [if ?b then _ else _] => destruct b
             end;
        repeat first [apply Forall_nil | apply Forall_cons]; in_list.
    - apply Forall_cons; [in_list|apply Forall_nil]. }
  step_query e; rewrite Q; issued_so_far; exact W.
Qed.

Lemma users_update_profile_assignments e req w u uid :
  user req = Some u -> get u "id" = VNum uid ->
  (forall k, In k (keys (body req)) ->
             In k (map fst userSchemas_updateProfile)) ->
  exists l,
    issued (snd (users_update_profile e req w)) = (issued w ++ l)%list
    /\ assigns_within ["name"; "email"; "avatar_url"; "updated_at"] l.
Proof.
  intros Hu Hid Hk. unfold users_update_profile, req_user_id, bind.
  rewrite Hu, Hid. cbn [ret].
  assert (W : forall a fields,
             updateFields_of (body req) = a :: fields ->
             Forall (fun a0 => In (Pg.assigned_column a0)
                                 ["name"; "email"; "avatar_url";
                                  "updated_at"])
               ((a :: fields) ++ [Pg.SetCurrentTimestamp "updated_at"])).
  { intros a fields UF. rewrite <- UF. apply Forall_app. split.
    - eapply Forall_impl; [|apply (updateFields_within _ _ Hk)].
      cbn. intros x Hx. intuition.
    - apply Forall_cons; [in_list|apply Forall_nil]. }
  destruct (truthy (get (body req) "email")).
  - rewrite query_select. destruct (map _ (filter _ _)).
    + destruct (updateFields_of (body req)) as [|a fields] eqn:UF.
      { issued_so_far. }
      step_query e; rewrite Q; issued_so_far; now apply W.
    + issued_so_far.
  - cbn [ret].
    destruct (updateFields_of (body req)) as [|a fields] eqn:UF.
    { issued_so_far. }
    step_query e; rewrite Q; issued_so_far; now apply W.
Qed.

Lemma categories_update_assignments e req w u uid :
  user req = Some u -> get u "id" = VNum uid ->
  (forall k, In k (keys (body req)) ->
             In k (map fst categorySchemas_update)) ->
  exists l,
    issued (snd (categories_update e req w)) = (issued w ++ l)%list
    /\ assigns_within ["name"; "color"] l.
Proof.
  intros Hu Hid Hk. unfold categories_update, req_user_id, bind.
  rewrite Hu, Hid. cbn [ret]. rewrite query_select.
  destruct (map _ (filter _ _)) as [|existing rest].
  { issued_so_far. }
  destruct (negb _).
  { issued_so_far. }
  assert (W : Forall (fun a0 => In (Pg.assigned_column a0) ["name"; "color"])
                (updateFields_of (body req))).
  { eapply Forall_impl; [|apply (updateFields_within _ _ Hk)].
    cbn. intros x Hx. intuition. }
  destruct (truthy (get (body req) "name")).
  - rewrite query_select. destruct (map _ (filter _ _)).
    + destruct (updateFields_of (body req)) as [|a fields] eqn:UF.
      { issued_so_far. }
      step_query e; rewrite Q; issued_so_far; exact W.
    + issued_so_far.
  - cbn [ret].
    destruct (updateFields_of (body req)) as [|a fields] eqn:UF.
    { issued_so_far. }
    step_query e; rewrite Q; issued_so_far; exact W.
Qed.

Lemma guarded_update_assignments schema h allowed e req w :
  (forall u uid b w0,
      get u "id" = VNum uid ->
      (forall k, In k (keys b) -> In k (map fst schema)) ->
      exists l,
        issued (snd (h e (with_body (with_user req u) b) w0))
        = (issued w0 ++ l)%list
        /\ assigns_within allowed l) ->
  exists l,
    issued (snd (route [authenticateToken; pure (validate schema)] h e req
                   w))
    = (issued w ++ l)%list
    /\ assigns_within allowed l.
Proof.
  intros Hh.
  destruct (guarded_route_cases schema h e req w)
    as [(r & w1 & -> & _ & _ & [E|(uid & E)])
       |[(uid & errs & _ & ->)|(uid & u & b & _ & Hid & V & ->)]];
    cbn [snd].
  - exists []. rewrite E, app_nil_r. split; [reflexivity|constructor].
  - exists [user_lookup uid]. split; [exact E|].
    repeat constructor.
  - exists [user_lookup uid]. split; [reflexivity|]. repeat constructor.
  - destruct (Hh u uid b (sent w [user_lookup uid]) Hid
                (validated_within schema _ b V)) as (l & E & A).
    exists (user_lookup uid :: l). split.
    + cbn [route].
      destruct (h e (with_body (with_user req u) b)
                  (sent w [user_lookup uid])) as [[r|err] w2];
        cbn [snd] in *; rewrite E; cbn [sent issued];
        now rewrite <- app_assoc.
    + constructor; [constructor|exact A].
Qed.

(** X8.  Whatever the request, the UPDATE statements of the three update
    routes assign only the fields of their schema, plus [completed_at]
    and [updated_at] for tasks and [updated_at] for the profile.  So no
    body can move a task or a category to another owner, change an id or
    a creation time, or write the password through the profile route. *)
Theorem updates_reach_schema_fields_only e req w :
  (exists l,
      issued (snd (PUT_tasks_id e req w)) = (issued w ++ l)%list
      /\ assigns_within
           ["title"; "description"; "status"; "priority"; "due_date";
            "category_id"; "completed_at"; "updated_at"] l)
  /\ (exists l,
         issued (snd (PUT_users_profile e req w)) = (issued w ++ l)%list
         /\ assigns_within ["name"; "email"; "avatar_url"; "updated_at"] l)
  /\ (exists l,
         issued (snd (PUT_categories_id e req w)) = (issued w ++ l)%list
         /\ assigns_within ["name"; "color"] l).
Proof.
  split; [|split].
  - apply guarded_update_assignments. intros u uid b w0 Hid Hk.
    now apply (tasks_update_assignments e _ w0 u uid).
  - apply guarded_update_assignments. intros u uid b w0 Hid Hk.
    now apply (users_update_profile_assignments e _ w0 u uid).
  - apply guarded_update_assignments. intros u uid b w0 Hid Hk.
    now apply (categories_update_assignments e _ w0 u uid).
Qed.

(* --------------------------------------------------------------------- *)
(** ** Deleting a task *)

(** X9.  Deleting one's own task answers 200 'Task deleted successfully'
    and removes the rows with that id and owner, and nothing else: every
    other task stays, in order, and users and categories are untouched.
    After it, fetching or deleting the same id again answers 404 'Task
    not found'. *)
Theorem task_deletion_removes_the_task e req w uid r0 :
  caller e req w = Some uid ->
  callers_task (database w) (params_id req) uid = Some r0 ->
  let out := DELETE_tasks_id e req w in
  fst out = json 200 true (Some "Task deleted successfully") None
  /\ Pg.tasks (database (snd out))
     = filter (fun r => negb (Pg.matches
                                (id_and_owner (params_id req) uid) r))
         (Pg.tasks (database w))
  /\ Pg.users (database (snd out)) = Pg.users (database w)
  /\ Pg.categories (database (snd out)) = Pg.categories (database w)
  /\ (forall e',
         fst (GET_tasks_id e' req (snd out)) = task_not_found
         /\ fst (DELETE_tasks_id e' req (snd out)) = task_not_found).
Proof.
  intros Hc Hf out.
  destruct (caller_spec e req w uid Hc) as (u & A & Hid & _).
  unfold callers_task in Hf.
  destruct (find_filter _ _ _ Hf) as (rest & F).
  set (kept := filter (fun r => negb (Pg.matches
                                        (id_and_owner (params_id req) uid)
                                        r))
                 (Pg.tasks (database w))).
  assert (E : out
              = (json 200 true (Some "Task deleted successfully") None,
                 {| database := Pg.with_rows (database w) Pg.Tasks kept;
                    issued := (issued w
                               ++ [user_lookup uid;
                                   Pg.DELETE Pg.Tasks
                                     (id_and_owner (params_id req) uid)
                                     ["id"]])%list |})).
  { unfold out, DELETE_tasks_id.
    rewrite (route_behind_guard _ _ e req w uid u A). cbn [route].
    unfold tasks_delete, req_user_id, bind.
    cbn [user with_user params_id]. rewrite Hid. cbn [ret].
    unfold query, Pg.exec, Pg.delete_rows.
    cbn [database sent issued Pg.rows_of].
    fold (id_and_owner (params_id req) uid). rewrite F. fold kept.
    cbn [map]. rewrite <- app_assoc. reflexivity. }
  rewrite E. cbn [fst snd database].
  split; [reflexivity|]. split; [now destruct (database w)|].
  split; [now destruct (database w)|]. split; [now destruct (database w)|].
  intros e'.
  set (w' := {| database := Pg.with_rows (database w) Pg.Tasks kept;
                issued := _ |}).
  assert (Hc' : caller e' req w' = Some uid).
  { rewrite <- Hc. apply caller_depends_on_users; [reflexivity|].
    unfold w'. cbn [database]. now destruct (database w). }
  assert (N : not_callers_task (database w') (params_id req) uid).
  { right. intros r Hr Hrid Hru. unfold w' in Hr. cbn [database] in Hr.
    assert (Hr' : In r kept) by (now destruct (database w)).
    apply filter_In in Hr' as [_ Hneg].
    apply negb_true_iff in Hneg.
    assert (M : Pg.matches (id_and_owner (params_id req) uid) r = true)
      by (apply matches_id_user; auto).
    congruence. }
  destruct (caller_spec e' req w' uid Hc') as (u' & A' & Hid' & _).
  split.
  - unfold GET_tasks_id.
    rewrite (route_behind_guard _ _ e' req w' uid u' A'). cbn [route].
    now rewrite (tasks_get_not_found e' (with_user req u')
                   (sent w' [user_lookup uid]) u' uid eq_refl Hid' N).
  - unfold DELETE_tasks_id.
    rewrite (route_behind_guard _ _ e' req w' uid u' A'). cbn [route].
    now rewrite (tasks_delete_not_found e' (with_user req u')
                   (sent w' [user_lookup uid]) u' uid eq_refl Hid' N).
Qed.

(* --------------------------------------------------------------------- *)
(** ** Deleting a category that other users' tasks reference *)

Lemma cleared_by_deleted_category id uid cats c r :
  In c cats -> get c "id" = VNum id -> get c "user_id" = VNum uid ->
  existsb (fun g => value_eqb (get g "id") (get r "category_id"))
    (filter (Pg.matches (id_and_owner id uid)) cats)
  = value_eqb (VNum id) (get r "category_id").
Proof.
  intros Hin Hcid Hcu.
  destruct (value_eqb (VNum id) (get r "category_id")) eqn:E.
  - apply existsb_exists. exists c. split.
    + apply filter_In. split; [exact Hin|]. now apply matches_id_user.
    + now rewrite Hcid.
  - apply not_true_is_false. intros Ex.
    apply existsb_exists in Ex as (g & Hg & Eg).
    apply filter_In in Hg as [_ Hg]. apply matches_id_user in Hg as [Hg _].
    rewrite Hg in Eg. congruence.
Qed.

(** X10.  When the owner deletes a category that none of the owner's
    tasks uses, no task is deleted and none is left pointing at the
    category: every task that referenced it, whoever owns the task, has
    its [category_id] cleared (and its [updated_at] touched), and every
    other task is left exactly as it was. *)
Theorem category_deletion_clears_references e req w uid c :
  caller e req w = Some uid ->
  find (Pg.matches [Pg.Eq "id" (VNum (params_id req))])
    (Pg.categories (database w)) = Some c ->
  get c "user_id" = VNum uid ->
  filter (Pg.matches [Pg.Eq "category_id" (VNum (params_id req));
                      Pg.Eq "user_id" (VNum uid)])
    (Pg.tasks (database w)) = [] ->
  let out := DELETE_categories_id e req w in
  status (fst out) = 200
  /\ Pg.tasks (database (snd out))
     = map (fun r =>
              if value_eqb (VNum (params_id req)) (get r "category_id")
              then set (set r "category_id" VNull) "updated_at"
                     (VDate (db_clock e))
              else r)
         (Pg.tasks (database w))
  /\ (forall r, In r (Pg.tasks (database (snd out))) ->
                get r "category_id" <> VNum (params_id req))
  /\ Pg.users (database (snd out)) = Pg.users (database w).
Proof.
  intros Hc Hf Ho Hown out.
  destruct (caller_spec e req w uid Hc) as (u & A & Hid & _).
  destruct (find_filter _ _ _ Hf) as (cs & F).
  assert (Hcin : In c (Pg.categories (database w)))
    by (apply find_some in Hf; tauto).
  assert (Hcid : get c "id" = VNum (params_id req)).
  { apply find_some in Hf as [_ Hm]. unfold Pg.matches in Hm.
    cbn [forallb] in Hm. rewrite andb_true_r in Hm.
    now apply eval_Eq_num in Hm. }
  set (cleared := map (fun r =>
                         if value_eqb (VNum (params_id req))
                              (get r "category_id")
                         then set (set r "category_id" VNull) "updated_at"
                                (VDate (db_clock e))
                         else r)
                    (Pg.tasks (database w))).
  assert (E : exists w',
             out = (json 200 true (Some "Category deleted successfully")
                      None, w')
             /\ Pg.tasks (database w') = cleared
             /\ Pg.users (database w') = Pg.users (database w)).
  { unfold out, DELETE_categories_id.
    rewrite (route_behind_guard _ _ e req w uid u A). cbn [route].
    unfold categories_delete, req_user_id, bind.
    cbn [user with_user params_id]. rewrite Hid. cbn [ret].
    rewrite query_select, sent_sent. cbn [Pg.rows_of database sent].
    rewrite F. cbn [map].
    replace (get (Pg.project ["id"; "user_id"] c) "user_id")
      with (get c "user_id") by reflexivity.
    rewrite Ho. unfold strict_eq. cbn [value_eqb]. rewrite Z.eqb_refl.
    cbn [negb]. rewrite query_select_count, sent_sent.
    cbn [row0_prop ret get String.eqb Ascii.eqb Bool.eqb].
    rewrite parseInt_to_text. cbn [of_number Pg.rows_of database sent].
    rewrite Hown. cbn [List.length Z.of_nat].
    change (lt (VNum 0) (VNum 0)) with false. cbv iota.
    unfold query at 1. unfold Pg.exec, Pg.delete_rows.
    cbn [map database sent Pg.rows_of].
    eexists. split; [reflexivity|]. cbn [database].
    split; [|now destruct (database w)].
    cbn [Pg.with_rows Pg.tasks]. unfold cleared.
    apply map_ext. intros r. unfold Pg.clear_category.
    fold (id_and_owner (params_id req) uid).
    rewrite (cleared_by_deleted_category _ _ _ c r Hcin Hcid Ho).
    reflexivity. }
  destruct E as (w' & -> & Et & Eu). cbn [fst snd].
  split; [reflexivity|]. split; [exact Et|]. split; [|exact Eu].
  intros r Hr. rewrite Et in Hr. unfold cleared in Hr.
  apply in_map_iff in Hr as (r0 & <- & _).
  destruct (value_eqb (VNum (params_id req)) (get r0 "category_id")) eqn:V.
  - rewrite get_set_other by discriminate. rewrite get_set_same.
    discriminate.
  - intros Eq. rewrite Eq in V. cbn in V. now rewrite Z.eqb_refl in V.
Qed.

(* --------------------------------------------------------------------- *)
(** ** Categories that are not the caller's, names that are taken *)

Lemma strict_eq_num_false v z :
  v <> VNum z -> strict_eq v (VNum z) = false.
Proof.
  intros Hne. apply not_true_is_false. intros E.
  apply value_eqb_num in E. contradiction.
Qed.

(** X11.  A category that exists but is not the caller's, be it a default
    category (no owner) or another user's, can be neither updated nor
    deleted: both routes answer 403 after the one look-up, for any valid
    body, and leave the tables as they were. *)
Theorem foreign_category_is_read_only e req w uid c :
  caller e req w = Some uid ->
  find (Pg.matches [Pg.Eq "id" (VNum (params_id req))])
    (Pg.categories (database w)) = Some c ->
  get c "user_id" <> VNum uid ->
  let lookup := Pg.SELECT ["id"; "user_id"] Pg.Categories
                  [Pg.Eq "id" (VNum (params_id req))] in
  DELETE_categories_id e req w
  = (json 403 false (Some "Cannot delete default categories") None,
     sent w [user_lookup uid; lookup])
  /\ (forall b,
         Joi.validate_keys categorySchemas_update (body req) = ([], b) ->
         PUT_categories_id e req w
         = (json 403 false (Some "Cannot update default categories") None,
            sent w [user_lookup uid; lookup])).
Proof.
  intros Hc Hf Ho lookup.
  destruct (caller_spec e req w uid Hc) as (u & A & Hid & _).
  destruct (find_filter _ _ _ Hf) as (cs & F).
  split.
  - unfold DELETE_categories_id.
    rewrite (route_behind_guard _ _ e req w uid u A). cbn [route].
    unfold categories_delete, req_user_id, bind.
    cbn [user with_user params_id]. rewrite Hid. cbn [ret].
    rewrite query_select, sent_sent. cbn [Pg.rows_of database sent].
    rewrite F. cbn [map].
    replace (get (Pg.project ["id"; "user_id"] c) "user_id")
      with (get c "user_id") by reflexivity.
    now rewrite (strict_eq_num_false _ _ Ho).
  - intros b V. unfold PUT_categories_id.
    rewrite (route_behind_guard _ _ e req w uid u A).
    rewrite (route_validated _ _ e (with_user req u) _ b V).
    cbn [route]. unfold categories_update, req_user_id, bind.
    cbn [user with_body with_user body params_id]. rewrite Hid.
    cbn [ret]. rewrite query_select, sent_sent.
    cbn [Pg.rows_of database sent]. rewrite F. cbn [map].
    replace (get (Pg.project ["id"; "user_id"] c) "user_id")
      with (get c "user_id") by reflexivity.
    now rewrite (strict_eq_num_false _ _ Ho).
Qed.



(** X13.  Updating the profile to an e-mail address that another user
    has answers 409 'Email is already taken' and changes nothing; the
    caller's own current address is not a conflict. *)
Theorem taken_email_is_409 e req w uid b m :
  caller e req w = Some uid ->
  Joi.validate_keys userSchemas_updateProfile (body req) = ([], b) ->
  get b "email" = VStr m -> m <> "" ->
  let others_with_email :=
    filter (Pg.matches [Pg.Eq "email" (VStr m); Pg.Neq "id" (VNum uid)])
      (Pg.users (database w)) in
  (forall r, In r (Pg.users (database w)) -> get r "email" = VStr m ->
             get r "id" = VNum uid -> ~ In r others_with_email)
  /\ (forall r z, In r (Pg.users (database w)) -> get r "email" = VStr m ->
                  get r "id" = VNum z -> z <> uid ->
                  In r others_with_email)
  /\ (others_with_email <> [] ->
      PUT_users_profile e req w
      = (json 409 false (Some "Email is already taken") None,
         sent w [user_lookup uid;
                 Pg.SELECT ["id"] Pg.Users
                   [Pg.Eq "email" (VStr m); Pg.Neq "id" (VNum uid)]])).
Proof.
  intros Hc V Hm Hne others_with_email.
  destruct (caller_spec e req w uid Hc) as (u & A & Hid & _).
  split; [|split].
  - intros r Hin He Hrid Hr. apply filter_In in Hr as [_ M].
    unfold Pg.matches in M. cbn [forallb Pg.eval_cond] in M.
    rewrite Hrid in M. cbn in M. rewrite Z.eqb_refl in M.
    cbn in M. now rewrite andb_false_r in M.
  - intros r z Hin He Hrid Hz. apply filter_In. split; [exact Hin|].
    unfold Pg.matches. cbn [forallb Pg.eval_cond]. rewrite He, Hrid.
    cbn. rewrite String.eqb_refl.
    destruct (Z.eqb_spec z uid); [contradiction|reflexivity].
  - intros Hex. unfold PUT_users_profile.
    rewrite (route_behind_guard _ _ e req w uid u A).
    rewrite (route_validated _ _ e (with_user req u) _ b V).
    cbn [route]. unfold users_update_profile, req_user_id, bind.
    cbn [user with_body with_user body]. rewrite Hid, Hm. cbn [ret].
    assert (T : truthy (VStr m) = true).
    { cbn. destruct (String.eqb_spec m ""); [contradiction|reflexivity]. }
    rewrite T, query_select, sent_sent. cbn [Pg.rows_of database sent].
    fold others_with_email. destruct others_with_email; [contradiction|].
    reflexivity.
Qed.

(* --------------------------------------------------------------------- *)
(** ** The page of GET /tasks *)




(* --------------------------------------------------------------------- *)
(** ** A created task, fetched *)

(** An INSERT of a task either fails or appends the row it built. *)
Lemma exec_insert_task_cases now d b uid :
  (exists code d', Pg.exec now (insert_task b uid) d = (Pg.Error code, d'))
  \/ Pg.exec now (insert_task b uid) d
     = (Pg.Rows [Pg.project
                   ["id"; "title"; "description"; "status"; "priority";
                    "due_date"; "created_at"; "updated_at"]
                   (inserted_task now d b uid)],
        Pg.with_rows (Pg.advance_seq d Pg.Tasks) Pg.Tasks
          (Pg.tasks d ++ [inserted_task now d b uid])).
Proof.
  unfold insert_task, Pg.exec.
  change (Pg.unknown_columns Pg.Tasks _) with false. cbv iota.
  destruct (Pg.bind_error _ _) as [code|]; [left; eauto|].
  change (has_key _ "id") with false. cbn [negb andb].
  destruct (negb (Pg.int4 _)); [left; eauto|].
  rewrite new_task_row.
  destruct (Pg.constraint_error _ _ _ _) as [code|]; [left; eauto|].
  right. reflexivity.
Qed.

(** X15.  When POST /tasks has answered 201 on a consistent tasks table,
    the task can be fetched under the id the sequence gave it: the same
    token still names the caller, GET /tasks/:id by the caller answers 200
    with the title, status and priority of the validated body (defaults
    included), the description as it was bound, the due date as the DATE
    column keeps it (the day of the validated instant, read back as that
    day's midnight; null when none was given), both timestamps at the
    time of the INSERT and no completion time; the same request by any
    other user answers 404. *)
Theorem created_task_can_be_fetched e req w uid b :
  caller e req w = Some uid ->
  Joi.validate_keys taskSchemas_create (body req) = ([], b) ->
  tasks_consistent (database w) = true ->
  status (fst (POST_tasks e req w)) = 201 ->
  let w' := snd (POST_tasks e req w) in
  let id := Pg.tasks_id_seq (database w) in
  (forall e' req', authorization req' = authorization req ->
                   caller e' req' w' = Some uid)
  /\ (forall e' req',
        caller e' req' w' = Some uid -> params_id req' = id ->
        exists r,
          fst (GET_tasks_id e' req' w')
          = json 200 true None (Some (Row (Some r)))
          /\ get r "id" = VNum id
          /\ get r "title" = get b "title"
          /\ get r "status" = get b "status"
          /\ get r "priority" = get b "priority"
          /\ get r "description" = Pg.to_param (get b "description")
          /\ get r "due_date" = Pg.bind_to "due_date" (get b "due_date")
          /\ get r "created_at" = VDate (db_clock e)
          /\ get r "updated_at" = VDate (db_clock e)
          /\ get r "completed_at" = VNull)
  /\ (forall e' req' uid',
        caller e' req' w' = Some uid' -> params_id req' = id ->
        uid' <> uid ->
        fst (GET_tasks_id e' req' w') = task_not_found).
Proof.
  intros Hc V C S w' id. subst w'.
  rewrite (POST_tasks_run e req w uid b Hc V) in *.
  destruct (exec_insert_task_cases (db_clock e) (database w) b uid)
    as [(code & d' & E)|E]; rewrite E in *; cbn [fst snd] in *.
  { now destruct (errorHandler_database_error e code) as [_ N]. }
  clear S.
  set (row := inserted_task (db_clock e) (database w) b uid) in *.
  set (w1 := {| database := _; issued := _ |}).
  destruct (validated_create_body _ b V)
    as ((s & Ht & _) & _ & Hs & Hp & _ & _).
  apply tasks_consistent_spec in C as [_ Ids].
  assert (Old : forall uid' r, In r (Pg.tasks (database w)) ->
                  Pg.matches (id_and_owner id uid') r = false).
  { intros uid' r Hr.
    destruct (Pg.matches (id_and_owner id uid') r) eqn:M; [|reflexivity].
    apply matches_id_user in M as [M _].
    destruct (Ids r Hr) as (z & Hz & Hlt). rewrite Hz in M.
    injection M as ->. unfold id in Hlt. lia. }
  assert (Sel : forall uid',
             filter (Pg.matches (id_and_owner id uid'))
               (Pg.tasks (database w1))
             = if uid' =? uid then [row] else []).
  { intros uid'. unfold w1. cbn [database Pg.with_rows Pg.tasks].
    rewrite filter_app, (filter_none _ _ (Old uid')). cbn [app filter].
    unfold id_and_owner, Pg.matches, row, inserted_task, id.
    cbn [forallb Pg.eval_cond]. rewrite !bind_to_num.
    cbn [get String.eqb Ascii.eqb Bool.eqb
         Pg.to_param value_eqb Pg.is_null negb].
    rewrite Z.eqb_refl, !andb_true_r, (Z.eqb_sym uid uid').
    now destruct (uid' =? uid). }
  split; [|split].
  - intros e' req' Ha.
    rewrite (caller_depends_on_users e e' req req' w w1 Ha); [exact Hc|].
    reflexivity.
  - intros e' req' Hc' Hid.
    destruct (caller_spec e' req' w1 uid Hc') as (u & A & Hu & _).
    unfold GET_tasks_id. rewrite (route_behind_guard _ _ e' req' w1 uid u A).
    cbn [route]. unfold tasks_get, req_user_id, bind.
    cbn [user with_user params_id]. rewrite Hu, Hid. cbn [ret].
    rewrite query_select_join. fold (id_and_owner id uid).
    cbn [sent database]. rewrite Sel, Z.eqb_refl.
    cbn [map Pg.limit_rows fst]. eexists. split; [reflexivity|].
    unfold Pg.joined_row, row, inserted_task, Pg.project.
    cbn [map app get String.eqb Ascii.eqb Bool.eqb].
    rewrite Ht.
    destruct Hs as [<-|[<-|[<-|[]]]]; destruct Hp as [<-|[<-|[<-|[]]]];
      repeat split; reflexivity.
  - intros e' req' uid' Hc' Hid Hne.
    destruct (caller_spec e' req' w1 uid' Hc') as (u & A & Hu & _).
    unfold GET_tasks_id.
    rewrite (route_behind_guard _ _ e' req' w1 uid' u A).
    cbn [route]. unfold tasks_get, req_user_id, bind.
    cbn [user with_user params_id]. rewrite Hu, Hid. cbn [ret].
    rewrite query_select_join. fold (id_and_owner id uid').
    cbn [sent database]. rewrite Sel.
    destruct (Z.eqb_spec uid' uid); [contradiction|]. reflexivity.
Qed.

(* --------------------------------------------------------------------- *)
(** ** The profile, read *)

(** X16.  GET /users/profile behind its guard.  The guard's look-up and
    the handler's are two statements: the handler answers 404 'User not
    found' exactly when no row of the user is left in the table its own
    look-up reads, which takes a deletion of the user after the guard's
    look-up; it answers 200 with id, name, email, avatar_url and
    created_at of the stored user, and no password, when there is one.
    Neither look-up changes a table.  When no statement of another
    request lands between the two, the route never answers 404. *)
Theorem profile_read_404_needs_a_deletion e req w req' w1 :
  authenticateToken e req w = (Next req', w1) ->
  exists u uid,
    user req' = Some u /\ get u "id" = VNum uid
    /\ database w1 = database w
    /\ (forall w2,
          let ans := route [] users_get_profile e req' w2 in
          database (snd ans) = database w2
          /\ ((forall r, In r (Pg.users (database w2)) ->
                         get r "id" <> VNum uid) ->
              fst ans = json 404 false (Some "User not found") None)
          /\ ((exists r, In r (Pg.users (database w2))
                         /\ get r "id" = VNum uid) ->
              exists r,
                In r (Pg.users (database w2)) /\ get r "id" = VNum uid
                /\ fst ans
                   = json 200 true None
                       (Some (Row (Some (Pg.project
                                           ["id"; "name"; "email";
                                            "avatar_url"; "created_at"]
                                           r))))
                /\ get (Pg.project ["id"; "name"; "email"; "avatar_url";
                                    "created_at"] r) "password"
                   = VUndefined))
    /\ GET_users_profile e req w = route [] users_get_profile e req' w1
    /\ status (fst (GET_users_profile e req w)) = 200.
Proof.
  intros A. pose proof A as A'.
  apply authenticateToken_Next in A
    as (token & uid & r0 & Hb & Hv & Hin0 & Hid0 & -> & ->).
  eexists. exists uid. split; [reflexivity|].
  split; [exact Hid0|]. split; [reflexivity|].
  assert (Hh : forall w2,
             users_get_profile e
               (with_user req
                  (Pg.project ["id"; "name"; "email"; "avatar_url";
                               "created_at"] r0)) w2
             = (inl match filter (Pg.matches [Pg.Eq "id" (VNum uid)])
                            (Pg.users (database w2)) with
                    | [] => json 404 false (Some "User not found") None
                    | r :: _ =>
                        json 200 true None
                          (Some (Row (Some (Pg.project
                                              ["id"; "name"; "email";
                                               "avatar_url"; "created_at"]
                                              r))))
                    end,
                sent w2 [user_lookup uid])).
  { intros w2. unfold users_get_profile, req_user_id, bind.
    cbn [user with_user ret].
    replace (get (Pg.project _ r0) "id") with (get r0 "id") by reflexivity.
    rewrite Hid0, query_select. cbn [Pg.rows_of].
    destruct (filter _ _) as [|r rs]; reflexivity. }
  assert (Hm : forall r, Pg.matches [Pg.Eq "id" (VNum uid)] r = true
                         <-> get r "id" = VNum uid).
  { intros r. unfold Pg.matches. cbn [forallb].
    rewrite andb_true_r. apply eval_Eq_num. }
  split; [|split].
  - intros w2 ans. subst ans. cbn [route]. rewrite Hh.
    cbn [fst snd sent database]. split; [reflexivity|]. split.
    + intros Hno. rewrite filter_none; [reflexivity|].
      intros r Hr. apply not_true_is_false. intros M.
      apply Hm in M. exact (Hno r Hr M).
    + intros (r & Hr & Hid).
      destruct (filter_inhabited (Pg.matches [Pg.Eq "id" (VNum uid)])
                  _ r Hr (proj2 (Hm r) Hid)) as (y & ys & F).
      rewrite F. exists y.
      assert (Hy : In y (y :: ys)) by now left.
      rewrite <- F in Hy. apply filter_In in Hy as [Hy My].
      apply Hm in My. repeat split; auto.
  - unfold GET_users_profile. cbn [route]. now rewrite A'.
  - unfold GET_users_profile. cbn [route]. rewrite A'. cbn [route].
    rewrite Hh. cbn [fst sent database].
    destruct (filter_inhabited (Pg.matches [Pg.Eq "id" (VNum uid)])
                _ r0 Hin0 (proj2 (Hm r0) Hid0)) as (y & ys & F).
    now rewrite F.
Qed.
End Properties.

(* ===================================================================== *)
(** * Instances on the seed data *)
(* ===================================================================== *)

#[local] Existing Instance Seed.platform.

Lemma invalid_token_rejected_witness :
  authenticateToken (Seed.env_at 0) (Seed.request_of "forged" 1 [] [])
    Seed.world0
  = (Send (json 403 false (Some "Invalid or expired token") None),
     Seed.world0)
  /\ caller (Seed.env_at 0) (Seed.request_of "forged" 1 [] []) Seed.world0
     = None.
Proof.
  apply (invalid_token_rejected (Seed.env_at 0)
           (Seed.request_of "forged" 1 [] []) Seed.world0 "forged").
  - reflexivity.
  - discriminate.
  - reflexivity.
Defined.

(** C4, the claim as written fails: a forged token is answered with
    status 403, not 401. *)
Lemma invalid_token_status_is_not_401 :
  exists r,
    authenticateToken (Seed.env_at 0) (Seed.request_of "forged" 1 [] [])
      Seed.world0 = (Send r, Seed.world0)
    /\ status r = 403 /\ status r <> 401.
Proof.
  eexists. split; [reflexivity|]. split; [reflexivity|discriminate].
Qed.


Lemma seed_task_1_is_not_johns : not_callers_task Seed.db 1 2.
Proof.
  right. intros r Hin Hid.
  repeat (destruct Hin as [<-|Hin]; [cbn in *; congruence|]).
  destruct Hin.
Qed.

Lemma foreign_task_is_not_found_witness :
  GET_tasks_id (Seed.env_at 0) (Seed.request_of Seed.john 1 [] [])
    Seed.world0
  = (task_not_found,
     sent Seed.world0
       [user_lookup 2;
        Pg.SELECT_TASKS_JOIN_CATEGORIES (id_and_owner 1 2) None None]).
Proof.
  apply (foreign_task_is_not_found (Seed.env_at 0)
           (Seed.request_of Seed.john 1 [] []) Seed.world0 2).
  - reflexivity.
  - reflexivity.
  - exact seed_task_1_is_not_johns.
Defined.

(** C1, the claim as written fails: John updates task 1, which is the
    admin's, with an empty title; the answer is the 400 of the validation
    middleware, not the 404. *)
Lemma foreign_task_update_can_answer_400 :
  let req := Seed.request_of Seed.john 1 [("title", VStr "")] [] in
  caller (Seed.env_at 0) req Seed.world0 = Some 2
  /\ not_callers_task (database Seed.world0) (params_id req) 2
  /\ fst (PUT_tasks_id (Seed.env_at 0) req Seed.world0)
     = validation_failure "Validation error" [("title", Joi.StringEmpty)]
  /\ fst (PUT_tasks_id (Seed.env_at 0) req Seed.world0) <> task_not_found.
Proof.
  cbv zeta. split; [reflexivity|]. split; [exact seed_task_1_is_not_johns|].
  split; [reflexivity|]. discriminate.
Qed.

Lemma empty_update_changes_nothing_witness :
  Joi.validate_keys userSchemas_updateProfile [("role", VStr "admin")]
  = ([], [])
  /\ PUT_users_profile (Seed.env_at 0)
       (Seed.request_of Seed.john 0 [("role", VStr "admin")] [])
       Seed.world0
     = (no_valid_fields, sent Seed.world0 [user_lookup 2]).
Proof.
  split; [reflexivity|].
  apply (empty_update_changes_nothing (Seed.env_at 0)
           (Seed.request_of Seed.john 0 [("role", VStr "admin")] [])
           Seed.world0 2).
  - reflexivity.
  - reflexivity.
Defined.

(** C3, the claim as written fails: an empty update of a task that is not
    the caller's is answered 404, not 400. *)
Lemma empty_update_of_foreign_task_is_404 :
  let req := Seed.request_of Seed.john 1 [] [] in
  caller (Seed.env_at 0) req Seed.world0 = Some 2
  /\ Joi.validate_keys taskSchemas_update (body req) = ([], [])
  /\ fst (PUT_tasks_id (Seed.env_at 0) req Seed.world0) = task_not_found
  /\ status (fst (PUT_tasks_id (Seed.env_at 0) req Seed.world0)) <> 400.
Proof.
  cbv zeta. repeat split; try reflexivity. discriminate.
Qed.

Lemma category_deletion_counts_own_tasks_witness :
  existsb (fun r => value_eqb (get r "category_id") (VNum 5)
                    && value_eqb (get r "user_id") (VNum 1))
    (Pg.tasks (database Seed.world_with_shared_category)) = true
  /\ exists w',
       DELETE_categories_id (Seed.env_at 30)
         (Seed.request_of Seed.john 5 [] [])
         Seed.world_with_shared_category
       = (json 200 true (Some "Category deleted successfully") None, w').
Proof.
  split; [vm_compute; reflexivity|].
  assert (Hc : caller (Seed.env_at 30) (Seed.request_of Seed.john 5 [] [])
                 Seed.world_with_shared_category = Some 2)
    by (vm_compute; reflexivity).
  assert (Hf : find (Pg.matches [Pg.Eq "id" (VNum 5)])
                 (Pg.categories (database Seed.world_with_shared_category))
               = Some [("id", VNum 5); ("name", VStr "Errands");
                       ("color", VStr "#3B82F6"); ("user_id", VNum 2);
                       ("created_at", VDate 10)])
    by (vm_compute; reflexivity).
  destruct (category_deletion_counts_own_tasks (Seed.env_at 30)
              (Seed.request_of Seed.john 5 [] [])
              Seed.world_with_shared_category 2 _ Hc Hf eq_refl)
    as (w' & E & _).
  exists w'. exact E.
Defined.


Lemma validation_fills_defaults_witness :
  get (snd (Joi.validate_keys taskSchemas_create
              [("title", VStr "Water plants")])) "status"
  = VStr "pending".
Proof.
  pose proof (validation_fills_defaults [("title", VStr "Water plants")])
    as D.
  destruct D as [D _]. apply D. reflexivity.
Defined.

Lemma successful_update_and_updated_at_witness :
  exists fields wh ret before row,
    issued (snd (PUT_tasks_id (Seed.env_at 100)
                   (Seed.request_of Seed.john 4
                      [("title", VStr "Learn React well")] [])
                   Seed.world0))
    = (before
       ++ [Pg.UPDATE Pg.Tasks
             (fields ++ [Pg.SetCurrentTimestamp "updated_at"]) wh ret])%list
    /\ data (fst (PUT_tasks_id (Seed.env_at 100)
                    (Seed.request_of Seed.john 4
                       [("title", VStr "Learn React well")] [])
                    Seed.world0))
       = Some (Row (Some row))
    /\ get row "updated_at" = VDate 100.
Proof.
  assert (Ok : status (fst (PUT_tasks_id (Seed.env_at 100)
                              (Seed.request_of Seed.john 4
                                 [("title", VStr "Learn React well")] [])
                              Seed.world0)) = 200)
    by (vm_compute; reflexivity).
  destruct (successful_update_and_updated_at (Seed.env_at 100)
              (Seed.request_of Seed.john 4
                 [("title", VStr "Learn React well")] [])
              Seed.world0 _
              (snd (PUT_tasks_id (Seed.env_at 100)
                      (Seed.request_of Seed.john 4
                         [("title", VStr "Learn React well")] [])
                      Seed.world0)) Ok) as [T _].
  apply T. apply surjective_pairing.
Defined.

(** C6, the claim as written fails: John renames his category; the update
    succeeds, its UPDATE statement assigns the name and nothing else, and
    the stored row has no [updated_at] at all. *)
Lemma category_update_leaves_updated_at_alone :
  let out := PUT_categories_id (Seed.env_at 30)
               (Seed.request_of Seed.john 5 [("name", VStr "Chores")] [])
               Seed.world_with_errands in
  status (fst out) = 200
  /\ last (issued (snd out)) (user_lookup 0)
     = Pg.UPDATE Pg.Categories [Pg.SetParam "name" (VStr "Chores")]
         [Pg.Eq "id" (VNum 5); Pg.Eq "user_id" (VNum 2)]
         ["id"; "name"; "color"; "created_at"]
  /\ existsb (fun a => String.eqb (Pg.assigned_column a) "updated_at")
       (set_of (last (issued (snd out)) (user_lookup 0))) = false
  /\ forallb (fun r => strict_eq (get r "updated_at") VUndefined
                       || negb (strict_eq (get r "id") (VNum 5)))
       (Pg.categories (database (snd out))) = true.
Proof.
  cbv zeta. repeat split; vm_compute; reflexivity.
Qed.




(** C2, the failing input: John creates a task that is completed from the
    start.  The row is stored with status 'completed' and no
    [completed_at]; setting the status to 'completed' again leaves it
    without one. *)
Lemma created_completed_task_has_no_completed_at :
  let create := POST_tasks (Seed.env_at 100)
                  (Seed.request_of Seed.john 0
                     [("title", VStr "Already done");
                      ("status", VStr "completed")] [])
                  Seed.world0 in
  let again := PUT_tasks_id (Seed.env_at 200)
                 (Seed.request_of Seed.john 6
                    [("status", VStr "completed")] [])
                 (snd create) in
  status (fst create) = 201
  /\ task_field (database (snd create)) 6 2 "status" = VStr "completed"
  /\ task_field (database (snd create)) 6 2 "completed_at" = VNull
  /\ status (fst again) = 200
  /\ task_field (database (snd again)) 6 2 "status" = VStr "completed"
  /\ task_field (database (snd again)) 6 2 "completed_at" = VNull.
Proof.
  cbv zeta. repeat split; vm_compute; reflexivity.
Qed.

(* --------------------------------------------------------------------- *)
(** ** The rate limiter on a short run *)

Lemma rate_limiter_decides_by_history_witness :
  fst (RateLimiter.run RateLimiter.Traffic.cfg RateLimiter.Traffic.burst [])
  = RateLimiter.by_history RateLimiter.Traffic.cfg RateLimiter.Traffic.burst
      [].
Proof.
  apply (rate_limiter_decides_by_history RateLimiter.Traffic.cfg
           RateLimiter.Traffic.burst 0).
  - unfold RateLimiter.Traffic.burst. cbn. lia.
  - lia.
  - unfold RateLimiter.clock_readings, RateLimiter.Traffic.burst,
      RateLimiter.MAX_DATE.
    repeat constructor; cbn; lia.
  - split; reflexivity.
Defined.

(** A window so long that the reset instant is past the last [Date]:
    both requests are recorded and end in a RangeError, the third is
    refused with the 429 all the same. *)
Lemma reset_instant_past_the_last_date :
  map RateLimiter.passed
    (fst (RateLimiter.run RateLimiter.Traffic.endless
            [RateLimiter.Request RateLimiter.Traffic.today
               RateLimiter.Traffic.alice;
             RateLimiter.Request (RateLimiter.Traffic.today + 1)
               RateLimiter.Traffic.alice;
             RateLimiter.Request (RateLimiter.Traffic.today + 2)
               RateLimiter.Traffic.alice] []))
  = [false; false; false]
  /\ RateLimiter.rateLimiter RateLimiter.Traffic.endless
       RateLimiter.Traffic.today RateLimiter.Traffic.alice []
     = (RateLimiter.Throw "RangeError",
        [("10.0.0.1", [RateLimiter.Traffic.today])])
  /\ RateLimiter.rateLimiter RateLimiter.Traffic.cfg
       RateLimiter.Traffic.today
       {| RateLimiter.ip := Some "constructor";
          RateLimiter.remoteAddress := None |} []
     = (RateLimiter.Throw "TypeError", []).
Proof. repeat split; vm_compute; reflexivity. Qed.

Lemma sweeps_change_no_decision_witness :
  map RateLimiter.passed
    (fst (RateLimiter.run RateLimiter.Traffic.cfg RateLimiter.Traffic.burst
            []))
  = map RateLimiter.passed
      (fst (RateLimiter.run RateLimiter.Traffic.cfg
              (filter RateLimiter.is_request RateLimiter.Traffic.burst) [])).
Proof.
  apply (sweeps_change_no_decision RateLimiter.Traffic.cfg
           RateLimiter.Traffic.burst 0).
  unfold RateLimiter.Traffic.burst. cbn. lia.
Defined.

(** The third request of the burst finds two younger than a second and
    is told to retry after one second; nothing is recorded for it. *)
Lemma rate_limiter_answer_witness :
  let s := [("10.0.0.1", [0; 10])] in
  match fst (RateLimiter.rateLimiter RateLimiter.Traffic.cfg 20
               RateLimiter.Traffic.alice s) with
  | RateLimiter.Reject r =>
      RateLimiter.status r = 429 /\ RateLimiter.retryAfter r = VNum 1
  | _ => False
  end
  /\ RateLimiter.timestamps
       (snd (RateLimiter.rateLimiter RateLimiter.Traffic.cfg 20
               RateLimiter.Traffic.alice s)) "10.0.0.1" = [0; 10].
Proof.
  cbv zeta.
  pose proof (rate_limiter_answer RateLimiter.Traffic.cfg 20
                RateLimiter.Traffic.alice [("10.0.0.1", [0; 10])]
                ltac:(reflexivity) ltac:(split; reflexivity)
                ltac:(unfold RateLimiter.MAX_DATE; lia)) as T.
  cbv zeta in T. destruct T as [_ T]. specialize (T eq_refl).
  change (RateLimiter.clientId RateLimiter.Traffic.alice)
    with "10.0.0.1" in T.
  destruct (fst (RateLimiter.rateLimiter RateLimiter.Traffic.cfg 20
                   RateLimiter.Traffic.alice [("10.0.0.1", [0; 10])]))
    as [r|h|name] eqn:E.
  - destruct T as (_ & St & (n & Rn & Lo & Hi) & After).
    split; [split; [exact St|]|exact After].
    rewrite Rn. f_equal.
    change (RateLimiter.windowMs RateLimiter.Traffic.cfg) with 1000 in *.
    lia.
  - discriminate E.
  - discriminate E.
Defined.

(* --------------------------------------------------------------------- *)
(** ** The error handler on a unique violation *)

Lemma storage_errors_are_translated_witness :
  status (errorHandler (Seed.env_at 0) (DatabaseError "23505")) = 409
  /\ message (errorHandler (Seed.env_at 0) (DatabaseError "23505"))
     = Some "Resource already exists".
Proof.
  pose proof (storage_errors_are_translated (Seed.env_at 0)
                (DatabaseError "23505") "23505" eq_refl
                ltac:(discriminate)) as T.
  cbv zeta in T. destruct T as (_ & _ & _ & _ & T & _).
  split; [|reflexivity].
  apply T; discriminate.
Defined.

(* --------------------------------------------------------------------- *)
(** ** Deletions on the seed data *)

(** John deletes his task 4; it cannot be fetched afterwards. *)
Lemma task_deletion_removes_the_task_witness :
  fst (DELETE_tasks_id (Seed.env_at 0) (Seed.request_of Seed.john 4 [] [])
         Seed.world0)
  = json 200 true (Some "Task deleted successfully") None
  /\ fst (GET_tasks_id (Seed.env_at 1) (Seed.request_of Seed.john 4 [] [])
            (snd (DELETE_tasks_id (Seed.env_at 0)
                    (Seed.request_of Seed.john 4 [] []) Seed.world0)))
     = task_not_found.
Proof.
  assert (Hc : caller (Seed.env_at 0) (Seed.request_of Seed.john 4 [] [])
                 Seed.world0 = Some 2) by (vm_compute; reflexivity).
  assert (Ht : callers_task (database Seed.world0)
                 (params_id (Seed.request_of Seed.john 4 [] [])) 2
               = Some (nth 3 (Pg.tasks Seed.db) []))
    by (vm_compute; reflexivity).
  pose proof (task_deletion_removes_the_task (Seed.env_at 0)
                (Seed.request_of Seed.john 4 [] []) Seed.world0 2 _ Hc Ht)
    as T.
  cbv zeta in T. destruct T as (A & _ & _ & _ & B).
  split; [exact A|]. destruct (B (Seed.env_at 1)) as [G _]. exact G.
Defined.

(** John deletes his category 'Errands', which a task of the admin
    references: the reference is cleared. *)
Lemma category_deletion_clears_references_witness :
  status (fst (DELETE_categories_id (Seed.env_at 30)
                 (Seed.request_of Seed.john 5 [] [])
                 Seed.world_with_shared_category)) = 200
  /\ forall r,
       In r (Pg.tasks
               (database
                  (snd (DELETE_categories_id (Seed.env_at 30)
                          (Seed.request_of Seed.john 5 [] [])
                          Seed.world_with_shared_category)))) ->
       get r "category_id"
       <> VNum (params_id (Seed.request_of Seed.john 5 [] [])).
Proof.
  assert (Hc : caller (Seed.env_at 30) (Seed.request_of Seed.john 5 [] [])
                 Seed.world_with_shared_category = Some 2)
    by (vm_compute; reflexivity).
  assert (Hf : find (Pg.matches
                       [Pg.Eq "id"
                          (VNum (params_id
                                   (Seed.request_of Seed.john 5 [] [])))])
                 (Pg.categories (database Seed.world_with_shared_category))
               = Some (nth 4
                         (Pg.categories
                            (database Seed.world_with_shared_category)) []))
    by (vm_compute; reflexivity).
  pose proof (category_deletion_clears_references (Seed.env_at 30)
                (Seed.request_of Seed.john 5 [] [])
                Seed.world_with_shared_category 2 _ Hc Hf
                ltac:(vm_compute; reflexivity)
                ltac:(vm_compute; reflexivity)) as T.
  cbv zeta in T. destruct T as (A & _ & B & _).
  split; [exact A|exact B].
Defined.

(** John cannot delete the default category 'Work'. *)
Lemma foreign_category_is_read_only_witness :
  DELETE_categories_id (Seed.env_at 0) (Seed.request_of Seed.john 1 [] [])
    Seed.world0
  = (json 403 false (Some "Cannot delete default categories") None,
     sent Seed.world0
       [user_lookup 2;
        Pg.SELECT ["id"; "user_id"] Pg.Categories
          [Pg.Eq "id"
             (VNum (params_id (Seed.request_of Seed.john 1 [] [])))]]).
Proof.
  assert (Hc : caller (Seed.env_at 0) (Seed.request_of Seed.john 1 [] [])
                 Seed.world0 = Some 2) by (vm_compute; reflexivity).
  assert (Hf : find (Pg.matches
                       [Pg.Eq "id"
                          (VNum (params_id
                                   (Seed.request_of Seed.john 1 [] [])))])
                 (Pg.categories (database Seed.world0))
               = Some (Seed.category_row 1 "Work" "#EF4444" VNull))
    by (vm_compute; reflexivity).
  pose proof (foreign_category_is_read_only (Seed.env_at 0)
                (Seed.request_of Seed.john 1 [] []) Seed.world0 2 _ Hc Hf
                ltac:(discriminate)) as T.
  cbv zeta in T. destruct T as (A & _). exact A.
Defined.

(* --------------------------------------------------------------------- *)
(** ** Conflicts on the seed data *)


(** John asks for the admin's address. *)
Lemma taken_email_is_409_witness :
  fst (PUT_users_profile (Seed.env_at 0)
         (Seed.request_of Seed.john 0
            [("email", VStr "admin@example.com")] [])
         Seed.world0)
  = json 409 false (Some "Email is already taken") None.
Proof.
  assert (Hc : caller (Seed.env_at 0)
                 (Seed.request_of Seed.john 0
                    [("email", VStr "admin@example.com")] [])
                 Seed.world0 = Some 2) by (vm_compute; reflexivity).
  assert (V : Joi.validate_keys userSchemas_updateProfile
                (body (Seed.request_of Seed.john 0
                         [("email", VStr "admin@example.com")] []))
              = ([], [("email", VStr "admin@example.com")]))
    by (vm_compute; reflexivity).
  pose proof (taken_email_is_409 (Seed.env_at 0)
                (Seed.request_of Seed.john 0
                   [("email", VStr "admin@example.com")] [])
                Seed.world0 2 _ "admin@example.com" Hc V eq_refl
                ltac:(discriminate)) as T.
  cbv zeta in T. destruct T as (_ & _ & T).
  rewrite T; [reflexivity|]. vm_compute. discriminate.
Defined.

(* --------------------------------------------------------------------- *)
(** ** Listing, and fetching what was created *)


(** John creates a task with a title only and fetches it under the id 6;
    the admin cannot. *)
Lemma created_task_can_be_fetched_witness :
  let post := Seed.request_of Seed.john 0 [("title", VStr "Water plants")] []
  in
  let w' := snd (POST_tasks (Seed.env_at 30) post Seed.world0) in
  (exists r,
      fst (GET_tasks_id (Seed.env_at 31) (Seed.request_of Seed.john 6 [] [])
             w')
      = json 200 true None (Some (Row (Some r)))
      /\ get r "title" = VStr "Water plants"
      /\ get r "status" = VStr "pending"
      /\ get r "priority" = VStr "medium"
      /\ get r "created_at" = VDate 30)
  /\ fst (GET_tasks_id (Seed.env_at 31) (Seed.request_of Seed.admin 6 [] [])
            w')
     = task_not_found.
Proof.
  cbv zeta.
  assert (Hc : caller (Seed.env_at 30)
                 (Seed.request_of Seed.john 0
                    [("title", VStr "Water plants")] [])
                 Seed.world0 = Some 2) by (vm_compute; reflexivity).
  assert (V : Joi.validate_keys taskSchemas_create
                (body (Seed.request_of Seed.john 0
                         [("title", VStr "Water plants")] []))
              = ([], [("title", VStr "Water plants");
                      ("status", VStr "pending");
                      ("priority", VStr "medium")]))
    by (vm_compute; reflexivity).
  pose proof (created_task_can_be_fetched (Seed.env_at 30)
                (Seed.request_of Seed.john 0
                   [("title", VStr "Water plants")] [])
                Seed.world0 2 _ Hc V
                ltac:(vm_compute; reflexivity)
                ltac:(vm_compute; reflexivity)) as T.
  cbv zeta in T. destruct T as (_ & Own & Other).
  split.
  - destruct (Own (Seed.env_at 31) (Seed.request_of Seed.john 6 [] [])
                ltac:(vm_compute; reflexivity) eq_refl)
      as (r & G & _ & Ti & St & Pr & _ & _ & Cr & _).
    exists r. split; [exact G|]. split; [exact Ti|]. split; [exact St|].
    split; [exact Pr|exact Cr].
  - apply (Other (Seed.env_at 31) (Seed.request_of Seed.admin 6 [] []) 1).
    + vm_compute. reflexivity.
    + reflexivity.
    + discriminate.
Defined.

(* --------------------------------------------------------------------- *)
(** ** The profile, and an account deleted in between *)

(** John reads his profile and is answered 200.  When his account is
    deleted after the guard has found him and before the handler looks
    him up, the same request is answered 404 'User not found'. *)
Lemma profile_read_404_needs_a_deletion_witness :
  let req := Seed.request_of Seed.john 0 [] [] in
  let gone :=
    {| database := snd (Pg.exec 5
                          (Pg.DELETE Pg.Users [Pg.Eq "id" (VNum 2)] ["id"])
                          Seed.db);
       issued := [user_lookup 2] |} in
  status (fst (GET_users_profile (Seed.env_at 0) req Seed.world0)) = 200
  /\ exists req',
       authenticateToken (Seed.env_at 0) req Seed.world0
       = (Next req', sent Seed.world0 [user_lookup 2])
       /\ fst (route [] users_get_profile (Seed.env_at 0) req' gone)
          = json 404 false (Some "User not found") None.
Proof.
  cbv zeta.
  assert (A : authenticateToken (Seed.env_at 0)
                (Seed.request_of Seed.john 0 [] []) Seed.world0
              = (Next (with_user (Seed.request_of Seed.john 0 [] [])
                         (Pg.project ["id"; "name"; "email"; "avatar_url";
                                      "created_at"]
                            (Seed.user_row 2 "John Doe"
                               "user@example.com"))),
                 sent Seed.world0 [user_lookup 2]))
    by (vm_compute; reflexivity).
  pose proof (profile_read_404_needs_a_deletion (Seed.env_at 0) _ _ _ _ A)
    as T.
  destruct T as (u & uid & Hu & Hid & _ & Hh & _ & S).
  split; [exact S|]. eexists. split; [exact A|].
  cbn [user with_user] in Hu. injection Hu as <-.
  vm_compute in Hid. injection Hid as <-.
  destruct (Hh {| database :=
                    snd (Pg.exec 5
                           (Pg.DELETE Pg.Users [Pg.Eq "id" (VNum 2)] ["id"])
                           Seed.db);
                  issued := [user_lookup 2] |}) as (_ & N & _).
  apply N. intros r Hin. vm_compute in Hin.
  destruct Hin as [<-|[]]. vm_compute. discriminate.
Defined.
